(** * Survey backend: response submission and statistics aggregation

    A shallow embedding of [api/routes/responses.ts]:
    - [POST /api/responses]                   (the submission handler),
    - [GET /api/responses/survey/:id/stats]   (the statistics handler),
    together with the ECMAScript built-ins the two handlers rely on
    ([parseFloat], [isNaN], [Number.prototype.toString], the arithmetic of
    Number values, and property access on an object literal). *)

From Stdlib Require Import ZArith String Ascii List Lia SpecFloat.
From stdpp Require Import gmap strings list fin_maps.

Local Open Scope string_scope.

(** ** ECMAScript Number values

    A Number is an IEEE 754 binary64 value.  [spec_float] is the standard
    library's specification of such values (one NaN, signed zeros and
    infinities, finite values [m * 2^e] in canonical form); its operations
    round to nearest, ties to even, as ECMAScript requires. *)

Module JS.

Definition number : Type := spec_float.

Definition prec : Z := 53.
Definition emax : Z := 1024.

Definition NaN : number := S754_nan.
Definition pos_zero : number := S754_zero false.

Definition isNaN (x : number) : bool :=
  match x with S754_nan => true | _ => false end.

(** [x + y] and [x / y] on Numbers. *)
Definition add (x y : number) : number := SFadd prec emax x y.
Definition div (x y : number) : number := SFdiv prec emax x y.

(** An array length, used as a Number. *)
Definition of_nat (n : nat) : number :=
  binary_normalize prec emax (Z.of_nat n) 0 false.

(** The Number value of the decimal [m * 10^e] ([0 <= m]), with sign [neg]:
    the exact quotient is rounded once, to nearest-even. *)
Definition of_decimal (neg : bool) (m e : Z) : number :=
  match m with
  | Zpos p =>
      if (0 <=? e)%Z
      then binary_normalize prec emax
             (if neg then Z.opp (m * 10 ^ e) else m * 10 ^ e)%Z 0 neg
      else SFdiv prec emax (S754_finite neg p 0)
             (S754_finite false (Z.to_pos (10 ^ (- e))) 0)
  | _ => S754_zero neg
  end.

Definition number_eqb (x y : number) : bool :=
  match x, y with
  | S754_zero a, S754_zero b => Bool.eqb a b
  | S754_infinity a, S754_infinity b => Bool.eqb a b
  | S754_nan, S754_nan => true
  | S754_finite a m e, S754_finite b n f =>
      Bool.eqb a b && Pos.eqb m n && Z.eqb e f
  | _, _ => false
  end.

(** *** Characters and digit strings *)

Definition is_digit (c : ascii) : bool :=
  let n := nat_of_ascii c in (48 <=? n)%nat && (n <=? 57)%nat.

Definition digit_char (d : Z) : ascii :=
  match d with
  | 1 => "1" | 2 => "2" | 3 => "3" | 4 => "4" | 5 => "5"
  | 6 => "6" | 7 => "7" | 8 => "8" | 9 => "9" | _ => "0"
  end%Z%char.

Definition digit_val (c : ascii) : Z := Z.of_nat (nat_of_ascii c) - 48.

(** The longest prefix of decimal digits, and what follows it. *)
Fixpoint span_digits (s : string) : string * string :=
  match s with
  | String c r =>
      if is_digit c
      then let '(d, r') := span_digits r in (String c d, r')
      else (EmptyString, s)
  | EmptyString => (EmptyString, EmptyString)
  end.

Fixpoint digits_value_from (acc : Z) (s : string) : Z :=
  match s with
  | String c r => digits_value_from (10 * acc + digit_val c) r
  | EmptyString => acc
  end.

Definition digits_value (s : string) : Z := digits_value_from 0 s.

Fixpoint digits_aux (fuel : nat) (n : Z) (acc : string) : string :=
  match fuel with
  | O => acc
  | S f =>
      if (n <? 10)%Z then String (digit_char n) acc
      else digits_aux f (n / 10) (String (digit_char (n mod 10)) acc)
  end.

(** The decimal digits of [n >= 0], most significant first. *)
Definition decimal_digits (n : Z) : string :=
  digits_aux (S (Z.to_nat (Z.log2 n))) n EmptyString.

Fixpoint zeros (n : nat) : string :=
  match n with O => EmptyString | S k => String "0" (zeros k) end.

Fixpoint str_take (n : nat) (s : string) : string :=
  match n, s with
  | S k, String c r => String c (str_take k r)
  | _, _ => EmptyString
  end.

Fixpoint str_drop (n : nat) (s : string) : string :=
  match n, s with
  | S k, String _ r => str_drop k r
  | _, _ => s
  end.

(** *** [parseFloat]

    Strings are held as UTF-8 byte sequences.  [trim_start] removes the
    leading WhiteSpace and LineTerminator code points. *)

Fixpoint trim_start (s : string) : string :=
  match s with
  | String c r =>
      let n := nat_of_ascii c in
      if (n =? 9)%nat || (n =? 10)%nat || (n =? 11)%nat || (n =? 12)%nat
         || (n =? 13)%nat || (n =? 32)%nat
      then trim_start r
      else
        match r with
        | String c1 r1 =>
            let n1 := nat_of_ascii c1 in
            if (n =? 194)%nat && (n1 =? 160)%nat          (* U+00A0 *)
            then trim_start r1
            else
              match r1 with
              | String c2 r2 =>
                  let n2 := nat_of_ascii c2 in
                  if ((n =? 225)%nat && (n1 =? 154)%nat && (n2 =? 128)%nat)
                                                         (* U+1680 *)
                     || ((n =? 226)%nat && (n1 =? 128)%nat &&
                         (((128 <=? n2)%nat && (n2 <=? 138)%nat)
                                                         (* U+2000..U+200A *)
                          || (n2 =? 168)%nat || (n2 =? 169)%nat
                                                         (* U+2028, U+2029 *)
                          || (n2 =? 175)%nat))           (* U+202F *)
                     || ((n =? 226)%nat && (n1 =? 129)%nat && (n2 =? 159)%nat)
                                                         (* U+205F *)
                     || ((n =? 227)%nat && (n1 =? 128)%nat && (n2 =? 128)%nat)
                                                         (* U+3000 *)
                     || ((n =? 239)%nat && (n1 =? 187)%nat && (n2 =? 191)%nat)
                                                         (* U+FEFF *)
                  then trim_start r2
                  else s
              | EmptyString => s
              end
        | EmptyString => s
        end
  | EmptyString => EmptyString
  end.

Definition is_empty (s : string) : bool :=
  match s with EmptyString => true | _ => false end.

(** The value of an ExponentPart at the head of [s], when there is one:
    [e] or [E], an optional sign, and at least one digit. *)
Definition exponent_part (s : string) : Z :=
  match s with
  | String c r =>
      if Ascii.eqb c "e" || Ascii.eqb c "E" then
        let '(neg, r1) :=
          match r with
          | String "-" r' => (true, r')
          | String "+" r' => (false, r')
          | _ => (false, r)
          end in
        let '(ds, _) := span_digits r1 in
        if is_empty ds then 0%Z
        else if neg then (- digits_value ds)%Z else digits_value ds
      else 0%Z
  | EmptyString => 0%Z
  end.

(** [parseFloat(input)]: the Number value of the longest prefix of the
    trimmed input that is a StrDecimalLiteral, [NaN] when there is none. *)
Definition parseFloat (input : string) : number :=
  let s := trim_start input in
  let '(neg, s1) :=
    match s with
    | String "-" r => (true, r)
    | String "+" r => (false, r)
    | _ => (false, s)
    end in
  if String.prefix "Infinity" s1 then S754_infinity neg
  else
    let '(ip, s2) := span_digits s1 in
    let '(fp, s3) :=
      match s2 with
      | String "." r => span_digits r
      | _ => (EmptyString, s2)
      end in
    if is_empty ip && is_empty fp then NaN
    else
      of_decimal neg (digits_value (ip ++ fp))
        (exponent_part s3 - Z.of_nat (String.length fp)).

(** *** [Number.prototype.toString] (radix 10)

    A positive finite [x = m * 2^e] is kept as the exact fraction
    [num / den]. *)

Definition fraction_of (m : positive) (e : Z) : Z * Z :=
  if (0 <=? e)%Z then (Zpos m * 2 ^ e, 1)%Z else (Zpos m, 2 ^ (- e))%Z.

Fixpoint lead_scale (fuel : nat) (num den j : Z) : Z :=
  match fuel with
  | O => j
  | S f =>
      if (den <=? num * 10 ^ j)%Z then j
      else lead_scale f num den (j + 1)
  end.

(** The [n] with [10^(n-1) <= num/den < 10^n]. *)
Definition decimal_exponent (num den : Z) : Z :=
  if (den <=? num)%Z
  then Z.of_nat (String.length (decimal_digits (num / den)))
  else (1 - lead_scale (S (Z.to_nat (Z.log2 den))) num den 1)%Z.

Fixpoint strip_zeros (fuel : nat) (s p : Z) : Z * Z :=
  match fuel with
  | O => (s, p)
  | S f =>
      if (0 <? s)%Z && (s mod 10 =? 0)%Z
      then strip_zeros f (s / 10) (p + 1)
      else (s, p)
  end.

(** The decimal [s * 10^p] with the trailing zeros of [s] moved into the
    exponent. *)
Definition stripped (s p : Z) : Z * Z :=
  strip_zeros (S (Z.to_nat (Z.log2 s))) s p.

(** The decimal [c] has Number value [x]. *)
Definition reads_as (x : number) (c : Z * Z) : bool :=
  number_eqb (of_decimal false (fst c) (snd c)) x.

(** For [k = 1, 2, ...]: the [k]-digit decimals [lo * 10^p] and
    [(lo+1) * 10^p] that enclose [x]; the first [k] at which one of them
    has Number value [x] gives the digits (the closer one when both do,
    the even one on a tie). *)
Fixpoint shortest (fuel : nat) (x : number) (num den n k : Z) : Z * Z :=
  let p := (n - k)%Z in
  let a := (if (0 <=? p) then num else num * 10 ^ (- p))%Z in
  let b := (if (0 <=? p) then den * 10 ^ p else den)%Z in
  let lo := stripped (a / b) p in
  let hi := stripped (a / b + 1) p in
  match fuel with
  | O => lo
  | S f =>
      let ok_lo := reads_as x lo in
      let ok_hi := reads_as x hi in
      if ok_lo && ok_hi then
        match (2 * (a mod b) ?= b)%Z with
        | Lt => lo
        | Gt => hi
        | Eq => if Z.even (a / b) then lo else hi
        end
      else if ok_lo then lo
      else if ok_hi then hi
      else shortest f x num den n (k + 1)
  end.

(** The digits [ds] (of length [k]) and the position [n] of the decimal
    point, laid out as ECMAScript prescribes. *)
Definition layout (ds : string) (n : Z) : string :=
  match ds with
  | EmptyString => "0"
  | String d rest =>
      let k := Z.of_nat (String.length ds) in
      if (k <=? n)%Z && (n <=? 21)%Z
      then String d (rest ++ zeros (Z.to_nat (n - k)))
      else if (0 <? n)%Z && (n <=? 21)%Z
      then String d (str_take (Z.to_nat (n - 1)) rest ++ "."
                     ++ str_drop (Z.to_nat (n - 1)) rest)
      else if (-6 <? n)%Z && (n <=? 0)%Z
      then "0." ++ zeros (Z.to_nat (- n)) ++ ds
      else
        let e := (n - 1)%Z in
        let es := (if (e <? 0)%Z then "-" else "+")
                  ++ decimal_digits (Z.abs e) in
        match rest with
        | EmptyString => String d ("e" ++ es)
        | _ => String d ("." ++ rest ++ "e" ++ es)
        end
  end.

(** The search ends, at the latest, with the full decimal expansion of
    [x], whose last digit stands at the position [min e 0]. *)
Definition positive_toString (m : positive) (e : Z) : string :=
  let '(num, den) := fraction_of m e in
  let n := decimal_exponent num den in
  let '(s, p) :=
    shortest (Z.to_nat (n - Z.min e 0)) (S754_finite false m e)
      num den n 1 in
  let ds := decimal_digits s in
  layout ds (p + Z.of_nat (String.length ds)).

Definition toString (x : number) : string :=
  match x with
  | S754_nan => "NaN"
  | S754_zero _ => "0"
  | S754_infinity false => "Infinity"
  | S754_infinity true => "-Infinity"
  | S754_finite false m e => positive_toString m e
  | S754_finite true m e => String "-" (positive_toString m e)
  end.

End JS.

(** ** Object literals used as dictionaries

    [optionCounts] and the accumulator of [rating_distribution] start as the
    object literal [{}] and are read and written with computed keys,
    [o[k] = (o[k] || 0) + 1].  An object literal inherits from
    [Object.prototype]: reading a key it does not own yields the inherited
    member when [Object.prototype] has one, and writing the key [__proto__]
    runs the inherited setter, which ignores a value that is neither an
    object nor [null].  The object's own properties are a finite map. *)

Inductive tally : Type :=
  | TNum (n : nat)       (* a count; Numbers count exactly below 2^53 *)
  | TStr (s : string).   (* what [+ 1] makes of a string or an object *)

Module Obj.

(** The function-valued members of [Object.prototype]. *)
Definition prototype_functions : list string :=
  [ "__defineGetter__"; "__defineSetter__"; "hasOwnProperty";
    "__lookupGetter__"; "__lookupSetter__"; "isPrototypeOf";
    "propertyIsEnumerable"; "toString"; "valueOf"; "toLocaleString" ].

(** [inherited k]: the string that the member [k] of [Object.prototype]
    converts to under [+], when there is such a member.  A built-in function
    prints as its native source text; the [__proto__] getter returns
    [Object.prototype] itself, which prints as [[object Object]]. *)
Definition inherited (k : string) : option string :=
  if String.eqb k "__proto__" then Some "[object Object]"
  else if String.eqb k "constructor"
  then Some "function Object() { [native code] }"
  else if existsb (String.eqb k) prototype_functions
  then Some ("function " ++ k ++ "() { [native code] }")
  else None.

(** [o[k] = (o[k] || 0) + 1]. *)
Definition bump (o : gmap string tally) (k : string) : gmap string tally :=
  let next :=
    match o !! k with
    | Some (TNum n) => TNum (S n)
    | Some (TStr s) => if JS.is_empty s then TNum 1 else TStr (s ++ "1")
    | None =>
        match inherited k with
        | Some s => TStr (s ++ "1")
        | None => TNum 1
        end
    end in
  if String.eqb k "__proto__" then o else <[k := next]> o.

(** The sum of the numeric entries of a dictionary. *)
Definition total (o : gmap string tally) : nat :=
  map_fold (fun _ v acc => match v with TNum n => n + acc | TStr _ => acc end)
    0 o.

End Obj.

(** ** The statistics handler: [GET /api/responses/survey/:surveyId/stats] *)

(** One embedded answer row, [answers(answer_text, answer_options)]. *)
Record answer : Type := Answer {
  answer_text : option string;
  answer_options : option (list string)
}.

(** One question row with its embedded answers, as the query returns it. *)
Record question : Type := Question {
  id : string;
  question_text : string;
  question_type : string;
  options : option (list string);
  answers : list answer
}.

(** A value held by a key of the [stats] object. *)
Inductive field : Type :=
  | FString (s : string)
  | FCount (n : nat)                    (* an array length *)
  | FNumber (x : JS.number)
  | FDict (o : gmap string tally).

(** [s || '0'] for an optional string: [undefined], [null] and the empty
    string are falsy. *)
Definition or_zero (s : option string) : string :=
  match s with
  | Some t => if JS.is_empty t then "0" else t
  | None => "0"
  end.

Definition optionCounts (ans : list answer) : gmap string tally :=
  fold_left
    (fun counts a =>
       match answer_options a with
       | Some opts => fold_left Obj.bump opts counts
       | None => counts
       end)
    ans ∅.

Definition ratings (ans : list answer) : list JS.number :=
  List.filter (fun rating => negb (JS.isNaN rating))
    (List.map (fun a => JS.parseFloat (or_zero (answer_text a))) ans).

Definition rating_sum (rs : list JS.number) : JS.number :=
  fold_left JS.add rs JS.pos_zero.

Definition rating_dist (rs : list JS.number) : gmap string tally :=
  fold_left (fun dist rating => Obj.bump dist (JS.toString rating)) rs ∅.

Definition is_choice (t : string) : bool :=
  String.eqb t "single_choice" || String.eqb t "multiple_choice".

(** The body of [questions.map(question => ...)]. *)
Definition questionStats (q : question) : gmap string field :=
  let stats : gmap string field :=
    <["total_answers" := FCount (length (answers q))]>
      (<["question_type" := FString (question_type q)]>
         (<["question_text" := FString (question_text q)]>
            (<["id" := FString (id q)]> ∅))) in
  if is_choice (question_type q) then
    <["option_stats" := FDict (optionCounts (answers q))]> stats
  else if String.eqb (question_type q) "rating" then
    let rs := ratings (answers q) in
    match rs with
    | [] => stats
    | _ :: _ =>
        <["rating_distribution" := FDict (rating_dist rs)]>
          (<["average_rating" :=
               FNumber (JS.div (rating_sum rs) (JS.of_nat (length rs)))]>
             stats)
    end
  else stats.

Definition question_stats (questions : list question)
  : list (gmap string field) :=
  List.map questionStats questions.

(** ** The submission handler: [POST /api/responses]

    The tables are lists of rows; a handler run takes the store and returns
    the store it leaves behind together with its HTTP reply.  The columns
    kept are the ones the handler reads or writes, and [question_type] and
    [options] of a question. *)

Module Submit.

Module Survey.
Record row : Type := Row { id : string; status : string; title : string }.
End Survey.

Module Question.
Record row : Type := Row {
  id : string;
  survey_id : string;
  question_text : string;
  question_type : string;
  options : option (list string);
  is_required : bool
}.
End Question.

Module Response.
Record row : Type := Row {
  id : string;
  survey_id : string;
  respondent_email : option string;
  respondent_name : option string
}.
End Response.

Module Answer.
Record row : Type := Row {
  response_id : string;
  question_id : string;
  answer_text : option string;
  answer_options : option (list string)
}.
End Answer.

Record store : Type := Store {
  surveys : list Survey.row;
  questions : list Question.row;
  responses : list Response.row;
  answers : list Answer.row
}.

(** What [answerSchema] and [responseSchema] let through. *)
Record answer_input : Type := AnswerInput {
  question_id : string;
  answer_text : option string;
  answer_options : option (list string)
}.

Record submission : Type := Submission {
  survey_id : string;
  respondent_email : option string;
  respondent_name : option string;
  submitted : list answer_input          (* the [answers] of the body *)
}.

(** The outcome of [responseSchema.parse(req.body)]. *)
Inductive parsed : Type :=
  | ZodError (message : string)
  | Valid (data : submission).

(** What the database client reports for each call of one run.  The client
    returns its failures in [error]; it does not throw.  [response_insert]
    is the id the database generates for the new response row, or [None]
    when the insert fails. *)
Record outcomes : Type := Outcomes {
  survey_select_error : bool;
  questions_select_error : bool;
  response_insert : option string;
  answers_insert_error : bool;
  response_delete_error : bool
}.

Inductive body : Type :=
  | Error (error : string)
  | Created (message : string) (response_id : string).

Record reply : Type := Reply { status : nat; json : body }.

(** The id columns are of type [uuid].  The database reads a uuid with its
    hexadecimal digits in either case and prints it in lower case: the ids
    held in the store are spelled as the database prints them, and a uuid
    that a request gives is looked up, and stored, under its lower-case
    spelling. *)
Definition hex_lower (c : ascii) : ascii :=
  match c with
  | "A" => "a" | "B" => "b" | "C" => "c"
  | "D" => "d" | "E" => "e" | "F" => "f"
  | _ => c
  end%char.

Fixpoint as_uuid (s : string) : string :=
  match s with
  | String c r => String (hex_lower c) (as_uuid r)
  | EmptyString => EmptyString
  end.

Definition includes (l : list string) (x : string) : bool :=
  existsb (String.eqb x) l.

(** [.single()]: exactly one row, or an error. *)
Definition single {A : Type} (rows : list A) : option A :=
  match rows with
  | [r] => Some r
  | _ => None
  end.

(** [from('responses').insert(r)]: [id] is the primary key. *)
Definition insert_response (db : store) (r : Response.row) : option store :=
  if existsb (fun r' => String.eqb (Response.id r') (Response.id r))
       (responses db)
  then None
  else Some (Store (surveys db) (questions db) (responses db ++ [r])
               (answers db)).

(** [from('answers').insert(rows)]: one statement, all rows or none. *)
Definition insert_answers (db : store) (rows : list Answer.row) : store :=
  Store (surveys db) (questions db) (responses db) (answers db ++ rows).

(** [from('responses').delete().eq('id', rid)]; the answers of a deleted
    response go with it ([ON DELETE CASCADE]). *)
Definition delete_response (db : store) (rid : string) : store :=
  Store (surveys db) (questions db)
    (List.filter (fun r => negb (String.eqb (Response.id r) rid))
       (responses db))
    (List.filter (fun a => negb (String.eqb (Answer.response_id a) rid))
       (answers db)).

Definition answersToInsert (rid : string) (l : list answer_input)
  : list Answer.row :=
  List.map
    (fun a => Answer.Row rid (question_id a) (answer_text a)
                (answer_options a))
    l.

(** The handler up to and including the insert of the response row: the
    reply it returns early with, or the id of the new response row and the
    store that holds it.  The survey and its questions are selected by the
    database, under the uuid that [survey_id] spells; the required and
    membership checks are the handler's own, [includes] on strings. *)
Definition create_response (db : store) (env : outcomes) (data : submission)
  : reply + string * store :=
  let found :=
    if survey_select_error env then None
    else single (List.filter
                   (fun s => String.eqb (Survey.id s)
                               (as_uuid (survey_id data)))
                   (surveys db)) in
  match found with
  | None => inl (Reply 404 (Error "问卷不存在"))
  | Some survey =>
    if negb (String.eqb (Survey.status survey) "published")
    then inl (Reply 400 (Error "问卷未发布，无法提交回答"))
    else if questions_select_error env
    then inl (Reply 500 (Error "获取问题列表失败"))
    else
      let qs :=
        List.filter
          (fun q => String.eqb (Question.survey_id q)
                      (as_uuid (survey_id data)))
          (questions db) in
      let requiredQuestions := List.filter Question.is_required qs in
      let answeredQuestionIds := List.map question_id (submitted data) in
      match List.find
              (fun rq => negb (includes answeredQuestionIds (Question.id rq)))
              requiredQuestions with
      | Some rq =>
          inl (Reply 400
                 (Error ("必填问题未回答: " ++ Question.question_text rq)))
      | None =>
        let validQuestionIds := List.map Question.id qs in
        if existsb
             (fun a => negb (includes validQuestionIds (question_id a)))
             (submitted data)
        then inl (Reply 400 (Error "回答包含无效的问题ID"))
        else
          match response_insert env with
          | Some rid =>
              match insert_response db
                      (Response.Row rid (as_uuid (survey_id data))
                         (respondent_email data) (respondent_name data)) with
              | Some db1 => inr (rid, db1)
              | None => inl (Reply 500 (Error "提交回答失败"))
              end
          | None => inl (Reply 500 (Error "提交回答失败"))
          end
      end
  end.

(** The whole handler: the store it leaves and its reply. *)
Definition post (db : store) (env : outcomes) (req : parsed)
  : store * reply :=
  match req with
  | ZodError message => (db, Reply 400 (Error message))
  | Valid data =>
    match create_response db env data with
    | inl early => (db, early)
    | inr (rid, db1) =>
      if answers_insert_error env then
        let db2 :=
          if response_delete_error env then db1
          else delete_response db1 rid in
        (db2, Reply 500 (Error "保存答案失败"))
      else
        (insert_answers db1 (answersToInsert rid (submitted data)),
         Reply 201 (Created "问卷提交成功" rid))
    end
  end.

End Submit.

(** ** Notions used in the statements *)

(** A string that starts like the decimal form of a Number. *)
Definition numeric_head (s : string) : bool :=
  match s with
  | String c _ =>
      JS.is_digit c || Ascii.eqb c "-" || Ascii.eqb c "I" || Ascii.eqb c "N"
  | EmptyString => false
  end.

(** A key that [Object.prototype] does not define. *)
Definition plain (k : string) : Prop := Obj.inherited k = None.

(** An object whose own entries are all positive counts. *)
Definition numeric (o : gmap string tally) : Prop :=
  forall k v, o !! k = Some v -> exists n, v = TNum (S n).

Definition count_of (o : gmap string tally) (k : string) : nat :=
  match o !! k with
  | Some (TNum n) => n
  | _ => 0
  end.

(** How many of the strings [ks] are equal to [k]. *)
Definition occurrences (k : string) (ks : list string) : nat :=
  length (List.filter (String.eqb k) ks).

(** The entry a dictionary holds for a key that was counted [n] times. *)
Definition entry (n : nat) : option tally :=
  match n with
  | O => None
  | S _ => Some (TNum n)
  end.

(** All option values selected by a list of answers, in order. *)
Definition selections (ans : list answer) : list string :=
  List.concat
    (List.map (fun a => match answer_options a with
                        | Some opts => opts
                        | None => []
                        end) ans).

(** What one answer adds to the ratings of its question: a missing or empty
    [answer_text] is read as ['0']; a text that [parseFloat] maps to [NaN]
    adds nothing. *)
Definition contributes (a : answer) : option JS.number :=
  match answer_text a with
  | None => Some JS.pos_zero
  | Some t =>
      if JS.is_empty t then Some JS.pos_zero
      else
        let x := JS.parseFloat t in
        if JS.isNaN x then None else Some x
  end.

(** *** Decimals and Numbers *)

(** What the decimal text of a Number stands for: the sign of a zero is
    not written. *)
Definition written (x : JS.number) : JS.number :=
  match x with
  | S754_zero _ => JS.pos_zero
  | _ => x
  end.

(** [x] and [y] are one Number value: [x === y], for Numbers other than
    [NaN]. *)
Definition same_number (x y : JS.number) : Prop := written x = written y.

(** The whole number [n], written with or without [.0], is keyed by its
    plain decimal digits. *)
Definition plain_key (n : nat) : bool :=
  let ds := JS.decimal_digits (Z.of_nat n) in
  String.eqb (JS.toString (JS.parseFloat ds)) ds
  && String.eqb (JS.toString (JS.parseFloat (ds ++ ".0"))) ds.

(** [mx * 2^ex] is [m * 2^e]. *)
Definition same_value (mx : positive) (ex : Z) (m : positive) (e : Z)
  : Prop :=
  if (e <=? ex)%Z then (Zpos mx * 2 ^ (ex - e) = Zpos m)%Z
  else (Zpos mx = Zpos m * 2 ^ (e - ex))%Z.

(** The decimal [s * 10^p] is the fraction [num / den]. *)
Definition denotes (s p num den : Z) : Prop :=
  if (0 <=? p)%Z then (s * 10 ^ p * den = num)%Z
  else (s * den = num * 10 ^ (- p))%Z.

(** The fraction [step_a / step_b] is [x / 10^(n-k)]: its integer part is
    the lower candidate of the step [k] of [JS.shortest]. *)
Definition step_a (num n k : Z) : Z :=
  if (0 <=? n - k)%Z then num else (num * 10 ^ (- (n - k)))%Z.

Definition step_b (den n k : Z) : Z :=
  if (0 <=? n - k)%Z then (den * 10 ^ (n - k))%Z else den.

(** The rating statistics as the specification words them: only answers
    whose text is present, non-empty and parses as a finite number count. *)
Module Spec.

Definition is_finite (x : JS.number) : bool :=
  match x with
  | S754_zero _ | S754_finite _ _ _ => true
  | _ => false
  end.

Definition parseable (a : answer) : option JS.number :=
  match answer_text a with
  | None => None
  | Some t =>
      if JS.is_empty t then None
      else
        let x := JS.parseFloat t in
        if is_finite x then Some x else None
  end.

Definition parseable_values (ans : list answer) : list JS.number :=
  omap parseable ans.

Definition parseable_count (ans : list answer) : nat :=
  length (parseable_values ans).

Definition average_rating (ans : list answer) : option JS.number :=
  match parseable_values ans with
  | [] => None
  | rs => Some (JS.div (fold_left JS.add rs JS.pos_zero)
                  (JS.of_nat (length rs)))
  end.

(** The non-empty answer texts, in order. *)
Definition text_responses (ans : list answer) : list string :=
  omap (fun a => match answer_text a with
                 | Some t => if JS.is_empty t then None else Some t
                 | None => None
                 end) ans.

End Spec.

(** *** Stores and submissions *)

Module SubmitProps.
Import Submit.

(** The question an answer row points to lies in the survey of the
    response the row belongs to. *)
Definition same_survey (db : store) (a : Answer.row) : Prop :=
  exists q r,
    In q (questions db) /\ In r (responses db) /\
    Question.id q = Answer.question_id a /\
    Response.id r = Answer.response_id a /\
    Question.survey_id q = Response.survey_id r.

(** Some submitted answer names a question that is not one of the
    questions of the submitted survey. *)
Definition foreign_question (db : store) (d : submission) : Prop :=
  exists a,
    In a (submitted d) /\
    forall q, In q (questions db) ->
              Question.survey_id q = as_uuid (survey_id d) ->
              Question.id q <> question_id a.

(** Every answer row belongs to a response row (the foreign key
    [answers.response_id]). *)
Definition referential (db : store) : Prop :=
  forall a, In a (answers db) ->
            exists r, In r (responses db) /\
                      Response.id r = Answer.response_id a.

(** [sub l1 l2]: every element of [l1] occurs in [l2]. *)
Definition sub (l1 l2 : list string) : bool :=
  forallb (fun x => existsb (String.eqb x) l2) l1.

(** Some stored answer selects a value its question does not define. *)
Definition undefined_selection (db : store) : Prop :=
  exists a q sel defs,
    In a (answers db) /\ In q (questions db) /\
    Question.id q = Answer.question_id a /\
    Answer.answer_options a = Some sel /\
    Question.options q = Some defs /\
    sub sel defs = false.

End SubmitProps.

(** *** Sample inputs *)

Module Samples.

Definition texts (l : list string) : list answer :=
  List.map (fun t => Answer (Some t) None) l.

Definition picks (l : list (list string)) : list answer :=
  List.map (fun o => Answer None (Some o)) l.

Definition skipped : answer := Answer None None.

(** A text question with two answers. *)
Definition q_text : question :=
  Question "q2" "Comments" "text" None (texts ["fine"; "slow"]).

(** A rating question answered ["4"] and ["4.0"]. *)
Definition q_four : question :=
  Question "q3" "Score" "rating" None (texts ["4"; "4.0"]).

(** A rating question answered ["4"] once and left without text once. *)
Definition q_half : question :=
  Question "q3" "Score" "rating" None (texts ["4"] ++ [skipped]).

(** A rating question whose only answer has no text. *)
Definition q_blank : question :=
  Question "q3" "Score" "rating" None [skipped].

(** A choice question with options [a], [b] and one answer selecting [z]. *)
Definition q_z : question :=
  Question "q1" "Pick" "single_choice" (Some ["a"; "b"]) (picks [["z"]]).

(** The same question with one answer selecting [__proto__]. *)
Definition q_proto : question :=
  Question "q1" "Pick" "single_choice" (Some ["a"; "b"])
    (picks [["__proto__"]]).

(** A multiple-choice question that defines the option [__proto__]; each of
    its two answers selects exactly one option. *)
Definition q_multi : question :=
  Question "q4" "Tags" "multiple_choice" (Some ["__proto__"; "b"])
    (picks [["__proto__"]; ["b"]]).

(** A choice question with one answer without [answer_options]. *)
Definition q_gap : question :=
  Question "q1" "Pick" "multiple_choice" (Some ["a"; "b"])
    (picks [["a"]] ++ skipped :: picks [["a"; "b"]]).


Import Submit.

Definition db0 : store :=
  Store [Survey.Row "s1" "published" "Lunch"]
        [Question.Row "q1" "s1" "Pick" "single_choice" (Some ["a"; "b"]) true;
         Question.Row "q9" "s2" "Other" "text" None false]
        [] [].

Definition all_fine : outcomes := Outcomes false false (Some "r1") false false.

(** The answers insert fails and so does the delete that follows it. *)
Definition both_fail : outcomes := Outcomes false false (Some "r1") true true.

(** The answers insert fails; the delete goes through. *)
Definition insert_fails : outcomes :=
  Outcomes false false (Some "r1") true false.

Definition picks_z : submission :=
  Submission "s1" None None [AnswerInput "q1" None (Some ["z"])].

Definition picks_foreign : submission :=
  Submission "s1" None None
    [AnswerInput "q1" None (Some ["a"]); AnswerInput "q9" (Some "x") None].

End Samples.

(** ** The read handlers: [GET /api/responses/survey/:surveyId] and
    [GET /api/responses/survey/:surveyId/stats]

    Both run behind [authenticateToken], which leaves the caller in
    [req.user]; they are modelled from there on.  What the database calls
    return is given to the handler: [None] stands for a call that reports an
    error (for the survey lookup with [.single()]: also for no row). *)

Module Read.

(** [surveys.select('id, title, creator_id')]. *)
Record survey_row : Type := SurveyRow {
  id : string;
  title : string;
  creator_id : string
}.

(** What the calls of the statistics handler return: the survey, the exact
    count of responses ([null] is possible), the questions with their
    embedded answers. *)
Record stats_queries : Type := StatsQueries {
  stats_survey : option survey_row;
  count : option (option nat);
  questions : option (list question)
}.

(** What the calls of the listing handler return; the handler passes the
    response rows on without looking into them. *)
Record list_queries (R : Type) : Type := ListQueries {
  list_survey : option survey_row;
  responses : option (list R)
}.

Arguments ListQueries {R} _ _.
Arguments list_survey {R} _.
Arguments responses {R} _.

Inductive stats_body : Type :=
  | StatsError (error : string)
  | Stats (survey_id survey_title : string) (total_responses : nat)
          (question_stats : list (gmap string field)).

Inductive list_body (R : Type) : Type :=
  | ListError (error : string)
  | Listing (survey_id survey_title : string) (rows : list R)
            (total_responses : nat).

Arguments ListError {R} _.
Arguments Listing {R} _ _ _ _.

(** [count || 0]. *)
Definition or_none (c : option nat) : nat :=
  match c with Some n => n | None => 0 end.

Definition get_stats (user_id : string) (db : stats_queries)
  : nat * stats_body :=
  match stats_survey db with
  | None => (404, StatsError "问卷不存在")
  | Some survey =>
    if negb (String.eqb (creator_id survey) user_id)
    then (403, StatsError "无权查看此问卷的统计数据")
    else
      match count db with
      | None => (500, StatsError "获取统计数据失败")
      | Some totalResponses =>
        match questions db with
        | None => (500, StatsError "获取统计数据失败")
        | Some qs =>
            (200, Stats (id survey) (title survey) (or_none totalResponses)
                    (List.map questionStats qs))
        end
      end
  end.

Definition get_responses {R : Type} (user_id : string) (db : list_queries R)
  : nat * list_body R :=
  match list_survey db with
  | None => (404, ListError "问卷不存在")
  | Some survey =>
    if negb (String.eqb (creator_id survey) user_id)
    then (403, ListError "无权查看此问卷的回答数据")
    else
      match responses db with
      | None => (500, ListError "获取回答数据失败")
      | Some rows =>
          (200, Listing (id survey) (title survey) rows (length rows))
      end
  end.

End Read.

(** ** The store as the handlers see it *)

Module View.
Import Submit.

(** The questions of a survey, [questions.eq('survey_id', sid)]. *)
Definition survey_questions (db : store) (sid : string)
  : list Question.row :=
  List.filter (fun q => String.eqb (Question.survey_id q) sid)
    (questions db).

(** The answers embedded under a question row by
    [answers(answer_text, answer_options)]: the answer rows that point to
    it, in table order. *)
Definition embedded_answers (db : store) (qid : string) : list answer :=
  List.map (fun a => Answer (Answer.answer_text a) (Answer.answer_options a))
    (List.filter (fun a => String.eqb (Answer.question_id a) qid)
       (answers db)).

(** A question row as the statistics query returns it. *)
Definition stats_row (db : store) (q : Question.row) : question :=
  Question (Question.id q) (Question.question_text q)
    (Question.question_type q) (Question.options q)
    (embedded_answers db (Question.id q)).

(** The submitted answers that name the question [qid]. *)
Definition answers_for (d : submission) (qid : string) : list answer :=
  List.map (fun a => Answer (answer_text a) (answer_options a))
    (List.filter (fun a => String.eqb (question_id a) qid) (submitted d)).

(** The survey of a submission is there, alone under its id, and
    published. *)
Definition survey_open (db : store) (d : submission) : bool :=
  match single (List.filter
                  (fun s => String.eqb (Survey.id s) (as_uuid (survey_id d)))
                  (surveys db)) with
  | Some s => String.eqb (Survey.status s) "published"
  | None => false
  end.

(** The required questions of the survey that no submitted answer names,
    in table order. *)
Definition unanswered (db : store) (d : submission) : list Question.row :=
  List.filter
    (fun q => Question.is_required q
              && negb (includes (List.map question_id (submitted d))
                         (Question.id q)))
    (survey_questions db (as_uuid (survey_id d))).

(** Every submitted answer names a question of the survey. *)
Definition all_known (db : store) (d : submission) : bool :=
  forallb
    (fun a => includes
                (List.map Question.id
                   (survey_questions db (as_uuid (survey_id d))))
                (question_id a))
    (submitted d).

Definition fresh (db : store) (rid : string) : bool :=
  negb (existsb (fun r => String.eqb (Response.id r) rid) (responses db)).

(** The checks and database outcomes under which a submission goes
    through, with [rid] the id of the new response row. *)
Definition accepted (db : store) (env : outcomes) (d : submission)
    (rid : string) : Prop :=
  survey_select_error env = false /\
  survey_open db d = true /\
  questions_select_error env = false /\
  unanswered db d = [] /\
  all_known db d = true /\
  response_insert env = Some rid /\
  fresh db rid = true /\
  answers_insert_error env = false.

(** How far a run gets before the answers insert: the reply it returns
    early with, or the id of the response row it has created. *)
Definition checked (db : store) (env : outcomes) (d : submission)
  : reply + string :=
  match create_response db env d with
  | inl early => inl early
  | inr (rid, _) => inr rid
  end.

(** The store after an accepted submission. *)
Definition stored (db : store) (d : submission) (rid : string) : store :=
  Store (surveys db) (questions db)
    (responses db ++ [Response.Row rid (as_uuid (survey_id d))
                        (respondent_email d) (respondent_name d)])
    (answers db ++ answersToInsert rid (submitted d)).

(** Response ids are unique (the primary key of [responses]). *)
Definition unique_ids (db : store) : Prop :=
  NoDup (List.map Response.id (responses db)).

End View.

(** ** Request bodies and the schemas of the submission handler

    [req.body] is a JSON value, or [undefined] when the request has none.
    [responseSchema.parse] checks it field by field, in the order in which
    the schema lists the fields, and the handler replies with the message of
    the first issue.  The two string formats, [uuid()] and [email()], are
    regular expressions of the schema library: they are parameters here. *)

Module Zod.
Import Submit.

#[warnings="-register-all"]
Inductive json : Type :=
  | JNull
  | JBool (b : bool)
  | JNumber (x : JS.number)
  | JString (s : string)
  | JArray (items : list json)
  | JObject (fields : list (string * json)).

(** [data[key]] on a parsed object: of two fields with one key the later
    one counts. *)
Fixpoint get (fields : list (string * json)) (key : string) : option json :=
  match fields with
  | [] => None
  | (k, v) :: rest =>
      match get rest key with
      | Some w => Some w
      | None => if String.eqb k key then Some v else None
      end
  end.

(** The name under which an issue reports the type it received. *)
Definition received (j : json) : string :=
  match j with
  | JNull => "null"
  | JBool _ => "boolean"
  | JNumber x => if JS.isNaN x then "nan" else "number"
  | JString _ => "string"
  | JArray _ => "array"
  | JObject _ => "object"
  end.

(** The message of a type issue: [Required] for a missing value. *)
Definition invalid_type (expected : string) (v : option json) : string :=
  match v with
  | None => "Required"
  | Some j => "Expected " ++ expected ++ ", received " ++ received j
  end.

(** A parser yields the message of its first issue or a value. *)
Definition and_then {A B : Type} (x : string + A) (f : A -> string + B)
  : string + B :=
  match x with
  | inl message => inl message
  | inr a => f a
  end.

(** [z.string()] with one check, which returns its message when it
    fails. *)
Definition z_string (check : string -> option string) (v : option json)
  : string + string :=
  match v with
  | Some (JString s) =>
      match check s with
      | Some message => inl message
      | None => inr s
      end
  | _ => inl (invalid_type "string" v)
  end.

Definition no_check (s : string) : option string := None.

(** [.optional()]: a missing value passes as it is; [null] is a value. *)
Definition z_optional {A : Type} (p : option json -> string + A)
    (v : option json) : string + option A :=
  match v with
  | None => inr None
  | Some _ => and_then (p v) (fun a => inr (Some a))
  end.

Fixpoint z_items {A : Type} (p : option json -> string + A)
    (items : list json) : string + list A :=
  match items with
  | [] => inr []
  | j :: rest =>
      and_then (p (Some j))
        (fun a => and_then (z_items p rest) (fun l => inr (a :: l)))
  end.

(** [z.array(p)], with the message of [.min(1, message)] if there is one:
    the length is checked before the items. *)
Definition z_array {A : Type} (min1 : option string)
    (p : option json -> string + A) (v : option json) : string + list A :=
  match v with
  | Some (JArray items) =>
      match min1, items with
      | Some message, [] => inl message
      | _, _ => z_items p items
      end
  | _ => inl (invalid_type "array" v)
  end.

Section Schemas.

Variables uuid email : string -> bool.

Definition answerSchema (v : option json) : string + answer_input :=
  match v with
  | Some (JObject fields) =>
      and_then
        (z_string (fun s => if uuid s then None else Some "问题ID格式不正确")
           (get fields "question_id"))
        (fun q =>
      and_then
        (z_optional (z_string no_check) (get fields "answer_text"))
        (fun t =>
      and_then
        (z_optional (z_array None (z_string no_check))
           (get fields "answer_options"))
        (fun o => inr (AnswerInput q t o))))
  | _ => inl (invalid_type "object" v)
  end.

Definition responseSchema (v : option json) : string + submission :=
  match v with
  | Some (JObject fields) =>
      and_then
        (z_string (fun s => if uuid s then None else Some "问卷ID格式不正确")
           (get fields "survey_id"))
        (fun sid =>
      and_then
        (z_optional
           (z_string (fun s => if email s then None else Some "邮箱格式不正确"))
           (get fields "respondent_email"))
        (fun mail =>
      and_then
        (z_optional
           (z_string (fun s => if JS.is_empty s then Some "姓名不能为空"
                               else None))
           (get fields "respondent_name"))
        (fun name =>
      and_then
        (z_array (Some "至少需要回答一个问题") answerSchema
           (get fields "answers"))
        (fun l => inr (Submission sid mail name l)))))
  | _ => inl (invalid_type "object" v)
  end.

(** [responseSchema.parse(req.body)] as the handler uses it: the data, or
    [error.errors[0].message]. *)
Definition parse (body : option json) : parsed :=
  match responseSchema body with
  | inl message => ZodError message
  | inr data => Valid data
  end.

(** The handler on a request body. *)
Definition handle (db : store) (env : outcomes) (body : option json)
  : store * reply :=
  post db env (parse body).

End Schemas.

End Zod.

(** ** The fill page: the body [handleSubmit] sends

    [SurveyFill.tsx] keeps one answer per question and posts
    [{survey_id: id, answers: answersArray}]; a falsy member of an answer
    is sent as [null]. *)

Module Fill.
Import Zod.

Record form_answer : Type := FormAnswer {
  question_id : string;
  answer_text : option string;
  selected_options : option (list string);
  rating_value : option JS.number
}.

(** [answer.answer_text || null]. *)
Definition text_or_null (s : option string) : json :=
  match s with
  | Some t => if JS.is_empty t then JNull else JString t
  | None => JNull
  end.

(** [answer.selected_options || null]: an array, even an empty one, is
    truthy. *)
Definition options_or_null (o : option (list string)) : json :=
  match o with
  | Some l => JArray (List.map JString l)
  | None => JNull
  end.

(** [answer.rating_value || null], as it arrives: zero and [NaN] are falsy,
    and an infinity is serialized as [null]. *)
Definition rating_or_null (r : option JS.number) : json :=
  match r with
  | Some (S754_finite s m e) => JNumber (S754_finite s m e)
  | _ => JNull
  end.

Definition answersArray (answers : list form_answer) : list json :=
  List.map
    (fun a =>
       JObject [("question_id", JString (question_id a));
                ("answer_text", text_or_null (answer_text a));
                ("selected_options", options_or_null (selected_options a));
                ("rating_value", rating_or_null (rating_value a))])
    answers.

Definition request_body (id : string) (answers : list form_answer) : json :=
  JObject [("survey_id", JString id);
           ("answers", JArray (answersArray answers))].

(** An answer with a text that is not empty. *)
Definition has_text (a : form_answer) : Prop :=
  exists t, answer_text a = Some t /\ t <> "".

End Fill.

(** *** Texts of rating answers *)

Fixpoint all_digits (s : string) : bool :=
  match s with
  | String c r => JS.is_digit c && all_digits r
  | EmptyString => true
  end.

(** A Latin letter other than [I]. *)
Definition is_word_start (c : ascii) : bool :=
  let n := nat_of_ascii c in
  (((65 <=? n)%nat && (n <=? 90)%nat) || ((97 <=? n)%nat && (n <=? 122)%nat))
  && negb (n =? 73)%nat.

(** A character that ends the number in front of it. *)
Definition ends_number (c : ascii) : bool :=
  negb (JS.is_digit c) && negb (Ascii.eqb c ".")
  && negb (Ascii.eqb c "e") && negb (Ascii.eqb c "E").

(** *** More sample inputs *)

Module Cases.
Import Submit.

(** A submission to the sample survey that names no question of it. *)
Definition skips_required : submission :=
  Submission "s1" None None [AnswerInput "q9" (Some "x") None].

(** The sample submission with other contents under the same question. *)
Definition picks_a_with_text : submission :=
  Submission "s1" (Some "ann@example.org") (Some "Ann")
    [AnswerInput "q1" (Some "because") (Some ["a"])].

Definition second_run : outcomes :=
  Outcomes false false (Some "r2") false false.

Definition q1_row : Question.row :=
  Question.Row "q1" "s1" "Pick" "single_choice" (Some ["a"; "b"]) true.

Definition owner_queries : Read.stats_queries :=
  Read.StatsQueries (Some (Read.SurveyRow "s1" "Lunch" "u1")) (Some None)
    (Some [Samples.q_z; Samples.q_four]).

Definition q5_row : Question.row :=
  Question.Row "q5" "s1" "Score" "rating" None false.

(** A store with one rating question, answered ["4.0"] once. *)
Definition db2 : store :=
  Store [Survey.Row "s1" "published" "Lunch"] [q5_row]
        [Response.Row "r0" "s1" None None]
        [Answer.Row "r0" "q5" (Some "4.0") None].

(** A submission rating ["4"] and, a second time, in words. *)
Definition rates : submission :=
  Submission "s1" None None
    [AnswerInput "q5" (Some "4") None; AnswerInput "q5" (Some "four") None].

Definition is_hex (c : ascii) : bool :=
  let n := nat_of_ascii c in
  ((48 <=? n)%nat && (n <=? 57)%nat)
  || ((65 <=? n)%nat && (n <=? 70)%nat)
  || ((97 <=? n)%nat && (n <=? 102)%nat).

(** [n] hexadecimal digits, and what follows them. *)
Fixpoint hex_run (n : nat) (s : string) : option string :=
  match n, s with
  | O, _ => Some s
  | S k, String c r => if is_hex c then hex_run k r else None
  | S _, EmptyString => None
  end.

Definition dash (s : option string) : option string :=
  match s with
  | Some (String "-" r) => Some r
  | _ => None
  end.

(** A format for ids: hexadecimal groups of 8, 4, 4, 4 and 12 digits. *)
Definition hex_uuid (s : string) : bool :=
  match dash (hex_run 8 s) with
  | Some r1 =>
    match dash (hex_run 4 r1) with
    | Some r2 =>
      match dash (hex_run 4 r2) with
      | Some r3 =>
        match dash (hex_run 4 r3) with
        | Some r4 =>
          match hex_run 12 r4 with
          | Some EmptyString => true
          | _ => false
          end
        | None => false
        end
      | None => false
      end
    | None => false
    end
  | None => false
  end.

(** A format for emails: something with an [@] in it. *)
Fixpoint has_at (s : string) : bool :=
  match s with
  | String c r => Ascii.eqb c "@" || has_at r
  | EmptyString => false
  end.

Definition survey_uuid : string := "0a1b2c3d-0000-4000-8000-000000000001".
Definition text_uuid : string := "0a1b2c3d-0000-4000-8000-000000000002".
Definition choice_uuid : string := "0a1b2c3d-0000-4000-8000-000000000003".

Definition db1 : store :=
  Store [Survey.Row survey_uuid "published" "Lunch"]
        [Question.Row text_uuid survey_uuid "Why" "text" None true;
         Question.Row choice_uuid survey_uuid "Pick" "single_choice"
           (Some ["a"; "b"]) false]
        [] [].

(** The survey id above, spelled in upper case, and a submission that
    gives it so. *)
Definition survey_upper : string := "0A1B2C3D-0000-4000-8000-000000000001".

Definition tasty_upper : submission :=
  Submission survey_upper None None
    [AnswerInput text_uuid (Some "tasty") None].

(** A page on which only the text question was answered. *)
Definition page_text_only : list Fill.form_answer :=
  [Fill.FormAnswer text_uuid (Some "tasty") None None].

(** A page on which both questions were answered. *)
Definition page_both : list Fill.form_answer :=
  [Fill.FormAnswer text_uuid (Some "tasty") None None;
   Fill.FormAnswer choice_uuid None (Some ["a"]) None].

(** A body with [answer_text: null]. *)
Definition body_with_null : list (string * Zod.json) :=
  [("survey_id", Zod.JString survey_uuid);
   ("answers",
    Zod.JArray
      [Zod.JObject [("question_id", Zod.JString choice_uuid);
                    ("answer_text", Zod.JNull);
                    ("answer_options", Zod.JArray [Zod.JString "a"])]])].

End Cases.
(** ** Numbers and their decimal forms

    [parseFloat] gives Numbers in canonical form, and reads the text that
    [toString] prints for a Number as that Number again. *)

Section Binary64.
Local Open Scope Z_scope.

Local Abbreviation fexp := (SpecFloat.fexp JS.prec JS.emax).
Local Abbreviation bounded := (SpecFloat.bounded JS.prec JS.emax).

Lemma fexp_eq (e : Z) : fexp e = Z.max (e - 53) (-1074).
Proof. reflexivity. Qed.

Lemma digits2_size (p : positive) : digits2_pos p = Pos.size p.
Proof. induction p as [p IH|p IH|]; simpl; rewrite ?IH; reflexivity. Qed.

Lemma digits2_log2 (p : positive) :
  Zpos (digits2_pos p) = Z.log2 (Zpos p) + 1.
Proof.
  destruct p as [p|p|]; simpl; rewrite ?digits2_size; lia.
Qed.

Lemma Zdigits2_log2 (z : Z) : 0 < z -> Zdigits2 z = Z.log2 z + 1.
Proof.
  destruct z as [|p|p]; try lia. intros _. simpl Zdigits2.
  apply digits2_log2.
Qed.

Lemma Zdigits2_nonneg (z : Z) : 0 <= z -> 0 <= Zdigits2 z.
Proof. destruct z; simpl; lia. Qed.

Lemma Zdigits2_bounds (z : Z) :
  0 < z -> 2 ^ (Zdigits2 z - 1) <= z < 2 ^ Zdigits2 z.
Proof.
  intros Hz. rewrite (Zdigits2_log2 z Hz).
  replace (Z.log2 z + 1 - 1) with (Z.log2 z) by lia.
  apply Z.log2_spec, Hz.
Qed.

Lemma Zdigits2_unique (z d : Z) :
  2 ^ (d - 1) <= z < 2 ^ d -> 0 < z -> Zdigits2 z = d.
Proof.
  intros H Hz. rewrite (Zdigits2_log2 z Hz).
  assert (0 < d).
  { destruct (Z.lt_trichotomy d 0) as [Hd|[Hd|Hd]]; [|subst|exact Hd].
    - rewrite (Z.pow_neg_r 2 d Hd) in H. lia.
    - simpl in H. lia. }
  rewrite (Z.log2_unique z (d - 1)); [lia|lia|].
  replace (Z.succ (d - 1)) with d by lia. exact H.
Qed.

Lemma Zdigits2_mul_pow2 (z t : Z) :
  0 < z -> 0 <= t -> Zdigits2 (z * 2 ^ t) = Zdigits2 z + t.
Proof.
  intros Hz Ht.
  assert (0 < z * 2 ^ t)
    by (apply Z.mul_pos_pos; [lia|apply Z.pow_pos_nonneg; lia]).
  rewrite !Zdigits2_log2 by lia. rewrite Z.log2_mul_pow2 by lia. lia.
Qed.

Lemma Zdigits2_le (a b : Z) : 0 < a -> a <= b -> Zdigits2 a <= Zdigits2 b.
Proof.
  intros Ha Hab. rewrite !Zdigits2_log2 by lia.
  pose proof (Z.log2_le_mono a b Hab). lia.
Qed.

(** ** Shifts *)

Lemma iter_pos_nat {A : Type} (f : A -> A) (p : positive) (x : A) :
  SpecFloat.iter_pos f p x = Nat.iter (Pos.to_nat p) f x.
Proof.
  revert x. induction p as [p IH|p IH|]; intros x; simpl SpecFloat.iter_pos.
  - rewrite !IH, Pos2Nat.inj_xI.
    replace (S (2 * Pos.to_nat p))%nat
      with (Pos.to_nat p + S (Pos.to_nat p))%nat by lia.
    rewrite Nat.iter_add, Nat.iter_succ_r. reflexivity.
  - rewrite !IH, Pos2Nat.inj_xO.
    replace (2 * Pos.to_nat p)%nat
      with (Pos.to_nat p + Pos.to_nat p)%nat by lia.
    rewrite Nat.iter_add. reflexivity.
  - reflexivity.
Qed.

Lemma shr_1_m (mrs : shr_record) :
  0 <= shr_m mrs -> shr_m (shr_1 mrs) = shr_m mrs / 2.
Proof.
  destruct mrs as [m r s]. simpl. intros Hm.
  destruct m as [|[p|p|]|p]; try lia; cbn [shr_m].
  - reflexivity.
  - apply (Z.div_unique_pos _ _ _ 1); [lia|].
    rewrite Pos2Z.inj_xI. reflexivity.
  - apply (Z.div_unique_pos _ _ _ 0); [lia|].
    rewrite Pos2Z.inj_xO. lia.
  - reflexivity.
Qed.

Lemma shr_iter_m (n : nat) (mrs : shr_record) :
  0 <= shr_m mrs ->
  shr_m (Nat.iter n shr_1 mrs) = shr_m mrs / 2 ^ Z.of_nat n.
Proof.
  intros Hm. induction n as [|n IH].
  - simpl. rewrite Z.div_1_r. reflexivity.
  - rewrite Nat.iter_succ, shr_1_m, IH.
    + rewrite Z.div_div by (try apply Z.pow_pos_nonneg; lia).
      rewrite Nat2Z.inj_succ, Z.pow_succ_r by lia.
      f_equal. lia.
    + rewrite IH. apply Z.div_pos; [lia|apply Z.pow_pos_nonneg; lia].
Qed.

Lemma shr_1_exact (z : Z) :
  0 < z ->
  shr_1 (Build_shr_record (2 * z) false false)
  = Build_shr_record z false false.
Proof. destruct z; try lia. reflexivity. Qed.

Lemma shr_iter_exact (n : nat) (z : Z) :
  0 < z ->
  Nat.iter n shr_1 (Build_shr_record (z * 2 ^ Z.of_nat n) false false)
  = Build_shr_record z false false.
Proof.
  intros Hz. revert z Hz. induction n as [|n IH]; intros z Hz.
  - simpl. rewrite Z.mul_1_r. reflexivity.
  - rewrite Nat.iter_succ_r.
    rewrite Nat2Z.inj_succ, Z.pow_succ_r by lia.
    replace (z * (2 * 2 ^ Z.of_nat n)) with (2 * (z * 2 ^ Z.of_nat n)) by lia.
    rewrite shr_1_exact.
    + apply IH, Hz.
    + apply Z.mul_pos_pos; [lia|apply Z.pow_pos_nonneg; lia].
Qed.

Lemma shr_exact (z e t : Z) :
  0 < z -> 0 <= t ->
  shr (Build_shr_record (z * 2 ^ t) false false) e t
  = (Build_shr_record z false false, e + t).
Proof.
  intros Hz Ht. destruct t as [|p|p]; try lia.
  - simpl. rewrite Z.mul_1_r, Z.add_0_r. reflexivity.
  - unfold shr. rewrite iter_pos_nat.
    rewrite <- (positive_nat_Z p) at 1.
    rewrite shr_iter_exact by exact Hz. reflexivity.
Qed.

(** ** Rounding a value that is a Number gives that Number *)

Lemma bounded_spec (m : positive) (e : Z) :
  bounded m e = true ->
  fexp (Zpos (digits2_pos m) + e) = e /\ e <= 971.
Proof.
  unfold SpecFloat.bounded, canonical_mantissa.
  intros H. apply andb_prop in H. destruct H as [H1 H2].
  apply Z.eqb_eq in H1. apply Z.leb_le in H2. split; [exact H1|exact H2].
Qed.

Lemma binary_round_aux_exact (sx : bool) (m : positive) (e t : Z) :
  bounded m e = true -> 0 <= t ->
  binary_round_aux JS.prec JS.emax sx (Zpos m * 2 ^ t) (e - t) loc_Exact
  = S754_finite sx m e.
Proof.
  intros Hb Ht. destruct (bounded_spec m e Hb) as [Hc He].
  unfold binary_round_aux, shr_fexp.
  rewrite Zdigits2_mul_pow2 by lia. simpl (Zdigits2 (Zpos m)).
  replace (Zpos (digits2_pos m) + t + (e - t))
    with (Zpos (digits2_pos m) + e) by lia.
  rewrite Hc. replace (e - (e - t)) with t by lia.
  simpl shr_record_of_loc. rewrite shr_exact by lia.
  replace (e - t + t) with e by lia.
  simpl loc_of_shr_record. simpl round_nearest_even. simpl shr_m.
  simpl (Zdigits2 (Zpos m)). rewrite Hc, Z.sub_diag.
  cbn [shr shr_record_of_loc shr_m].
  destruct (Z.leb_spec e (JS.emax - JS.prec)) as [_|H]; [reflexivity|].
  unfold JS.emax, JS.prec in H. lia.
Qed.

End Binary64.

Section Exact.
Local Open Scope Z_scope.

Local Abbreviation fexp := (SpecFloat.fexp JS.prec JS.emax).
Local Abbreviation bounded := (SpecFloat.bounded JS.prec JS.emax).

Lemma fexp_mono (a b : Z) : a <= b -> fexp a <= fexp b.
Proof. rewrite !fexp_eq. lia. Qed.

Lemma div_eucl_eq (a b : Z) : Z.div_eucl a b = (a / b, a mod b).
Proof.
  unfold Z.div, Z.modulo. destruct (Z.div_eucl a b). reflexivity.
Qed.

Lemma pos_iter_xO (m d : positive) :
  Zpos (Pos.iter xO m d) = Zpos m * 2 ^ Zpos d.
Proof.
  induction d as [|d IH] using Pos.peano_ind.
  - simpl. lia.
  - rewrite Pos.iter_succ, Pos2Z.inj_xO, IH, Pos2Z.inj_succ,
      Z.pow_succ_r by lia.
    lia.
Qed.

Lemma same_value_digits mx ex m e :
  same_value mx ex m e ->
  Zpos (digits2_pos mx) + ex = Zpos (digits2_pos m) + e.
Proof.
  unfold same_value. destruct (Z.leb_spec e ex) as [H|H]; intros E.
  - change (Zpos (digits2_pos m)) with (Zdigits2 (Zpos m)).
    rewrite <- E, Zdigits2_mul_pow2 by lia. simpl Zdigits2. lia.
  - change (Zpos (digits2_pos mx)) with (Zdigits2 (Zpos mx)).
    rewrite E, Zdigits2_mul_pow2 by lia. simpl Zdigits2. lia.
Qed.

Lemma binary_round_exact (sx : bool) (mx : positive) (ex : Z)
    (m : positive) (e : Z) :
  bounded m e = true ->
  same_value mx ex m e ->
  binary_round JS.prec JS.emax sx mx ex = S754_finite sx m e.
Proof.
  intros Hb Hv. destruct (bounded_spec m e Hb) as [Hc He].
  unfold binary_round. rewrite (same_value_digits mx ex m e Hv), Hc.
  unfold shl_align, same_value in *.
  destruct (Z.leb_spec e ex) as [H|H].
  - destruct (e - ex) as [|d|d] eqn:Ed; try lia.
    + assert (ex = e) by lia. subst ex.
      rewrite Z.sub_diag, Z.mul_1_r in Hv. injection Hv as ->.
      rewrite <- (binary_round_aux_exact sx m e 0 Hb) by lia.
      rewrite Z.mul_1_r, Z.sub_0_r. reflexivity.
    + rewrite pos_iter_xO.
      replace (Zpos d) with (ex - e) by lia. rewrite Hv.
      rewrite <- (binary_round_aux_exact sx m e 0 Hb) by lia.
      rewrite Z.mul_1_r, Z.sub_0_r. reflexivity.
  - destruct (e - ex) as [|d|d] eqn:Ed; try lia.
    rewrite Hv, <- Ed.
    replace ex with (e - (e - ex)) at 2 by lia.
    apply binary_round_aux_exact; [exact Hb|lia].
Qed.

Lemma pow10_pos (k : Z) : 0 <= k -> 0 < 10 ^ k.
Proof. intros H. apply Z.pow_pos_nonneg; lia. Qed.

Lemma pow2_pos (k : Z) : 0 <= k -> 0 < 2 ^ k.
Proof. intros H. apply Z.pow_pos_nonneg; lia. Qed.

Lemma new_location_exact (n : Z) : new_location n 0 = loc_Exact.
Proof.
  unfold new_location, new_location_even, new_location_odd.
  destruct (Z.even n); reflexivity.
Qed.

Lemma SFdiv_exact (sx : bool) (a b m : positive) (e : Z) :
  bounded m e = true ->
  (let '(num, den) := JS.fraction_of m e in Zpos a * den = num * Zpos b) ->
  SFdiv JS.prec JS.emax (S754_finite sx a 0) (S754_finite false b 0)
  = S754_finite sx m e.
Proof.
  intros Hb Hv. destruct (bounded_spec m e Hb) as [Hc He].
  unfold SFdiv, SFdiv_core_binary.
  set (d1 := Zdigits2 (Zpos a)). set (d2 := Zdigits2 (Zpos b)).
  replace (d1 + 0 - (d2 + 0)) with (d1 - d2) by lia.
  replace (0 - 0) with 0 by lia.
  set (e' := Z.min (fexp (d1 - d2)) 0).
  assert (d1 - d2 <= Zpos (digits2_pos m) + e) as Hd.
  { unfold d1, d2. rewrite !Zdigits2_log2 by lia.
    rewrite digits2_log2.
    unfold JS.fraction_of in Hv.
    destruct (Z.leb_spec 0 e) as [H|H].
    - rewrite Z.mul_1_r in Hv. rewrite Hv.
      replace (Zpos m * 2 ^ e * Zpos b) with (Zpos m * Zpos b * 2 ^ e)
        by lia.
      rewrite Z.log2_mul_pow2 by lia.
      pose proof (Z.log2_mul_above (Zpos m) (Zpos b)). lia.
    - pose proof (Z.log2_mul_pow2 (Zpos a) (- e)) as H1.
      rewrite Hv in H1.
      pose proof (Z.log2_mul_above (Zpos m) (Zpos b)). lia. }
  assert (e' <= e) as He'.
  { pose proof (fexp_mono _ _ Hd) as H. rewrite Hc in H. unfold e'. lia. }
  assert (e' <= 0) as He0 by (unfold e'; lia).
  assert (Zpos a * 2 ^ (- e') = Zpos b * (Zpos m * 2 ^ (e - e'))) as Hq.
  { unfold JS.fraction_of in Hv.
    destruct (Z.leb_spec 0 e) as [H|H].
    - rewrite Z.mul_1_r in Hv. rewrite Hv.
      replace (e - e') with (e + - e') by lia.
      rewrite Z.pow_add_r by lia. lia.
    - replace (- e') with (- e + (e - e')) by lia.
      rewrite Z.pow_add_r by lia.
      rewrite Z.mul_assoc, Hv. lia. }
  assert ((match 0 - e' with
           | 0 => Zpos a
           | Zpos _ => Z.shiftl (Zpos a) (0 - e')
           | Zneg _ => 0
           end) = Zpos b * (Zpos m * 2 ^ (e - e'))) as Hm.
  { rewrite <- Hq. destruct (0 - e') as [|s|s] eqn:Es; try lia.
    - replace (- e') with 0 by lia. simpl. lia.
    - rewrite Z.shiftl_mul_pow2 by lia. f_equal. f_equal. lia. }
  rewrite Hm, div_eucl_eq.
  rewrite Z.mul_comm, Z.div_mul, Z.mod_mul by lia.
  rewrite new_location_exact, Bool.xorb_false_r.
  replace e' with (e - (e - e')) at 2 by lia.
  apply binary_round_aux_exact; [exact Hb|lia].
Qed.

(** A decimal whose value is a Number reads as that Number. *)
Lemma of_decimal_exact (neg : bool) (m : positive) (e s p : Z) :
  bounded m e = true ->
  0 < s ->
  (let '(num, den) := JS.fraction_of m e in denotes s p num den) ->
  JS.of_decimal neg s p = S754_finite neg m e.
Proof.
  intros Hb Hs Hv. unfold JS.of_decimal.
  destruct s as [|sp|sp]; try lia.
  unfold denotes in Hv.
  destruct (Z.leb_spec 0 p) as [Hp|Hp].
  - assert (0 < Zpos sp * 10 ^ p) as Hpos
      by (apply Z.mul_pos_pos; [lia|apply pow10_pos, Hp]).
    destruct (Zpos sp * 10 ^ p) as [|np|np] eqn:En; try lia.
    assert (same_value np 0 m e) as Hsv.
    { unfold same_value, JS.fraction_of in *.
      destruct (Z.leb_spec 0 e) as [H|H].
      - destruct (Z.leb_spec e 0) as [H'|H'].
        + assert (e = 0) by lia. subst e. simpl in *. lia.
        + rewrite Z.sub_0_r. lia.
      - destruct (Z.leb_spec e 0) as [H'|H']; [|lia].
        rewrite Z.sub_0_l. exact Hv. }
    destruct neg; simpl Z.opp; unfold binary_normalize;
      apply binary_round_exact; assumption.
  - apply SFdiv_exact; [exact Hb|].
    destruct (JS.fraction_of m e) as [num den].
    rewrite Z2Pos.id by (apply pow10_pos; lia). exact Hv.
Qed.

End Exact.

Section Valid.
Local Open Scope Z_scope.

Local Abbreviation fexp := (SpecFloat.fexp JS.prec JS.emax).
Local Abbreviation bounded := (SpecFloat.bounded JS.prec JS.emax).
Local Abbreviation valid := (SpecFloat.valid_binary JS.prec JS.emax).

Lemma Zdigits2_div_pow2 (z n : Z) :
  0 <= n -> 0 < z / 2 ^ n -> Zdigits2 (z / 2 ^ n) = Zdigits2 z - n.
Proof.
  intros Hn Hq.
  assert (0 < z) as Hz.
  { destruct (Z.lt_trichotomy z 0) as [H|[H|H]]; [|subst|exact H].
    - pose proof (Z.div_lt_upper_bound z (2 ^ n) 0 (pow2_pos n Hn)). lia.
    - rewrite Z.div_0_l in Hq; [lia|]. pose proof (pow2_pos n Hn). lia. }
  rewrite !Zdigits2_log2 by lia.
  rewrite <- Z.shiftr_div_pow2, Z.log2_shiftr by lia.
  assert (2 ^ n <= z) as Hle.
  { destruct (Z.le_gt_cases (2 ^ n) z) as [H|H]; [exact H|].
    rewrite Z.div_small in Hq by lia. lia. }
  apply Z.log2_le_pow2 in Hle; lia.
Qed.

Lemma Zdigits2_small (z n : Z) :
  0 <= n -> 0 <= z -> z / 2 ^ n = 0 -> Zdigits2 z <= n.
Proof.
  intros Hn Hz Hq.
  destruct (Z.eq_dec z 0) as [->|Hne]; [simpl; lia|].
  rewrite Zdigits2_log2 by lia.
  assert (z < 2 ^ n) as Hlt.
  { destruct (Z.le_gt_cases (2 ^ n) z) as [H|H]; [|exact H].
    pose proof (Z.div_le_lower_bound z (2 ^ n) 1 (pow2_pos n Hn)). lia. }
  apply Z.log2_lt_pow2 in Hlt; lia.
Qed.

Lemma shr_m_shift (mrs : shr_record) (e t : Z) :
  0 <= shr_m mrs -> 0 <= t ->
  shr_m (fst (shr mrs e t)) = shr_m mrs / 2 ^ t /\
  snd (shr mrs e t) = e + t.
Proof.
  intros Hm Ht. destruct t as [|p|p]; try lia.
  - simpl. rewrite Z.div_1_r. split; [reflexivity|lia].
  - unfold shr. simpl fst. simpl snd. rewrite iter_pos_nat.
    rewrite shr_iter_m by exact Hm.
    rewrite positive_nat_Z. split; reflexivity.
Qed.

Lemma shr_record_of_loc_m (z : Z) (l : location) :
  shr_m (shr_record_of_loc z l) = z.
Proof. destruct l as [|[]]; reflexivity. Qed.

(** What a shift to the exponent of the format leaves. *)
Lemma shr_fexp_spec (z ex : Z) (l : location) :
  0 <= z -> ex <= fexp (Zdigits2 z + ex) ->
  let r := shr_fexp JS.prec JS.emax z ex l in
  0 <= shr_m (fst r) /\
  (0 < shr_m (fst r) -> fexp (Zdigits2 (shr_m (fst r)) + snd r) = snd r) /\
  (shr_m (fst r) = 0 -> snd r = -1074).
Proof.
  intros Hz Hex. unfold shr_fexp.
  set (n := fexp (Zdigits2 z + ex) - ex).
  assert (0 <= n) as Hn by (unfold n; lia).
  destruct (shr_m_shift (shr_record_of_loc z l) ex n) as [Hm He];
    [rewrite shr_record_of_loc_m; exact Hz|exact Hn|].
  rewrite shr_record_of_loc_m in Hm. cbv zeta. rewrite Hm, He.
  split; [apply Z.div_pos; [exact Hz|apply pow2_pos, Hn]|]. split.
  - intros Hq. rewrite Zdigits2_div_pow2 by assumption.
    replace (Zdigits2 z - n + (ex + n)) with (Zdigits2 z + ex) by lia.
    unfold n. lia.
  - intros Hq. pose proof (Zdigits2_small z n Hn Hz Hq) as Hd.
    unfold n in *. rewrite fexp_eq in *. lia.
Qed.

Lemma round_nearest_even_range (m : Z) (l : location) :
  m <= round_nearest_even m l <= m + 1.
Proof.
  destruct l as [|[]]; simpl; try lia. destruct (Z.even m); lia.
Qed.

Lemma binary_round_aux_valid (sx : bool) (mx ex : Z) (lx : location) :
  0 <= mx -> ex <= fexp (Zdigits2 mx + ex) ->
  valid (binary_round_aux JS.prec JS.emax sx mx ex lx) = true.
Proof.
  intros Hm Hex. unfold binary_round_aux.
  pose proof (shr_fexp_spec mx ex lx Hm Hex) as H1. cbv zeta in H1.
  destruct (shr_fexp JS.prec JS.emax mx ex lx) as [mrs' e'].
  simpl fst in H1. simpl snd in H1. destruct H1 as (Hp & Hc & H0).
  pose proof (round_nearest_even_range (shr_m mrs')
                (loc_of_shr_record mrs')) as Hr.
  set (m1 := round_nearest_even (shr_m mrs') (loc_of_shr_record mrs')) in *.
  assert (e' <= fexp (Zdigits2 m1 + e')) as Hex1.
  { destruct (Z.eq_dec (shr_m mrs') 0) as [E|E].
    - rewrite (H0 E), fexp_eq. lia.
    - assert (0 < shr_m mrs') as Hpos by lia.
      rewrite <- (Hc Hpos) at 1. apply fexp_mono.
      pose proof (Zdigits2_le (shr_m mrs') m1 Hpos). lia. }
  pose proof (shr_fexp_spec m1 e' loc_Exact ltac:(lia) Hex1) as H2.
  cbv zeta in H2.
  destruct (shr_fexp JS.prec JS.emax m1 e' loc_Exact) as [mrs'' e''].
  simpl fst in H2. simpl snd in H2. destruct H2 as (Hp2 & Hc2 & _).
  destruct (shr_m mrs'') as [|q|q] eqn:Eq; try lia; [reflexivity|].
  destruct (Z.leb_spec e'' (JS.emax - JS.prec)) as [Hle|Hgt];
    [|reflexivity].
  simpl. unfold SpecFloat.bounded, canonical_mantissa.
  apply andb_true_intro. split.
  - apply Z.eqb_eq. apply (Hc2 ltac:(lia)).
  - apply Z.leb_le. exact Hle.
Qed.

Lemma binary_round_valid (sx : bool) (mx : positive) (ex : Z) :
  valid (binary_round JS.prec JS.emax sx mx ex) = true.
Proof.
  unfold binary_round, shl_align.
  set (f := fexp (Zpos (digits2_pos mx) + ex)).
  destruct (f - ex) as [|d|d] eqn:Ed.
  - apply binary_round_aux_valid; [lia|]. simpl Zdigits2. fold f. lia.
  - apply binary_round_aux_valid; [lia|]. simpl Zdigits2. fold f. lia.
  - apply binary_round_aux_valid; [lia|].
    rewrite pos_iter_xO, Zdigits2_mul_pow2 by lia. simpl Zdigits2.
    replace (Zpos (digits2_pos mx) + Zpos d + f)
      with (Zpos (digits2_pos mx) + ex) by lia.
    fold f. lia.
Qed.

Lemma binary_normalize_valid (m e : Z) (szero : bool) :
  valid (binary_normalize JS.prec JS.emax m e szero) = true.
Proof.
  destruct m; simpl; [reflexivity| |]; apply binary_round_valid.
Qed.

Lemma SFdiv_valid (sx : bool) (a b : positive) :
  valid (SFdiv JS.prec JS.emax (S754_finite sx a 0) (S754_finite false b 0))
  = true.
Proof.
  unfold SFdiv, SFdiv_core_binary.
  set (d1 := Zdigits2 (Zpos a)). set (d2 := Zdigits2 (Zpos b)).
  replace (d1 + 0 - (d2 + 0)) with (d1 - d2) by lia.
  replace (0 - 0) with 0 by lia.
  set (e' := Z.min (fexp (d1 - d2)) 0).
  assert (e' <= 0) as He0 by (unfold e'; lia).
  assert ((match 0 - e' with
           | 0 => Zpos a
           | Zpos _ => Z.shiftl (Zpos a) (0 - e')
           | Zneg _ => 0
           end) = Zpos a * 2 ^ (- e')) as Hm.
  { destruct (0 - e') as [|s|s] eqn:Es; try lia.
    - replace (- e') with 0 by lia. simpl. lia.
    - rewrite Z.shiftl_mul_pow2 by lia. f_equal. f_equal. lia. }
  rewrite Hm, div_eucl_eq.
  set (q := Zpos a * 2 ^ (- e') / Zpos b).
  assert (0 <= q) as Hq.
  { apply Z.div_pos; [|lia].
    apply Z.mul_nonneg_nonneg; [lia|]. pose proof (pow2_pos (- e')). lia. }
  apply binary_round_aux_valid; [exact Hq|].
  assert (d1 - d2 <= Zdigits2 q + e') as Hd.
  { pose proof (Zdigits2_nonneg q Hq) as Hn.
    destruct (Z.le_gt_cases (d1 - 1 - e' - d2) (-1)) as [Hs|Hs]; [lia|].
    pose proof (Zdigits2_bounds (Zpos a) ltac:(lia)) as [Ha _].
    pose proof (Zdigits2_bounds (Zpos b) ltac:(lia)) as [_ Hb].
    fold d1 in Ha. fold d2 in Hb.
    assert (2 ^ (d1 - 1 - e' - d2) <= q) as Hlow.
    { apply Z.div_le_lower_bound; [lia|].
      assert (2 ^ (d1 - 1) * 2 ^ (- e')
              = 2 ^ d2 * 2 ^ (d1 - 1 - e' - d2)) as E.
      { rewrite <- !Z.pow_add_r by (unfold d1, d2 in *; simpl in *; lia).
        f_equal. lia. }
      pose proof (pow2_pos (- e') ltac:(lia)).
      pose proof (pow2_pos (d1 - 1 - e' - d2) ltac:(lia)).
      nia. }
    assert (0 < q) as Hq'.
    { pose proof (pow2_pos (d1 - 1 - e' - d2) ltac:(lia)). lia. }
    rewrite Zdigits2_log2 by exact Hq'.
    apply Z.log2_le_pow2 in Hlow; lia. }
  pose proof (fexp_mono _ _ Hd). unfold e' in *. lia.
Qed.

Lemma of_decimal_valid (neg : bool) (m e : Z) :
  valid (JS.of_decimal neg m e) = true.
Proof.
  unfold JS.of_decimal. destruct m as [|p|p]; try reflexivity.
  destruct (0 <=? e).
  - apply binary_normalize_valid.
  - apply SFdiv_valid.
Qed.

Lemma parseFloat_valid (input : string) :
  valid (JS.parseFloat input) = true.
Proof.
  unfold JS.parseFloat.
  destruct (match JS.trim_start input with
            | String "-" r => (true, r)
            | String "+" r => (false, r)
            | _ => (false, JS.trim_start input)
            end) as [neg s1].
  destruct (String.prefix "Infinity" s1); [reflexivity|].
  destruct (JS.span_digits s1) as [ip s2].
  destruct (match s2 with
            | String "." r => JS.span_digits r
            | _ => (EmptyString, s2)
            end) as [fp s3].
  destruct (JS.is_empty ip && JS.is_empty fp); [reflexivity|].
  apply of_decimal_valid.
Qed.

End Valid.

Section Search.
Local Open Scope Z_scope.

Local Abbreviation bounded := (SpecFloat.bounded JS.prec JS.emax).

Lemma number_eqb_eq (x y : JS.number) :
  JS.number_eqb x y = true -> x = y.
Proof.
  destruct x as [a|a| |a m e], y as [b|b| |b n f]; simpl;
    try discriminate; try reflexivity.
  - intros H. apply Bool.eqb_prop in H. subst. reflexivity.
  - intros H. apply Bool.eqb_prop in H. subst. reflexivity.
  - intros H. apply andb_prop in H. destruct H as [H H3].
    apply andb_prop in H. destruct H as [H1 H2].
    apply Bool.eqb_prop in H1. apply Pos.eqb_eq in H2. apply Z.eqb_eq in H3.
    subst. reflexivity.
Qed.

Lemma strip_zeros_denotes (fuel : nat) (s p num den : Z) :
  0 < s -> denotes s p num den ->
  0 < fst (JS.strip_zeros fuel s p) /\
  denotes (fst (JS.strip_zeros fuel s p)) (snd (JS.strip_zeros fuel s p))
    num den.
Proof.
  revert s p. induction fuel as [|f IH]; intros s p Hs Hd; simpl;
    [split; assumption|].
  destruct (Z.ltb_spec 0 s) as [_|H]; [|lia]. simpl.
  destruct (Z.eqb_spec (s mod 10) 0) as [Hm|Hm]; [|split; assumption].
  assert (s = 10 * (s / 10)) as Es
    by (pose proof (Z.div_mod s 10); lia).
  apply IH; [lia|].
  unfold denotes in *.
  destruct (Z.leb_spec 0 p) as [Hp|Hp].
  - destruct (Z.leb_spec 0 (p + 1)) as [_|H]; [|lia].
    rewrite Z.pow_add_r by lia. rewrite <- Hd. rewrite Es at 2. simpl. lia.
  - destruct (Z.leb_spec 0 (p + 1)) as [Hp1|Hp1].
    + assert (p = -1) by lia. subst p. simpl in *. lia.
    + replace (- p) with (1 + - (p + 1)) in Hd by lia.
      rewrite Z.pow_add_r in Hd by lia. simpl (10 ^ 1) in Hd. lia.
Qed.

Lemma exact_step_reads (m : positive) (e num den n k : Z) :
  bounded m e = true ->
  JS.fraction_of m e = (num, den) ->
  step_a num n k mod step_b den n k = 0 ->
  JS.reads_as (S754_finite false m e)
    (JS.stripped (step_a num n k / step_b den n k) (n - k)) = true.
Proof.
  intros Hb Hf Hr.
  assert (0 < num /\ 0 < den) as [Hnum Hden].
  { unfold JS.fraction_of in Hf.
    destruct (0 <=? e) eqn:E; injection Hf as <- <-.
    - apply Z.leb_le in E. pose proof (pow2_pos e E). split; [nia|lia].
    - apply Z.leb_gt in E. pose proof (pow2_pos (- e)). split; lia. }
  set (a := step_a num n k) in *. set (b := step_b den n k) in *.
  assert (0 < a /\ 0 < b) as [Ha Hb'].
  { unfold a, b, step_a, step_b.
    destruct (Z.leb_spec 0 (n - k)) as [Hp|Hp].
    - pose proof (pow10_pos (n - k) Hp). split; [lia|nia].
    - pose proof (pow10_pos (- (n - k))). split; [nia|lia]. }
  assert (a = b * (a / b)) as Eab
    by (pose proof (Z.div_mod a b); lia).
  assert (0 < a / b) as Hq by nia.
  assert (denotes (a / b) (n - k) num den) as Hd.
  { unfold denotes. unfold a, b, step_a, step_b in *.
    destruct (Z.leb_spec 0 (n - k)) as [Hp|Hp]; lia. }
  unfold JS.stripped, JS.reads_as.
  destruct (strip_zeros_denotes (S (Z.to_nat (Z.log2 (a / b)))) (a / b)
              (n - k) num den Hq Hd) as [Hs' Hd'].
  rewrite (of_decimal_exact false m e _ _ Hb Hs').
  - simpl. rewrite Pos.eqb_refl, Z.eqb_refl. reflexivity.
  - rewrite Hf. exact Hd'.
Qed.

Lemma shortest_unfold (fuel : nat) (x : JS.number) (num den n k : Z) :
  JS.shortest (S fuel) x num den n k =
    let a := step_a num n k in
    let b := step_b den n k in
    let lo := JS.stripped (a / b) (n - k) in
    let hi := JS.stripped (a / b + 1) (n - k) in
    if JS.reads_as x lo && JS.reads_as x hi then
      match (2 * (a mod b) ?= b) with
      | Lt => lo
      | Gt => hi
      | Eq => if Z.even (a / b) then lo else hi
      end
    else if JS.reads_as x lo then lo
    else if JS.reads_as x hi then hi
    else JS.shortest fuel x num den n (k + 1).
Proof. reflexivity. Qed.

(** The search returns digits that read as [x], when it is given the
    steps to reach a position at which the expansion of [x] ends. *)
Lemma shortest_reads (m : positive) (e num den n : Z) (fuel : nat) (k : Z) :
  bounded m e = true ->
  JS.fraction_of m e = (num, den) ->
  (exists j, k <= j < k + Z.of_nat fuel /\
             step_a num n j mod step_b den n j = 0) ->
  JS.reads_as (S754_finite false m e)
    (JS.shortest fuel (S754_finite false m e) num den n k) = true.
Proof.
  intros Hb Hf. revert k.
  induction fuel as [|f IH]; intros k (j & Hj & Hex); [lia|].
  rewrite shortest_unfold. cbv zeta.
  pose proof (exact_step_reads m e num den n k Hb Hf) as Hk.
  destruct (JS.reads_as _ (JS.stripped (step_a num n k / step_b den n k)
                             (n - k))) eqn:Elo;
    destruct (JS.reads_as _ (JS.stripped
                               (step_a num n k / step_b den n k + 1)
                               (n - k))) eqn:Ehi; simpl.
  - destruct (2 * _ ?= _); [destruct (Z.even _)| |]; assumption.
  - exact Elo.
  - exact Ehi.
  - apply IH. exists j. split; [|exact Hex].
    assert (j <> k) as Hne.
    { intros ->. discriminate (Hk Hex). }
    lia.
Qed.

Lemma lead_scale_le (fuel : nat) (num den j J : Z) :
  j <= J -> den <= num * 10 ^ J -> J - j < Z.of_nat fuel ->
  JS.lead_scale fuel num den j <= J.
Proof.
  revert j. induction fuel as [|f IH]; intros j Hj Hd Hf; simpl; [lia|].
  destruct (Z.leb_spec den (num * 10 ^ j)) as [H|H]; [exact Hj|].
  apply IH; [|exact Hd|lia].
  assert (j <> J) by (intros ->; lia). lia.
Qed.

Lemma digits_aux_nonempty (fuel : nat) (n : Z) (acc : string) :
  (0 < String.length (JS.digits_aux (S fuel) n acc))%nat.
Proof.
  revert n acc. induction fuel as [|f IH]; intros n acc.
  - simpl. destruct (n <? 10); simpl; lia.
  - change (JS.digits_aux (S (S f)) n acc)
      with (if n <? 10 then String (JS.digit_char n) acc
            else JS.digits_aux (S f) (n / 10)
                   (String (JS.digit_char (n mod 10)) acc)).
    destruct (n <? 10); [simpl; lia|apply IH].
Qed.

(** The expansion of [x = m * 2^e] ends at the position [min e 0], which
    the search reaches from [k = 1]. *)
Lemma expansion_ends (m : positive) (e num den : Z) :
  JS.fraction_of m e = (num, den) ->
  let n := JS.decimal_exponent num den in
  let j := n - Z.min e 0 in
  1 <= j /\ step_a num n j mod step_b den n j = 0.
Proof.
  intros Hf. cbv zeta. unfold JS.fraction_of in Hf.
  destruct (Z.leb_spec 0 e) as [He|He]; injection Hf as <- <-.
  - rewrite Z.min_r by lia. rewrite Z.sub_0_r.
    unfold step_a, step_b. rewrite Z.sub_diag. simpl.
    split; [|apply Z.mod_1_r].
    unfold JS.decimal_exponent.
    pose proof (pow2_pos e He).
    destruct (Z.leb_spec 1 (Zpos m * 2 ^ e)) as [_|H']; [|nia].
    unfold JS.decimal_digits.
    pose proof (digits_aux_nonempty
                  (Z.to_nat (Z.log2 (Zpos m * 2 ^ e / 1)))
                  (Zpos m * 2 ^ e / 1) EmptyString).
    lia.
  - rewrite Z.min_l by lia.
    set (n := JS.decimal_exponent (Zpos m) (2 ^ (- e))).
    assert (1 <= n - e) as Hn.
    { unfold n, JS.decimal_exponent.
      destruct (Z.leb_spec (2 ^ (- e)) (Zpos m)) as [H|H].
      - unfold JS.decimal_digits.
        pose proof (digits_aux_nonempty
                      (Z.to_nat (Z.log2 (Zpos m / 2 ^ (- e))))
                      (Zpos m / 2 ^ (- e)) EmptyString).
        lia.
      - pose proof (lead_scale_le
                      (S (Z.to_nat (Z.log2 (2 ^ (- e))))) (Zpos m)
                      (2 ^ (- e)) 1 (- e)) as Hl.
        rewrite Z.log2_pow2 in Hl by lia.
        assert (2 ^ (- e) <= Zpos m * 10 ^ (- e)) as Hle.
        { pose proof (Z.pow_le_mono_l 2 10 (- e)).
          pose proof (pow10_pos (- e)). nia. }
        specialize (Hl ltac:(lia) Hle ltac:(lia)).
        rewrite Z.log2_pow2 by lia. lia. }
    split; [exact Hn|].
    unfold step_a, step_b.
    replace (n - (n - e)) with e by lia.
    destruct (Z.leb_spec 0 e) as [H|_]; [lia|].
    replace 10 with (2 * 5) by reflexivity.
    rewrite Z.pow_mul_l.
    replace (Zpos m * (2 ^ (- e) * 5 ^ (- e)))
      with (Zpos m * 5 ^ (- e) * 2 ^ (- e)) by lia.
    apply Z.mod_mul. pose proof (pow2_pos (- e)). lia.
Qed.

(** The digits of a positive Number read as that Number. *)
Lemma printed_digits_read (m : positive) (e : Z) :
  bounded m e = true ->
  let '(num, den) := JS.fraction_of m e in
  let n := JS.decimal_exponent num den in
  let '(s, p) :=
    JS.shortest (Z.to_nat (n - Z.min e 0)) (S754_finite false m e)
      num den n 1 in
  0 < s /\ JS.of_decimal false s p = S754_finite false m e.
Proof.
  intros Hb. destruct (JS.fraction_of m e) as [num den] eqn:Hf. cbv zeta.
  destruct (expansion_ends m e num den Hf) as [Hj Hex].
  pose proof (shortest_reads m e num den (JS.decimal_exponent num den)
                (Z.to_nat (JS.decimal_exponent num den - Z.min e 0)) 1
                Hb Hf) as H.
  destruct (JS.shortest _ _ num den _ 1) as [s p].
  assert (JS.reads_as (S754_finite false m e) (s, p) = true) as Hr.
  { apply H. exists (JS.decimal_exponent num den - Z.min e 0).
    split; [lia|exact Hex]. }
  unfold JS.reads_as in Hr. simpl in Hr. apply number_eqb_eq in Hr.
  split; [|exact Hr].
  destruct s as [|sp|sp]; [discriminate Hr|lia|discriminate Hr].
Qed.

End Search.

Lemma span_digits_all (ds : string) :
  all_digits ds = true -> JS.span_digits ds = (ds, EmptyString).
Proof.
  induction ds as [|d ds IH]; simpl; [reflexivity|].
  intros H. apply andb_prop in H. destruct H as [Hd Hds].
  rewrite Hd, (IH Hds). reflexivity.
Qed.
Lemma span_digits_app (ds : string) (c : ascii) (rest : string) :
  all_digits ds = true -> JS.is_digit c = false ->
  JS.span_digits (ds ++ String c rest) = (ds, String c rest).
Proof.
  intros Hds Hc. induction ds as [|d ds IH]; simpl.
  - rewrite Hc. reflexivity.
  - simpl in Hds. apply andb_prop in Hds. destruct Hds as [Hd Hds].
    rewrite Hd, (IH Hds). reflexivity.
Qed.
Lemma append_empty (s : string) : (s ++ "")%string = s.
Proof.
  induction s as [|c s IH]; [reflexivity|].
  change (String c (s ++ "")%string = String c s). f_equal. exact IH.
Qed.
Lemma trim_start_digit (d : ascii) (r : string) :
  JS.is_digit d = true -> JS.trim_start (String d r) = String d r.
Proof.
  destruct d as [[] [] [] [] [] [] [] []]; intros H; try discriminate H;
    destruct r as [|c1 [|c2 r2]]; reflexivity.
Qed.

Section Printing.
Local Open Scope Z_scope.

Lemma append_assoc (a b c : string) : (a ++ b) ++ c = a ++ (b ++ c).
Proof.
  induction a as [|x a IH]; [reflexivity|].
  change (String x ((a ++ b) ++ c) = String x (a ++ (b ++ c))).
  f_equal. exact IH.
Qed.

Lemma append_length (a b : string) :
  String.length (a ++ b) = (String.length a + String.length b)%nat.
Proof.
  induction a as [|x a IH]; [reflexivity|].
  change (S (String.length (a ++ b))
          = S (String.length a + String.length b)).
  f_equal. exact IH.
Qed.

Lemma all_digits_app (a b : string) :
  all_digits (a ++ b) = all_digits a && all_digits b.
Proof.
  induction a as [|x a IH]; [reflexivity|].
  change (JS.is_digit x && all_digits (a ++ b)
          = JS.is_digit x && all_digits a && all_digits b).
  rewrite IH, andb_assoc. reflexivity.
Qed.

Lemma digits_value_from_app (v : Z) (a b : string) :
  JS.digits_value_from v (a ++ b)
  = JS.digits_value_from (JS.digits_value_from v a) b.
Proof.
  revert v. induction a as [|x a IH]; intros v; [reflexivity|].
  change (JS.digits_value_from (10 * v + JS.digit_val x) (a ++ b)
          = JS.digits_value_from
              (JS.digits_value_from (10 * v + JS.digit_val x) a) b).
  apply IH.
Qed.

Lemma zeros_digits (j : nat) : all_digits (JS.zeros j) = true.
Proof. induction j as [|j IH]; [reflexivity|exact IH]. Qed.

Lemma zeros_length (j : nat) : String.length (JS.zeros j) = j.
Proof.
  induction j as [|j IH]; simpl; [reflexivity|rewrite IH; reflexivity].
Qed.

Lemma digits_value_from_zeros (v : Z) (j : nat) :
  JS.digits_value_from v (JS.zeros j) = v * 10 ^ Z.of_nat j.
Proof.
  revert v. induction j as [|j IH]; intros v.
  - simpl. lia.
  - change (JS.digits_value_from (10 * v + JS.digit_val "0") (JS.zeros j)
            = v * 10 ^ Z.of_nat (S j)).
    rewrite IH, Nat2Z.inj_succ, Z.pow_succ_r by lia.
    change (JS.digit_val "0") with 0. lia.
Qed.

Lemma digit_char_spec (d : Z) :
  0 <= d <= 9 ->
  JS.is_digit (JS.digit_char d) = true /\ JS.digit_val (JS.digit_char d) = d.
Proof.
  intros H.
  assert (d = 0 \/ d = 1 \/ d = 2 \/ d = 3 \/ d = 4 \/ d = 5 \/ d = 6
          \/ d = 7 \/ d = 8 \/ d = 9) as Hd by lia.
  repeat (destruct Hd as [->|Hd]; [split; reflexivity|]).
  subst. split; reflexivity.
Qed.

Lemma digits_aux_spec (f : nat) (n : Z) (acc : string) :
  0 <= n < 10 ^ Z.of_nat (S f) ->
  exists ds,
    JS.digits_aux (S f) n acc = ds ++ acc /\
    all_digits ds = true /\
    ds <> "" /\
    forall v, JS.digits_value_from v ds
              = v * 10 ^ Z.of_nat (String.length ds) + n.
Proof.
  revert n acc. induction f as [|f IH]; intros n acc Hn.
  - exists (String (JS.digit_char n) "").
    change (10 ^ Z.of_nat 1) with 10 in Hn.
    destruct (digit_char_spec n ltac:(lia)) as [H1 H2].
    simpl. destruct (Z.ltb_spec n 10) as [_|H]; [|lia].
    rewrite H1. repeat split; [discriminate|].
    intros v. rewrite H2. lia.
  - change (JS.digits_aux (S (S f)) n acc)
      with (if n <? 10 then String (JS.digit_char n) acc
            else JS.digits_aux (S f) (n / 10)
                   (String (JS.digit_char (n mod 10)) acc)).
    destruct (Z.ltb_spec n 10) as [Hlt|Hge].
    + exists (String (JS.digit_char n) "").
      destruct (digit_char_spec n ltac:(lia)) as [H1 H2].
      simpl. rewrite H1. repeat split; [discriminate|].
      intros v. rewrite H2. lia.
    + destruct (IH (n / 10) (String (JS.digit_char (n mod 10)) acc))
        as (ds & E & Hd & Hne & Hv).
      { rewrite (Nat2Z.inj_succ (S f)), Z.pow_succ_r in Hn by lia.
        split; [apply Z.div_pos; lia|].
        apply Z.div_lt_upper_bound; lia. }
      pose proof (Z.mod_pos_bound n 10 ltac:(lia)) as Hm.
      destruct (digit_char_spec (n mod 10) ltac:(lia)) as [H1 H2].
      exists (ds ++ String (JS.digit_char (n mod 10)) "").
      rewrite E, append_assoc. split; [reflexivity|].
      split; [rewrite all_digits_app, Hd; simpl; rewrite H1; reflexivity|].
      split; [destruct ds; [contradiction|discriminate]|].
      intros v. rewrite digits_value_from_app, Hv, append_length.
      simpl JS.digits_value_from. rewrite H2.
      simpl String.length.
      rewrite Nat2Z.inj_add, Z.pow_add_r by lia.
      change (10 ^ Z.of_nat 1) with 10.
      pose proof (Z.div_mod n 10 ltac:(lia)). lia.
Qed.

Lemma decimal_digits_spec (n : Z) :
  0 <= n ->
  all_digits (JS.decimal_digits n) = true /\
  JS.decimal_digits n <> "" /\
  JS.digits_value (JS.decimal_digits n) = n.
Proof.
  intros Hn. unfold JS.decimal_digits.
  destruct (digits_aux_spec (Z.to_nat (Z.log2 n)) n "")
    as (ds & E & Hd & Hne & Hv).
  { split; [exact Hn|].
    rewrite Nat2Z.inj_succ, Z2Nat.id by apply Z.log2_nonneg.
    destruct (Z.eq_dec n 0) as [->|Hz]; [simpl; lia|].
    pose proof (Z.log2_spec n ltac:(lia)) as [_ H].
    pose proof (Z.pow_le_mono_l 2 10 (Z.succ (Z.log2 n))).
    pose proof (Z.log2_nonneg n). lia. }
  rewrite E, append_empty. split; [exact Hd|]. split; [exact Hne|].
  unfold JS.digits_value. rewrite Hv. lia.
Qed.

End Printing.

Lemma not_dot_branch (c : ascii) (rest : string) :
  Ascii.eqb c "." = false ->
  match String c rest with
  | String "." r' => JS.span_digits r'
  | _ => (EmptyString, String c rest)
  end = (EmptyString, String c rest).
Proof.
  destruct c as [[] [] [] [] [] [] [] []]; intros H; try discriminate H;
    reflexivity.
Qed.

Section Reading.
Local Open Scope Z_scope.

Lemma parseFloat_number (neg : bool) (d : ascii) (r : string) :
  JS.is_digit d = true ->
  JS.parseFloat (if neg then String "-" (String d r) else String d r)
  = let '(ip, s2) := JS.span_digits (String d r) in
    let '(fp, s3) :=
      match s2 with
      | String "." r' => JS.span_digits r'
      | _ => (EmptyString, s2)
      end in
    if JS.is_empty ip && JS.is_empty fp then JS.NaN
    else JS.of_decimal neg (JS.digits_value (ip ++ fp))
           (JS.exponent_part s3 - Z.of_nat (String.length fp)).
Proof.
  intros H. unfold JS.parseFloat. destruct neg.
  - assert (JS.trim_start (String "-" (String d r))
            = String "-" (String d r)) as ->
      by (destruct r; reflexivity).
    destruct d as [[] [] [] [] [] [] [] []]; try discriminate H;
      reflexivity.
  - rewrite (trim_start_digit d r H).
    destruct d as [[] [] [] [] [] [] [] []]; try discriminate H;
      reflexivity.
Qed.

(** A string ends the digits in front of it. *)
Lemma span_digits_stop (ds s3 : string) :
  all_digits ds = true ->
  match s3 with
  | String c _ => JS.is_digit c = false
  | EmptyString => True
  end ->
  JS.span_digits (ds ++ s3) = (ds, s3).
Proof.
  intros Hd Hs. destruct s3 as [|c r].
  - rewrite append_empty. apply span_digits_all, Hd.
  - apply span_digits_app; assumption.
Qed.

Lemma parse_plain (neg : bool) (ip s3 : string) :
  all_digits ip = true -> ip <> "" ->
  match s3 with
  | String c _ => JS.is_digit c = false /\ Ascii.eqb c "." = false
  | EmptyString => True
  end ->
  JS.parseFloat (if neg then String "-" (ip ++ s3) else ip ++ s3)
  = JS.of_decimal neg (JS.digits_value ip) (JS.exponent_part s3).
Proof.
  intros Hd Hne Hs. destruct ip as [|d ip']; [contradiction|].
  change (String d ip' ++ s3) with (String d (ip' ++ s3)).
  rewrite parseFloat_number
    by (simpl in Hd; apply andb_prop in Hd; tauto).
  change (String d (ip' ++ s3)) with (String d ip' ++ s3).
  rewrite span_digits_stop;
    [|exact Hd|destruct s3; [exact I|tauto]].
  assert (match s3 with
          | String "." r' => JS.span_digits r'
          | _ => (EmptyString, s3)
          end = (EmptyString, s3)) as ->.
  { destruct s3 as [|c r]; [reflexivity|].
    apply not_dot_branch. tauto. }
  cbn [JS.is_empty andb String.length Z.of_nat].
  rewrite append_empty, Z.sub_0_r. reflexivity.
Qed.

Lemma parse_point (neg : bool) (ip fp s3 : string) :
  all_digits ip = true -> ip <> "" ->
  all_digits fp = true ->
  match s3 with
  | String c _ => JS.is_digit c = false
  | EmptyString => True
  end ->
  JS.parseFloat (if neg then String "-" (ip ++ String "." (fp ++ s3))
                 else ip ++ String "." (fp ++ s3))
  = JS.of_decimal neg (JS.digits_value (ip ++ fp))
      (JS.exponent_part s3 - Z.of_nat (String.length fp)).
Proof.
  intros Hd Hne Hf Hs. destruct ip as [|d ip']; [contradiction|].
  change (String d ip' ++ String "." (fp ++ s3))
    with (String d (ip' ++ String "." (fp ++ s3))).
  rewrite parseFloat_number
    by (simpl in Hd; apply andb_prop in Hd; tauto).
  change (String d (ip' ++ String "." (fp ++ s3)))
    with (String d ip' ++ String "." (fp ++ s3)).
  rewrite span_digits_stop; [|exact Hd|reflexivity].
  rewrite span_digits_stop; [|exact Hf|exact Hs].
  reflexivity.
Qed.

Lemma exponent_part_value (a : Z) (neg : bool) :
  0 <= a ->
  JS.exponent_part
    (String "e" ((if neg then "-" else "+") ++ JS.decimal_digits a))
  = if neg then - a else a.
Proof.
  intros Ha. destruct (decimal_digits_spec a Ha) as (Hd & Hne & Hv).
  unfold JS.exponent_part.
  change (Ascii.eqb "e" "e" || Ascii.eqb "e" "E") with true. cbv iota.
  destruct neg.
  - change ("-" ++ JS.decimal_digits a)
      with (String "-" (JS.decimal_digits a)).
    cbv iota beta. rewrite (span_digits_all _ Hd).
    destruct (JS.decimal_digits a); [contradiction|]. simpl JS.is_empty.
    cbv iota. rewrite Hv. reflexivity.
  - change ("+" ++ JS.decimal_digits a)
      with (String "+" (JS.decimal_digits a)).
    cbv iota beta. rewrite (span_digits_all _ Hd).
    destruct (JS.decimal_digits a); [contradiction|]. simpl JS.is_empty.
    cbv iota. rewrite Hv. reflexivity.
Qed.

Lemma of_decimal_shift (neg : bool) (s j : Z) :
  0 < s -> 0 <= j ->
  JS.of_decimal neg (s * 10 ^ j) 0 = JS.of_decimal neg s j.
Proof.
  intros Hs Hj. pose proof (pow10_pos j Hj) as Hp.
  unfold JS.of_decimal.
  destruct s as [|sp|sp]; try lia.
  destruct (Zpos sp * 10 ^ j) as [|q|q] eqn:E; try nia.
  destruct (Z.leb_spec 0 j) as [_|H]; [|lia].
  change (0 <=? 0) with true. cbv iota.
  rewrite Z.pow_0_r, Z.mul_1_r. reflexivity.
Qed.

Lemma str_take_drop (j : nat) (s : string) :
  JS.str_take j s ++ JS.str_drop j s = s.
Proof.
  revert s. induction j as [|j IH]; intros s; [reflexivity|].
  destruct s as [|c s]; [reflexivity|].
  change (String c (JS.str_take j s ++ JS.str_drop j s) = String c s).
  f_equal. apply IH.
Qed.

Lemma str_drop_length (j : nat) (s : string) :
  String.length (JS.str_drop j s) = (String.length s - j)%nat.
Proof.
  revert s. induction j as [|j IH]; intros s; [simpl; lia|].
  destruct s as [|c s]; [reflexivity|]. simpl. apply IH.
Qed.

Lemma digits_value_zeros_head (j : nat) (ds : string) :
  JS.digits_value (JS.zeros j ++ ds) = JS.digits_value ds.
Proof.
  unfold JS.digits_value.
  rewrite digits_value_from_app, digits_value_from_zeros. reflexivity.
Qed.

Lemma str_take_digits (j : nat) (s : string) :
  all_digits s = true -> all_digits (JS.str_take j s) = true.
Proof.
  revert s. induction j as [|j IH]; intros s H; [reflexivity|].
  destruct s as [|c s]; [reflexivity|].
  simpl in *. apply andb_prop in H. destruct H as [H1 H2].
  rewrite H1, (IH s H2). reflexivity.
Qed.

Lemma str_drop_digits (j : nat) (s : string) :
  all_digits s = true -> all_digits (JS.str_drop j s) = true.
Proof.
  revert s. induction j as [|j IH]; intros s H; [exact H|].
  destruct s as [|c s]; [reflexivity|].
  simpl in *. apply andb_prop in H. destruct H as [H1 H2].
  apply IH, H2.
Qed.

(** The four notations of [layout]. *)
Lemma layout_forms (d : ascii) (rest : string) (n : Z) :
  let ds := String d rest in
  let k := Z.of_nat (String.length ds) in
  let es := String "e" ((if n - 1 <? 0 then "-" else "+")
                        ++ JS.decimal_digits (Z.abs (n - 1))) in
  (k <= n <= 21 /\ JS.layout ds n = ds ++ JS.zeros (Z.to_nat (n - k))) \/
  (0 < n < k /\
   JS.layout ds n
   = String d (JS.str_take (Z.to_nat (n - 1)) rest)
       ++ String "." (JS.str_drop (Z.to_nat (n - 1)) rest ++ "")) \/
  (-6 < n <= 0 /\
   JS.layout ds n
   = "0" ++ String "." ((JS.zeros (Z.to_nat (- n)) ++ ds) ++ "")) \/
  ((21 < n \/ n <= -6) /\ rest = "" /\
   JS.layout ds n = String d "" ++ es) \/
  ((21 < n \/ n <= -6) /\ rest <> "" /\
   JS.layout ds n = String d "" ++ String "." (rest ++ es)).
Proof.
  cbv zeta. unfold JS.layout.
  set (k := Z.of_nat (String.length (String d rest))).
  assert (0 < k) as Hk by (unfold k; simpl String.length; lia).
  destruct (Z.leb_spec k n) as [Hkn|Hkn];
    destruct (Z.leb_spec n 21) as [Hn|Hn]; cbn [andb].
  - left. split; [lia|reflexivity].
  - destruct (Z.ltb_spec 0 n) as [_|H]; [|lia]. cbn [andb].
    destruct (Z.ltb_spec (-6) n) as [_|H]; [|lia].
    destruct (Z.leb_spec n 0) as [H|_]; [lia|]. cbn [andb].
    right. right. right.
    destruct rest as [|c r].
    + left. split; [lia|]. split; reflexivity.
    + right. split; [lia|]. split; [discriminate|reflexivity].
  - destruct (Z.ltb_spec 0 n) as [Hp|Hp]; cbn [andb].
    + right. left. split; [lia|]. rewrite append_empty. reflexivity.
    + destruct (Z.ltb_spec (-6) n) as [H6|H6];
        destruct (Z.leb_spec n 0) as [_|H]; try lia; cbn [andb].
      * right. right. left. split; [lia|]. rewrite append_empty.
        reflexivity.
      * right. right. right.
        destruct rest as [|c r].
        -- left. split; [lia|]. split; reflexivity.
        -- right. split; [lia|]. split; [discriminate|reflexivity].
  - destruct (Z.ltb_spec 0 n) as [_|H]; [|lia]. cbn [andb].
    destruct (Z.ltb_spec (-6) n) as [_|H]; [|lia].
    destruct (Z.leb_spec n 0) as [H|_]; [lia|]. cbn [andb].
    right. right. right.
    destruct rest as [|c r].
    + left. split; [lia|]. split; reflexivity.
    + right. split; [lia|]. split; [discriminate|reflexivity].
Qed.

Lemma exponent_value (n : Z) :
  JS.exponent_part
    (String "e" ((if n - 1 <? 0 then "-" else "+")
                 ++ JS.decimal_digits (Z.abs (n - 1))))
  = n - 1.
Proof.
  rewrite exponent_part_value by lia.
  destruct (Z.ltb_spec (n - 1) 0); lia.
Qed.

(** [parseFloat] reads the layout of the digits [ds] with the decimal
    point at [n] as the decimal [ds * 10^(n - k)]. *)
Lemma parse_layout (neg : bool) (ds : string) (n : Z) :
  all_digits ds = true ->
  0 < JS.digits_value ds ->
  JS.parseFloat (if neg then String "-" (JS.layout ds n)
                 else JS.layout ds n)
  = JS.of_decimal neg (JS.digits_value ds)
      (n - Z.of_nat (String.length ds)).
Proof.
  intros Hd Hv. destruct ds as [|d rest]; [discriminate Hv|].
  assert (all_digits rest = true) as Hrest
    by (simpl in Hd; apply andb_prop in Hd; tauto).
  assert (JS.is_digit d = true) as Hd1
    by (simpl in Hd; apply andb_prop in Hd; tauto).
  pose proof (layout_forms d rest n) as H. cbv zeta in H.
  set (ds := String d rest) in *.
  set (k := Z.of_nat (String.length ds)) in *.
  assert (k = Z.of_nat (String.length rest) + 1) as Ek
    by (unfold k, ds; simpl String.length; lia).
  destruct H as [[Hn ->]|[[Hn ->]|[[Hn ->]|[(Hn & Hr & ->)|(Hn & Hr & ->)]]]].
  - (* the digits, then zeros *)
    rewrite <- (append_empty (ds ++ JS.zeros (Z.to_nat (n - k)))).
    rewrite parse_plain;
      [|rewrite all_digits_app, Hd, zeros_digits; reflexivity
       |discriminate|exact I].
    unfold JS.digits_value at 1.
    rewrite digits_value_from_app, digits_value_from_zeros.
    fold (JS.digits_value ds). rewrite Z2Nat.id by lia.
    change (JS.exponent_part "") with 0.
    apply of_decimal_shift; lia.
  - (* a decimal point inside the digits *)
    rewrite parse_point;
      [|simpl; rewrite Hd1; apply str_take_digits, Hrest
       |discriminate
       |apply str_drop_digits, Hrest|exact I].
    change (String d (JS.str_take (Z.to_nat (n - 1)) rest)
            ++ JS.str_drop (Z.to_nat (n - 1)) rest)
      with (String d (JS.str_take (Z.to_nat (n - 1)) rest
                      ++ JS.str_drop (Z.to_nat (n - 1)) rest)).
    rewrite str_take_drop, str_drop_length. fold ds.
    change (JS.exponent_part "") with 0.
    f_equal. lia.
  - (* zeros after the point, then the digits *)
    rewrite parse_point;
      [|reflexivity|discriminate
       |rewrite all_digits_app, zeros_digits; exact Hd|exact I].
    change ("0" ++ JS.zeros (Z.to_nat (- n)) ++ ds)
      with (JS.zeros (S (Z.to_nat (- n))) ++ ds).
    rewrite digits_value_zeros_head, append_length, zeros_length.
    change (JS.exponent_part "") with 0.
    f_equal. fold k. lia.
  - (* one digit and an exponent *)
    rewrite parse_plain;
      [|simpl; rewrite Hd1; reflexivity|discriminate
       |split; reflexivity].
    rewrite exponent_value. unfold k, ds in *. subst rest. reflexivity.
  - (* a point after the first digit, and an exponent *)
    rewrite parse_point;
      [|simpl; rewrite Hd1; reflexivity|discriminate
       |exact Hrest|reflexivity].
    rewrite exponent_value. fold ds. f_equal. lia.
Qed.

End Reading.

Section RoundTrip.
Local Open Scope Z_scope.

Local Abbreviation valid := (SpecFloat.valid_binary JS.prec JS.emax).

Lemma binary_round_aux_sign (mx ex : Z) (lx : location) (m : positive)
    (e : Z) :
  binary_round_aux JS.prec JS.emax false mx ex lx = S754_finite false m e ->
  binary_round_aux JS.prec JS.emax true mx ex lx = S754_finite true m e.
Proof.
  unfold binary_round_aux.
  destruct (shr_fexp JS.prec JS.emax mx ex lx) as [mrs' e'].
  destruct (shr_fexp JS.prec JS.emax _ e' loc_Exact) as [mrs'' e''].
  destruct (shr_m mrs''); try discriminate.
  destruct (e'' <=? JS.emax - JS.prec); [|discriminate].
  intros [= -> ->]. reflexivity.
Qed.

Lemma of_decimal_sign (s p : Z) (m : positive) (e : Z) :
  JS.of_decimal false s p = S754_finite false m e ->
  JS.of_decimal true s p = S754_finite true m e.
Proof.
  unfold JS.of_decimal. destruct s as [|sp|sp]; try discriminate.
  destruct (Z.leb_spec 0 p) as [Hp|Hp].
  - pose proof (pow10_pos p Hp).
    destruct (Zpos sp * 10 ^ p) as [|q|q] eqn:E; try lia.
    simpl. unfold binary_round.
    destruct (shl_align _ _ _) as [mz ez]. apply binary_round_aux_sign.
  - unfold SFdiv.
    destruct (SFdiv_core_binary _ _ _ _ _ _) as [[mz ez] lz].
    apply binary_round_aux_sign.
Qed.

(** The printed form of a positive Number reads as that Number, with
    either sign. *)
Lemma positive_toString_reads (neg : bool) (m : positive) (e : Z) :
  SpecFloat.bounded JS.prec JS.emax m e = true ->
  JS.parseFloat (if neg then String "-" (JS.positive_toString m e)
                 else JS.positive_toString m e)
  = S754_finite neg m e.
Proof.
  intros Hb. pose proof (printed_digits_read m e Hb) as H.
  unfold JS.positive_toString.
  destruct (JS.fraction_of m e) as [num den]. cbv zeta in H.
  destruct (JS.shortest _ _ num den _ 1) as [s p].
  destruct H as [Hs Hr].
  destruct (decimal_digits_spec s ltac:(lia)) as (Hd & Hne & Hv).
  rewrite parse_layout by (rewrite ?Hv; assumption).
  rewrite Hv.
  replace (p + Z.of_nat (String.length (JS.decimal_digits s))
           - Z.of_nat (String.length (JS.decimal_digits s))) with p by lia.
  destruct neg; [apply of_decimal_sign|]; exact Hr.
Qed.

(** [parseFloat] reads the printed form of a Number as that Number. *)
Lemma toString_reads_back (x : JS.number) :
  valid x = true -> JS.parseFloat (JS.toString x) = written x.
Proof.
  destruct x as [s|s| |s m e]; intros Hx.
  - reflexivity.
  - destruct s; reflexivity.
  - reflexivity.
  - simpl in Hx. destruct s.
    + apply (positive_toString_reads true m e Hx).
    + apply (positive_toString_reads false m e Hx).
Qed.

Lemma toString_written (x y : JS.number) :
  written x = written y -> JS.toString x = JS.toString y.
Proof.
  destruct x, y; simpl; try discriminate; try reflexivity;
    intros [= ]; subst; reflexivity.
Qed.

(** Two Numbers print alike exactly when they are one Number value. *)
Lemma toString_same (x y : JS.number) :
  valid x = true -> valid y = true ->
  JS.toString x = JS.toString y <-> written x = written y.
Proof.
  intros Hx Hy. split; [|apply toString_written].
  intros E. rewrite <- (toString_reads_back x Hx),
              <- (toString_reads_back y Hy), E.
  reflexivity.
Qed.

End RoundTrip.

(** ** Decimal forms never collide with [Object.prototype] *)

Section Heads.

Lemma digit_char_is_digit (d : Z) : JS.is_digit (JS.digit_char d) = true.
Proof.
  destruct d as [|p|p]; [reflexivity| |reflexivity].
  do 4 (destruct p as [p|p|]; try reflexivity).
Qed.

Lemma digit_head (c : ascii) (r : string) :
  JS.is_digit c = true -> numeric_head (String c r) = true.
Proof. intros H. simpl. rewrite H. reflexivity. Qed.

Lemma digits_aux_head (fuel : nat) :
  forall n acc,
    numeric_head acc = true ->
    numeric_head (JS.digits_aux fuel n acc) = true.
Proof.
  induction fuel as [|f IH]; intros n acc Hacc; simpl; [exact Hacc|].
  destruct (n <? 10)%Z.
  - apply digit_head, digit_char_is_digit.
  - apply IH, digit_head, digit_char_is_digit.
Qed.

Lemma decimal_digits_head (n : Z) :
  numeric_head (JS.decimal_digits n) = true.
Proof.
  unfold JS.decimal_digits. simpl.
  destruct (n <? 10)%Z.
  - apply digit_head, digit_char_is_digit.
  - apply digits_aux_head, digit_head, digit_char_is_digit.
Qed.

Lemma layout_head (ds : string) (n : Z) :
  numeric_head ds = true -> numeric_head (JS.layout ds n) = true.
Proof.
  destruct ds as [|d rest]; [discriminate|].
  intros H. unfold JS.layout.
  repeat match goal with
         | |- context [if ?b then _ else _] => destruct b
         end;
    try exact H; try reflexivity.

Qed.

Lemma positive_toString_head (m : positive) (e : Z) :
  numeric_head (JS.positive_toString m e) = true.
Proof.
  unfold JS.positive_toString.
  destruct (JS.fraction_of m e) as [num den].
  destruct (JS.shortest _ _ _ _ _ _) as [s p].
  apply layout_head, decimal_digits_head.
Qed.

Lemma toString_head (x : JS.number) : numeric_head (JS.toString x) = true.
Proof.
  destruct x as [s|s| |s m e]; try destruct s; try reflexivity.
  simpl. apply positive_toString_head.
Qed.

Lemma numeric_head_plain (s : string) : numeric_head s = true -> plain s.
Proof.
  destruct s as [|c r]; [discriminate|].
  unfold plain, Obj.inherited.
  destruct c as [[] [] [] [] [] [] [] []]; intros H;
    try discriminate H; reflexivity.
Qed.

Lemma plain_not_proto (k : string) :
  plain k -> String.eqb k "__proto__" = false.
Proof.
  unfold plain, Obj.inherited.
  destruct (String.eqb k "__proto__"); [discriminate|reflexivity].
Qed.

Lemma toString_plain (x : JS.number) : plain (JS.toString x).
Proof. apply numeric_head_plain, toString_head. Qed.

End Heads.

(** ** Counting in an object literal *)

Section Counting.

Implicit Types (o : gmap string tally) (k : string) (ks : list string).

Lemma numeric_empty : numeric ∅.
Proof. intros k v H. rewrite lookup_empty in H. discriminate. Qed.

Lemma numeric_lookup o k : numeric o -> o !! k = entry (count_of o k).
Proof.
  intros Ho. unfold count_of.
  destruct (o !! k) as [v|] eqn:E; [|reflexivity].
  destruct (Ho k v E) as [n ->]. reflexivity.
Qed.

Lemma bump_proto o : Obj.bump o "__proto__" = o.
Proof. reflexivity. Qed.

Lemma bump_plain o k :
  plain k -> numeric o ->
  Obj.bump o k = <[k := TNum (S (count_of o k))]> o.
Proof.
  intros Hk Ho. unfold Obj.bump, count_of.
  rewrite (plain_not_proto k Hk).
  destruct (o !! k) as [v|] eqn:E.
  - destruct (Ho k v E) as [n ->]. reflexivity.
  - unfold plain in Hk. rewrite Hk. reflexivity.
Qed.

Lemma bump_numeric o k : plain k -> numeric o -> numeric (Obj.bump o k).
Proof.
  intros Hk Ho. rewrite (bump_plain o k Hk Ho).
  intros j v. rewrite lookup_insert.
  case_decide as Hj.
  - intros [= <-]. eauto.
  - apply Ho.
Qed.

Lemma count_of_bump o k j :
  plain k -> numeric o ->
  count_of (Obj.bump o k) j
  = count_of o j + (if String.eqb j k then 1 else 0).
Proof.
  intros Hk Ho. rewrite (bump_plain o k Hk Ho).
  unfold count_of at 1. rewrite lookup_insert.
  destruct (String.eqb_spec j k) as [->|Hne].
  - rewrite decide_True by reflexivity. lia.
  - rewrite decide_False by congruence. fold (count_of o j). lia.
Qed.

Lemma total_step (z1 z2 : tally) (y : nat) :
  match z1 with TNum n => n + match z2 with TNum m => m + y | TStr _ => y end
           | TStr _ => match z2 with TNum m => m + y | TStr _ => y end end
  = match z2 with TNum m => m + match z1 with TNum n => n + y | TStr _ => y end
             | TStr _ => match z1 with TNum n => n + y | TStr _ => y end end.
Proof. destruct z1, z2; lia. Qed.

Lemma total_insert_fresh o k v :
  o !! k = None ->
  Obj.total (<[k := v]> o)
  = match v with TNum n => n + Obj.total o | TStr _ => Obj.total o end.
Proof.
  intros E. unfold Obj.total.
  rewrite map_fold_insert_L; [reflexivity| |exact E].
  intros. apply total_step.
Qed.

Lemma total_insert o k v :
  Obj.total (<[k := v]> o) + count_of o k
  = match v with TNum n => n | TStr _ => 0 end + Obj.total o.
Proof.
  unfold count_of.
  destruct (o !! k) as [w|] eqn:E.
  - replace (Obj.total o) with (Obj.total (<[k := w]> (delete k o)))
      by (rewrite insert_delete_id; [reflexivity|exact E]).
    rewrite <- (insert_delete_eq o k v).
    rewrite !total_insert_fresh by apply lookup_delete_eq.
    destruct v, w; lia.
  - rewrite total_insert_fresh by exact E. destruct v; lia.
Qed.

Lemma total_bump o k :
  plain k -> numeric o -> Obj.total (Obj.bump o k) = S (Obj.total o).
Proof.
  intros Hk Ho. rewrite (bump_plain o k Hk Ho).
  pose proof (total_insert o k (TNum (S (count_of o k)))) as H.
  simpl in H. lia.
Qed.

Lemma bump_all_proto ks o :
  Forall (fun k => k = "__proto__") ks -> fold_left Obj.bump ks o = o.
Proof.
  intros H. revert o. induction H as [|k ks -> _ IH]; intros o; simpl.
  - reflexivity.
  - rewrite bump_proto. apply IH.
Qed.

(** Counting the plain keys [ks] into [o]. *)
Lemma bump_all ks :
  Forall plain ks ->
  forall o, numeric o ->
    numeric (fold_left Obj.bump ks o) /\
    Obj.total (fold_left Obj.bump ks o) = Obj.total o + length ks /\
    forall j, count_of (fold_left Obj.bump ks o) j
              = count_of o j + occurrences j ks.
Proof.
  induction 1 as [|k ks Hk _ IH]; intros o Ho; simpl.
  - repeat split; [exact Ho|lia|]. intros j. unfold occurrences. simpl. lia.
  - destruct (IH (Obj.bump o k) (bump_numeric o k Hk Ho)) as (Hn & Ht & Hc).
    repeat split; [exact Hn| |].
    + rewrite Ht, (total_bump o k Hk Ho). lia.
    + intros j. rewrite Hc, (count_of_bump o k j Hk Ho).
      unfold occurrences. simpl. destruct (String.eqb j k); simpl; lia.
Qed.

Lemma count_of_empty k : count_of ∅ k = 0.
Proof. unfold count_of. rewrite lookup_empty. reflexivity. Qed.

Lemma total_empty : Obj.total ∅ = 0.
Proof. reflexivity. Qed.

(** From the empty object: every key holds its number of occurrences. *)
Lemma bump_all_empty ks :
  Forall plain ks ->
  Obj.total (fold_left Obj.bump ks ∅) = length ks /\
  forall j, fold_left Obj.bump ks ∅ !! j = entry (occurrences j ks).
Proof.
  intros H. destruct (bump_all ks H ∅ numeric_empty) as (Hn & Ht & Hc).
  split.
  - rewrite Ht, total_empty. reflexivity.
  - intros j. rewrite (numeric_lookup _ j Hn), Hc, count_of_empty.
    reflexivity.
Qed.

End Counting.

(** ** The aggregator *)

(** Looks a literal key up in a chain of inserts. *)
Ltac find_key :=
  repeat (rewrite lookup_insert_ne by discriminate);
  first [rewrite lookup_insert_eq | rewrite lookup_empty]; reflexivity.

Section Aggregator.

Implicit Types (q : question) (ans : list answer) (a : answer).

Lemma optionCounts_from ans :
  forall o,
    fold_left
      (fun counts a =>
         match answer_options a with
         | Some opts => fold_left Obj.bump opts counts
         | None => counts
         end) ans o
    = fold_left Obj.bump (selections ans) o.
Proof.
  unfold selections.
  induction ans as [|a ans IH]; intros o; simpl; [reflexivity|].
  rewrite fold_left_app, IH.
  destruct (answer_options a); reflexivity.
Qed.

Lemma optionCounts_selections ans :
  optionCounts ans = fold_left Obj.bump (selections ans) ∅.
Proof. apply optionCounts_from. Qed.

Lemma selections_app ans1 ans2 :
  selections (ans1 ++ ans2) = (selections ans1 ++ selections ans2)%list.
Proof. unfold selections. rewrite List.map_app, List.concat_app. reflexivity. Qed.

Lemma rating_dist_keys (rs : list JS.number) :
  forall o,
    fold_left (fun dist rating => Obj.bump dist (JS.toString rating)) rs o
    = fold_left Obj.bump (List.map JS.toString rs) o.
Proof. induction rs as [|r rs IH]; intros o; simpl; [reflexivity|apply IH]. Qed.

Lemma toString_all_plain (rs : list JS.number) :
  Forall plain (List.map JS.toString rs).
Proof.
  induction rs as [|r rs IH]; simpl; constructor;
    [apply toString_plain|exact IH].
Qed.

Lemma parseFloat_zero : JS.parseFloat "0" = JS.pos_zero.
Proof. reflexivity. Qed.

Lemma or_zero_contributes a :
  (let x := JS.parseFloat (or_zero (answer_text a)) in
   if JS.isNaN x then None else Some x) = contributes a.
Proof.
  unfold contributes, or_zero.
  destruct (answer_text a) as [t|]; [|reflexivity].
  destruct (JS.is_empty t); reflexivity.
Qed.

Lemma ratings_contributes ans : ratings ans = omap contributes ans.
Proof.
  unfold ratings.
  induction ans as [|a ans IH]; simpl; [reflexivity|].
  rewrite <- (or_zero_contributes a). simpl.
  destruct (JS.isNaN (JS.parseFloat (or_zero (answer_text a))));
    simpl; rewrite IH; reflexivity.
Qed.

Lemma ratings_length ans : length (ratings ans) <= length ans.
Proof.
  unfold ratings.
  etransitivity; [apply List.filter_length_le|].
  rewrite List.length_map. reflexivity.
Qed.

Lemma rating_not_choice q :
  question_type q = "rating" -> is_choice (question_type q) = false.
Proof. intros ->. reflexivity. Qed.

Lemma stats_total q :
  questionStats q !! "total_answers" = Some (FCount (length (answers q))).
Proof.
  unfold questionStats.
  destruct (is_choice (question_type q)); [find_key|].
  destruct (String.eqb (question_type q) "rating"); [|find_key].
  destruct (ratings (answers q)); find_key.
Qed.

Lemma stats_option_stats q :
  is_choice (question_type q) = true ->
  questionStats q !! "option_stats" = Some (FDict (optionCounts (answers q))).
Proof. intros H. unfold questionStats. rewrite H. find_key. Qed.

Lemma stats_average q :
  question_type q = "rating" ->
  questionStats q !! "average_rating" =
    match ratings (answers q) with
    | [] => None
    | rs => Some (FNumber (JS.div (rating_sum rs) (JS.of_nat (length rs))))
    end.
Proof.
  intros H. unfold questionStats. rewrite H. simpl.
  destruct (ratings (answers q)); find_key.
Qed.

Lemma stats_distribution q :
  question_type q = "rating" ->
  questionStats q !! "rating_distribution" =
    match ratings (answers q) with
    | [] => None
    | rs => Some (FDict (rating_dist rs))
    end.
Proof.
  intros H. unfold questionStats. rewrite H. simpl.
  destruct (ratings (answers q)); find_key.
Qed.

Lemma rating_dist_counts (rs : list JS.number) :
  numeric (rating_dist rs) /\
  Obj.total (rating_dist rs) = length rs /\
  forall key,
    rating_dist rs !! key
    = entry (occurrences key (List.map JS.toString rs)).
Proof.
  unfold rating_dist. rewrite rating_dist_keys.
  pose proof (toString_all_plain rs) as Hp.
  destruct (bump_all _ Hp ∅ numeric_empty) as (Hn & _ & _).
  destruct (bump_all_empty _ Hp) as (Ht & Hl).
  rewrite List.length_map in Ht. auto.
Qed.

(** Selections that avoid the names of [Object.prototype] are all
    tallied: each value holds the number of times it was selected. *)
Lemma option_stats_plain ans :
  Forall plain (selections ans) ->
  Obj.total (optionCounts ans) = length (selections ans) /\
  forall v, optionCounts ans !! v = entry (occurrences v (selections ans)).
Proof.
  intros H. rewrite optionCounts_selections. apply bump_all_empty, H.
Qed.

Lemma selections_single ans :
  Forall (fun a => exists v, answer_options a = Some [v]) ans ->
  length (selections ans) = length ans.
Proof.
  unfold selections.
  induction 1 as [|a ans [v Hv] _ IH]; simpl; [reflexivity|].
  rewrite Hv. simpl. rewrite IH. reflexivity.
Qed.

(** When every answer selects exactly one value and none of the values is
    a name of [Object.prototype], the tallies add up to the number of
    answers. *)
Lemma option_stats_single_plain ans :
  Forall (fun a => exists v, answer_options a = Some [v]) ans ->
  Forall plain (selections ans) ->
  Obj.total (optionCounts ans) = length ans.
Proof.
  intros H1 Hp. destruct (option_stats_plain ans Hp) as [-> _].
  apply selections_single, H1.
Qed.

End Aggregator.

(** ** Statistics claims *)

(** C1, as stated, fails: the handler has no branch for text questions
    and never writes a [text_responses] key.  The sample text question has
    two non-empty answer texts and its summary does not list them. *)
Lemma text_answers_not_listed :
  question_type Samples.q_text = "text" /\
  Spec.text_responses (answers Samples.q_text) = ["fine"; "slow"] /\
  questionStats Samples.q_text !! "text_responses" = None.
Proof. repeat split. Qed.

(** C1 (amended).  For a text or textarea question the summary holds
    [id], [question_text], [question_type] and [total_answers], the number
    of its answers, and nothing else: it has no [text_responses] key. *)
Theorem text_summary_has_four_fields (q : question) :
  question_type q = "text" \/ question_type q = "textarea" ->
  questionStats q =
    <["total_answers" := FCount (length (answers q))]>
      (<["question_type" := FString (question_type q)]>
         (<["question_text" := FString (question_text q)]>
            (<["id" := FString (id q)]> ∅))) /\
  questionStats q !! "text_responses" = None.
Proof.
  intros H. unfold questionStats.
  assert (is_choice (question_type q) = false /\
          String.eqb (question_type q) "rating" = false) as [-> ->]
    by (destruct H as [-> | ->]; split; reflexivity).
  split; [reflexivity|find_key].
Qed.

Lemma text_summary_has_four_fields_witness :
  (question_type Samples.q_text = "text" \/
   question_type Samples.q_text = "textarea") /\
  questionStats Samples.q_text =
    <["total_answers" := FCount (length (answers Samples.q_text))]>
      (<["question_type" := FString (question_type Samples.q_text)]>
         (<["question_text" := FString (question_text Samples.q_text)]>
            (<["id" := FString (id Samples.q_text)]> ∅))) /\
  questionStats Samples.q_text !! "text_responses" = None.
Proof.
  split; [left; reflexivity|].
  apply (text_summary_has_four_fields Samples.q_text). left. reflexivity.
Defined.

(** C2, as stated, fails: an answer without text is read as ['0'] and takes
    part in the mean.  With the answers ["4"] and a missing text the handler
    reports 2, where the mean over the parseable texts is 4. *)
Lemma blank_rating_enters_average :
  question_type Samples.q_half = "rating" /\
  questionStats Samples.q_half !! "average_rating"
    = Some (FNumber (JS.parseFloat "2")) /\
  Spec.average_rating (answers Samples.q_half) = Some (JS.parseFloat "4") /\
  questionStats Samples.q_half !! "average_rating"
    <> FNumber <$> Spec.average_rating (answers Samples.q_half).
Proof. repeat split; try reflexivity. vm_compute. discriminate. Qed.

(** C2 (amended).  For a rating question, [average_rating] is the sum of the
    contributed values divided by their number, where an answer with a
    missing or empty text contributes 0, an answer whose text [parseFloat]
    maps to [NaN] contributes nothing, and any other answer contributes the
    [parseFloat] of its text; the key is absent when nothing is
    contributed. *)
Theorem average_rating_over_contributions (q : question) :
  question_type q = "rating" ->
  ratings (answers q) = omap contributes (answers q) /\
  questionStats q !! "average_rating" =
    match omap contributes (answers q) with
    | [] => None
    | rs => Some (FNumber (JS.div (fold_left JS.add rs JS.pos_zero)
                             (JS.of_nat (length rs))))
    end.
Proof.
  intros H. split; [apply ratings_contributes|].
  rewrite (stats_average q H), ratings_contributes. reflexivity.
Qed.

Lemma average_rating_over_contributions_witness :
  question_type Samples.q_half = "rating" /\
  ratings (answers Samples.q_half) = omap contributes (answers Samples.q_half) /\
  questionStats Samples.q_half !! "average_rating" =
    match omap contributes (answers Samples.q_half) with
    | [] => None
    | rs => Some (FNumber (JS.div (fold_left JS.add rs JS.pos_zero)
                             (JS.of_nat (length rs))))
    end.
Proof.
  split; [reflexivity|].
  apply (average_rating_over_contributions Samples.q_half). reflexivity.
Defined.

(** C3, as stated, fails: the distribution also counts the answers read as
    ['0'].  With one answer without text the distribution sums to 1 while no
    answer has a parseable numeric value. *)
Lemma blank_rating_enters_distribution :
  question_type Samples.q_blank = "rating" /\
  questionStats Samples.q_blank !! "rating_distribution"
    = Some (FDict {["0" := TNum 1]}) /\
  Obj.total {["0" := TNum 1]} = 1 /\
  Spec.parseable_count (answers Samples.q_blank) = 0.
Proof. repeat split; vm_compute; reflexivity. Qed.

(** C3 (amended).  For a rating question let the kept ratings be the values
    contributed by its answers (missing or empty text read as 0, [NaN]
    dropped).  Their number is at most [total_answers]; when there is at
    least one, every entry of [rating_distribution] is a count, the counts
    sum to the number of kept ratings, and [average_rating] is the sum of
    the kept ratings divided by that number. *)
Theorem rating_distribution_sums_to_kept (q : question) :
  question_type q = "rating" ->
  let rs := ratings (answers q) in
  rs = omap contributes (answers q) /\
  length rs <= length (answers q) /\
  questionStats q !! "total_answers" = Some (FCount (length (answers q))) /\
  (rs <> [] ->
   exists d,
     questionStats q !! "rating_distribution" = Some (FDict d) /\
     numeric d /\
     Obj.total d = length rs /\
     questionStats q !! "average_rating"
       = Some (FNumber (JS.div (rating_sum rs) (JS.of_nat (length rs))))).
Proof.
  intros H rs.
  split; [apply ratings_contributes|].
  split; [apply ratings_length|].
  split; [apply stats_total|].
  intros Hrs. exists (rating_dist rs).
  destruct (rating_dist_counts rs) as (Hn & Ht & _).
  rewrite (stats_distribution q H), (stats_average q H).
  fold rs. destruct rs; [contradiction|]. auto.
Qed.

Lemma rating_distribution_sums_to_kept_witness :
  question_type Samples.q_half = "rating" /\
  let rs := ratings (answers Samples.q_half) in
  rs = omap contributes (answers Samples.q_half) /\
  length rs <= length (answers Samples.q_half) /\
  questionStats Samples.q_half !! "total_answers"
    = Some (FCount (length (answers Samples.q_half))) /\
  (rs <> [] ->
   exists d,
     questionStats Samples.q_half !! "rating_distribution" = Some (FDict d) /\
     numeric d /\
     Obj.total d = length rs /\
     questionStats Samples.q_half !! "average_rating"
       = Some (FNumber (JS.div (rating_sum rs) (JS.of_nat (length rs))))).
Proof.
  split; [reflexivity|].
  apply (rating_distribution_sums_to_kept Samples.q_half). reflexivity.
Defined.

Lemma ratings_valid (l : list answer) (r : JS.number) :
  In r (ratings l) -> valid_binary JS.prec JS.emax r = true.
Proof.
  unfold ratings. intros H. apply filter_In in H. destruct H as [H _].
  apply in_map_iff in H. destruct H as (a & <- & _).
  apply parseFloat_valid.
Qed.

Lemma plain_keys_checked : forallb plain_key (seq 0 1001) = true.
Proof. vm_compute. reflexivity. Qed.

Lemma plain_key_upto (n : nat) : (n <= 1000)%nat -> plain_key n = true.
Proof.
  intros H. pose proof plain_keys_checked as Hall.
  rewrite forallb_forall in Hall. apply Hall, in_seq. lia.
Qed.

(** C5.  For a rating question with at least one kept rating, the entry of
    [rating_distribution] under a key is the number of kept ratings whose
    [toString] is that key.  [toString] gives the decimal form of the
    Number: [parseFloat] reads it back as the rating, so two ratings share
    a key exactly when they are one Number value, however their texts
    were written.  A whole rating up to 1000, written with or without
    [.0], is keyed by its plain digits; ["4"] and ["4.0"] both parse to
    the Number that prints as ["4"]. *)
Theorem rating_distribution_keys_canonical (q : question) :
  question_type q = "rating" ->
  ratings (answers q) <> [] ->
  exists d,
    questionStats q !! "rating_distribution" = Some (FDict d) /\
    (forall key,
        d !! key
        = entry (occurrences key
                   (List.map JS.toString (ratings (answers q))))) /\
    (forall r, In r (ratings (answers q)) ->
               JS.parseFloat (JS.toString r) = written r) /\
    (forall r r',
        In r (ratings (answers q)) -> In r' (ratings (answers q)) ->
        (JS.toString r = JS.toString r' <-> same_number r r')) /\
    (forall n : nat,
        (n <= 1000)%nat ->
        JS.toString (JS.parseFloat (JS.decimal_digits (Z.of_nat n)))
        = JS.decimal_digits (Z.of_nat n) /\
        JS.toString (JS.parseFloat (JS.decimal_digits (Z.of_nat n) ++ ".0"))
        = JS.decimal_digits (Z.of_nat n)) /\
    JS.parseFloat "4.0" = JS.parseFloat "4" /\
    JS.toString (JS.parseFloat "4") = "4".
Proof.
  intros H Hrs. exists (rating_dist (ratings (answers q))).
  destruct (rating_dist_counts (ratings (answers q))) as (_ & _ & Hl).
  rewrite (stats_distribution q H).
  destruct (ratings (answers q)) as [|r0 rs] eqn:E; [contradiction|].
  rewrite <- E in *.
  split; [rewrite E; reflexivity|]. split; [exact Hl|]. split; [|split].
  - intros r Hr. apply toString_reads_back, (ratings_valid _ _ Hr).
  - intros r r' Hr Hr'.
    apply toString_same; [exact (ratings_valid _ _ Hr)
                         |exact (ratings_valid _ _ Hr')].
  - split; [|split; reflexivity].
    intros n Hn. pose proof (plain_key_upto n Hn) as Hk.
    unfold plain_key in Hk. cbv zeta in Hk.
    apply andb_prop in Hk. destruct Hk as [H1 H2].
    apply String.eqb_eq in H1, H2. split; assumption.
Qed.

Lemma rating_distribution_keys_canonical_witness :
  question_type Samples.q_four = "rating" /\
  ratings (answers Samples.q_four) <> [] /\
  questionStats Samples.q_four !! "rating_distribution"
    = Some (FDict {["4" := TNum 2]}) /\
  exists d,
    questionStats Samples.q_four !! "rating_distribution" = Some (FDict d) /\
    (forall key,
        d !! key
        = entry (occurrences key
                   (List.map JS.toString
                      (ratings (answers Samples.q_four))))) /\
    (forall r, In r (ratings (answers Samples.q_four)) ->
               JS.parseFloat (JS.toString r) = written r) /\
    (forall r r',
        In r (ratings (answers Samples.q_four)) ->
        In r' (ratings (answers Samples.q_four)) ->
        (JS.toString r = JS.toString r' <-> same_number r r')) /\
    (forall n : nat,
        (n <= 1000)%nat ->
        JS.toString (JS.parseFloat (JS.decimal_digits (Z.of_nat n)))
        = JS.decimal_digits (Z.of_nat n) /\
        JS.toString (JS.parseFloat (JS.decimal_digits (Z.of_nat n) ++ ".0"))
        = JS.decimal_digits (Z.of_nat n)) /\
    JS.parseFloat "4.0" = JS.parseFloat "4" /\
    JS.toString (JS.parseFloat "4") = "4".
Proof.
  split; [reflexivity|].
  split; [vm_compute; discriminate|].
  split; [vm_compute; reflexivity|].
  apply (rating_distribution_keys_canonical Samples.q_four);
    [reflexivity | vm_compute; discriminate].
Defined.

(** C6.  The handler at a multiple-choice question that defines the option
    [__proto__], with two answers selecting one option each: the write to
    the key [__proto__] is lost, [option_stats] holds the other selection
    only, and the tallies sum to 1 while [total_answers] is 2.
    ([option_stats_single_plain] gives the sum for selections that avoid the
    names of [Object.prototype].) *)
Theorem proto_option_breaks_tally_sum :
  Forall (fun a => exists v, answer_options a = Some [v])
    (answers Samples.q_multi) /\
  questionStats Samples.q_multi !! "total_answers" = Some (FCount 2) /\
  questionStats Samples.q_multi !! "option_stats"
    = Some (FDict {["b" := TNum 1]}) /\
  Obj.total (optionCounts (answers Samples.q_multi)) = 1.
Proof.
  split; [|repeat split; vm_compute; reflexivity].
  repeat constructor; eexists; reflexivity.
Qed.

(** C7.  The handler on one answer selecting a value outside the defined
    options [a], [b]: the value [z] is tallied once; the value [__proto__]
    leaves [option_stats] empty, and the value [constructor] is entered with
    a string, not a count.  ([option_stats_plain] gives the tallies for
    selections that avoid the names of [Object.prototype].) *)
Theorem proto_selection_is_dropped :
  questionStats Samples.q_z !! "option_stats"
    = Some (FDict {["z" := TNum 1]}) /\
  questionStats Samples.q_proto !! "option_stats" = Some (FDict ∅) /\
  questionStats Samples.q_proto !! "total_answers" = Some (FCount 1) /\
  optionCounts (Samples.picks [["constructor"]])
    = {["constructor" := TStr "function Object() { [native code] }1"]}.
Proof. repeat split; vm_compute; reflexivity. Qed.

(** C8.  For a choice question, an answer without [answer_options] is
    counted in [total_answers] and leaves [option_stats] as it is without
    that answer. *)
Theorem missing_options_only_counted
    (q : question) (before after : list answer) (a : answer) :
  is_choice (question_type q) = true ->
  answers q = (before ++ a :: after)%list ->
  answer_options a = None ->
  questionStats q !! "total_answers"
    = Some (FCount (S (length (before ++ after)%list))) /\
  questionStats q !! "option_stats"
    = Some (FDict (optionCounts (before ++ after)%list)).
Proof.
  intros Hq Hans Ha.
  rewrite stats_total, (stats_option_stats q Hq), Hans.
  split.
  - rewrite !length_app. simpl. do 2 f_equal. lia.
  - rewrite !optionCounts_selections, !selections_app.
    unfold selections at 2. simpl. rewrite Ha. reflexivity.
Qed.

Lemma missing_options_only_counted_witness :
  is_choice (question_type Samples.q_gap) = true /\
  answers Samples.q_gap
    = (Samples.picks [["a"]] ++ Samples.skipped
         :: Samples.picks [["a"; "b"]])%list /\
  answer_options Samples.skipped = None /\
  questionStats Samples.q_gap !! "total_answers"
    = Some (FCount (S (length (Samples.picks [["a"]]
                                 ++ Samples.picks [["a"; "b"]])%list))) /\
  questionStats Samples.q_gap !! "option_stats"
    = Some (FDict (optionCounts (Samples.picks [["a"]]
                                   ++ Samples.picks [["a"; "b"]])%list)).
Proof.
  split; [reflexivity|]. split; [reflexivity|]. split; [reflexivity|].
  apply (missing_options_only_counted Samples.q_gap
           (Samples.picks [["a"]]) (Samples.picks [["a"; "b"]])
           Samples.skipped); reflexivity.
Defined.



(** ** The submission handler *)

Module SubmitFacts.
Import Submit SubmitProps.

Lemma includes_In (l : list string) (x : string) :
  includes l x = true <-> In x l.
Proof.
  unfold includes. rewrite existsb_exists. split.
  - intros (y & Hy & E). apply String.eqb_eq in E. subst. exact Hy.
  - intros H. exists x. split; [exact H|apply String.eqb_refl].
Qed.

Lemma filter_keeps_all {A : Type} (f : A -> bool) (l : list A) :
  (forall x, In x l -> f x = true) -> List.filter f l = l.
Proof.
  induction l as [|x l IH]; intros H; simpl; [reflexivity|].
  rewrite (H x (or_introl eq_refl)), IH; [reflexivity|].
  intros y Hy. apply H. right. exact Hy.
Qed.

(** An early return carries an error status. *)
Lemma create_response_early db env d early :
  create_response db env d = inl early ->
  status early <> 201 /\ exists e, json early = Error e.
Proof.
  unfold create_response.
  repeat match goal with
         | |- context [match ?x with _ => _ end] => destruct x
         end;
    intros [= <-]; simpl; split; try discriminate; eauto.
Qed.

(** When the response row is created, every submitted answer names a
    question of the submitted survey, the new id is fresh, and the new
    store is the old one with the response row appended. *)
Lemma create_response_created db env d rid db1 :
  create_response db env d = inr (rid, db1) ->
  (forall a, In a (submitted d) ->
             exists q, In q (questions db) /\
                       Question.survey_id q = as_uuid (survey_id d) /\
                       Question.id q = question_id a) /\
  (forall r, In r (responses db) -> Response.id r <> rid) /\
  db1 = Store (surveys db) (questions db)
          (responses db ++ [Response.Row rid (as_uuid (survey_id d))
                              (respondent_email d) (respondent_name d)])
          (answers db).
Proof.
  unfold create_response.
  destruct (if survey_select_error env then None else _) as [survey|];
    [|discriminate].
  destruct (negb _); [discriminate|].
  destruct (questions_select_error env); [discriminate|].
  destruct (List.find _ _) as [rq|]; [discriminate|].
  destruct (existsb _ (submitted d)) eqn:Hvalid; [discriminate|].
  destruct (response_insert env) as [rid'|]; [|discriminate].
  unfold insert_response.
  destruct (existsb _ (responses db)) eqn:Hfresh; [discriminate|].
  intros [= <- <-].
  split; [|split; [|reflexivity]].
  - intros a Ha.
    assert (includes
              (List.map Question.id
                 (List.filter
                    (fun q => String.eqb (Question.survey_id q)
                                (as_uuid (survey_id d)))
                    (questions db)))
              (question_id a) = true) as Hin.
    { destruct (includes _ (question_id a)) eqn:E; [reflexivity|].
      assert (existsb
                (fun a0 => negb (includes
                   (List.map Question.id
                      (List.filter
                         (fun q => String.eqb (Question.survey_id q)
                                     (as_uuid (survey_id d)))
                         (questions db)))
                   (question_id a0))) (submitted d) = true) as Hex.
      { apply existsb_exists. exists a. rewrite E. auto. }
      rewrite Hex in Hvalid. discriminate. }
    apply includes_In, in_map_iff in Hin.
    destruct Hin as (q & Hid & Hq).
    apply filter_In in Hq. destruct Hq as [Hq Hs].
    apply String.eqb_eq in Hs. eauto.
  - intros row Hrow E.
    assert (existsb (fun r' => String.eqb (Response.id r') rid')
              (responses db) = true) as Hex.
    { apply existsb_exists. exists row. split; [exact Hrow|].
      apply String.eqb_eq. exact E. }
    simpl in Hfresh. rewrite Hex in Hfresh. discriminate.
Qed.

(** Deleting a fresh response row right after its insert restores the
    store. *)
Lemma delete_after_insert db rid sid email name :
  (forall r, In r (responses db) -> Response.id r <> rid) ->
  referential db ->
  delete_response
    (Store (surveys db) (questions db)
       (responses db ++ [Response.Row rid sid email name]) (answers db))
    rid
  = db.
Proof.
  intros Hfresh Href. unfold delete_response. simpl.
  rewrite List.filter_app. simpl. rewrite String.eqb_refl. simpl.
  rewrite app_nil_r.
  rewrite (filter_keeps_all _ (responses db)).
  - rewrite (filter_keeps_all _ (answers db)); [destruct db; reflexivity|].
    intros a Ha. destruct (Href a Ha) as (r & Hr & E).
    apply Bool.negb_true_iff, String.eqb_neq. rewrite <- E.
    apply Hfresh, Hr.
  - intros r Hr. apply Bool.negb_true_iff, String.eqb_neq, Hfresh, Hr.
Qed.

End SubmitFacts.

Module SubmitClaims.
Import Submit SubmitProps SubmitFacts.

(** C4, as stated, fails: the handler never compares the selected values
    with the options of the question.  A submission selecting [z] for a
    question whose options are [a] and [b] is answered with 201 and its
    rows are written. *)
Lemma undefined_selection_is_stored :
  post Samples.db0 Samples.all_fine (Valid Samples.picks_z)
  = (Store (surveys Samples.db0) (questions Samples.db0)
       [Response.Row "r1" "s1" None None]
       [Answer.Row "r1" "q1" None (Some ["z"])],
     Reply 201 (Created "问卷提交成功" "r1")) /\
  undefined_selection
    (fst (post Samples.db0 Samples.all_fine (Valid Samples.picks_z))).
Proof.
  split; [reflexivity|].
  exists (Answer.Row "r1" "q1" None (Some ["z"])),
         (Question.Row "q1" "s1" "Pick" "single_choice" (Some ["a"; "b"]) true),
         ["z"], ["a"; "b"].
  simpl. repeat split; auto.
Qed.

(** C4 (amended).  The handler checks, before it writes, that every
    submitted answer names a question of the submitted survey: a submission
    that names another question gets an error reply and the store is left
    as it was, and every answer row a run adds points to a question of the
    survey of its response.  Selected option values are stored as
    submitted. *)
Theorem submission_checks_question_membership
    (db db' : store) (env : outcomes) (d : submission) (r : reply) :
  post db env (Valid d) = (db', r) ->
  (foreign_question db d -> db' = db /\ status r <> 201) /\
  (forall a, In a (answers db') -> ~ In a (answers db) -> same_survey db' a) /\
  (status r = 201 ->
   exists rid,
     answers db' = (answers db ++ answersToInsert rid (submitted d))%list).
Proof.
  unfold post.
  destruct (create_response db env d) as [early|[rid db1]] eqn:Hc.
  - intros [= <- <-].
    destruct (create_response_early db env d early Hc) as [Hs _].
    split; [auto|]. split; [intros a Ha Hn; contradiction|].
    intros E. contradiction.
  - destruct (create_response_created db env d rid db1 Hc)
      as (Hval & Hfresh & ->).
    destruct (answers_insert_error env).
    + intros [= <- <-]. split; [|split].
      * intros (a & Ha & Hf). exfalso.
        destruct (Hval a Ha) as (q & Hq & Hs & Hid).
        exact (Hf q Hq Hs Hid).
      * intros a Ha Hn. exfalso. apply Hn.
        destruct (response_delete_error env); simpl in Ha; [exact Ha|].
        apply filter_In in Ha. tauto.
      * simpl. discriminate.
    + intros [= <- <-]. split; [|split].
      * intros (a & Ha & Hf). exfalso.
        destruct (Hval a Ha) as (q & Hq & Hs & Hid).
        exact (Hf q Hq Hs Hid).
      * simpl. intros a Ha Hn.
        apply in_app_or in Ha. destruct Ha as [Ha|Ha]; [contradiction|].
        unfold answersToInsert in Ha. apply in_map_iff in Ha.
        destruct Ha as (x & <- & Hx).
        destruct (Hval x Hx) as (q & Hq & Hs & Hid).
        exists q, (Response.Row rid (as_uuid (survey_id d))
                     (respondent_email d) (respondent_name d)).
        simpl. repeat split; auto.
        apply in_or_app. right. left. reflexivity.
      * intros _. exists rid. reflexivity.
Qed.

Lemma submission_checks_question_membership_witness :
  post Samples.db0 Samples.all_fine (Valid Samples.picks_foreign)
  = (Samples.db0, Reply 400 (Error "回答包含无效的问题ID")) /\
  (foreign_question Samples.db0 Samples.picks_foreign ->
   Samples.db0 = Samples.db0 /\
   status (Reply 400 (Error "回答包含无效的问题ID")) <> 201) /\
  (forall a, In a (answers Samples.db0) -> ~ In a (answers Samples.db0) ->
             same_survey Samples.db0 a) /\
  (status (Reply 400 (Error "回答包含无效的问题ID")) = 201 ->
   exists rid,
     answers Samples.db0
     = (answers Samples.db0
          ++ answersToInsert rid (submitted Samples.picks_foreign))%list).
Proof.
  split; [reflexivity|].
  apply (submission_checks_question_membership Samples.db0 Samples.db0
           Samples.all_fine Samples.picks_foreign).
  reflexivity.
Defined.

(** C10, as stated, fails: the handler does not look at the outcome of the
    delete.  When the answers insert fails and the delete fails as well, the
    reply is 500 and the new response row stays in the store without any
    answer. *)
Lemma failed_delete_leaves_response :
  post Samples.db0 Samples.both_fail (Valid Samples.picks_z)
  = (Store (surveys Samples.db0) (questions Samples.db0)
       [Response.Row "r1" "s1" None None] [],
     Reply 500 (Error "保存答案失败")).
Proof. reflexivity. Qed.

(** C10 (amended).  When the answers insert fails after the response row
    was created, the handler issues a delete of that row and replies 500,
    whatever the delete does.  When the delete goes through, the store is
    left exactly as it was before the submission; when it fails, the store
    is the one the response insert left: the old rows and the new response
    row, without an answer. *)
Theorem failed_answers_insert_is_undone
    (db db1 : store) (env : outcomes) (d : submission) (rid : string) :
  create_response db env d = inr (rid, db1) ->
  answers_insert_error env = true ->
  snd (post db env (Valid d)) = Reply 500 (Error "保存答案失败") /\
  (response_delete_error env = false -> referential db ->
   fst (post db env (Valid d)) = db) /\
  (response_delete_error env = true ->
   fst (post db env (Valid d))
   = Store (surveys db) (questions db)
       (responses db ++ [Response.Row rid (as_uuid (survey_id d))
                           (respondent_email d) (respondent_name d)])
       (answers db)).
Proof.
  intros Hc Hins. unfold post. rewrite Hc, Hins.
  destruct (create_response_created db env d rid db1 Hc)
    as (_ & Hfresh & ->).
  split; [reflexivity|]. split.
  - intros -> Href. simpl.
    apply (delete_after_insert db rid _ _ _ Hfresh Href).
  - intros ->. reflexivity.
Qed.

Lemma failed_answers_insert_is_undone_witness :
  create_response Samples.db0 Samples.insert_fails Samples.picks_z
  = inr ("r1", Store (surveys Samples.db0) (questions Samples.db0)
                 [Response.Row "r1" "s1" None None] []) /\
  answers_insert_error Samples.insert_fails = true /\
  snd (post Samples.db0 Samples.insert_fails (Valid Samples.picks_z))
  = Reply 500 (Error "保存答案失败") /\
  (response_delete_error Samples.insert_fails = false ->
   referential Samples.db0 ->
   fst (post Samples.db0 Samples.insert_fails (Valid Samples.picks_z))
   = Samples.db0) /\
  (response_delete_error Samples.insert_fails = true ->
   fst (post Samples.db0 Samples.insert_fails (Valid Samples.picks_z))
   = Store (surveys Samples.db0) (questions Samples.db0)
       (responses Samples.db0
          ++ [Response.Row "r1" (as_uuid (survey_id Samples.picks_z))
                (respondent_email Samples.picks_z)
                (respondent_name Samples.picks_z)])
       (answers Samples.db0)).
Proof.
  split; [reflexivity|]. split; [reflexivity|].
  apply (failed_answers_insert_is_undone Samples.db0
           (Store (surveys Samples.db0) (questions Samples.db0)
              [Response.Row "r1" "s1" None None] [])
           Samples.insert_fails Samples.picks_z "r1");
    reflexivity.
Defined.

End SubmitClaims.

(** ** More on the submission handler *)

Module SubmitMore.
Import Submit SubmitProps SubmitFacts View.

Lemma find_filter_head {A : Type} (f g : A -> bool) (l : list A) :
  List.find f (List.filter g l)
  = List.hd_error (List.filter (fun x => g x && f x) l).
Proof.
  induction l as [|x l IH]; simpl; [reflexivity|].
  destruct (g x); simpl; [|exact IH].
  destruct (f x); simpl; [reflexivity|exact IH].
Qed.

Lemma existsb_negb_forallb {A : Type} (p : A -> bool) (l : list A) :
  existsb (fun x => negb (p x)) l = negb (forallb p l).
Proof.
  induction l as [|x l IH]; simpl; [reflexivity|].
  rewrite IH. destruct (p x); reflexivity.
Qed.

(** The handler's checks, in the words of [View]. *)
Lemma create_response_unfold db env d :
  create_response db env d =
    if survey_select_error env then inl (Reply 404 (Error "问卷不存在"))
    else
      match single (List.filter
                      (fun s => String.eqb (Survey.id s)
                                  (as_uuid (survey_id d)))
                      (surveys db)) with
      | None => inl (Reply 404 (Error "问卷不存在"))
      | Some s =>
        if negb (String.eqb (Survey.status s) "published")
        then inl (Reply 400 (Error "问卷未发布，无法提交回答"))
        else if questions_select_error env
        then inl (Reply 500 (Error "获取问题列表失败"))
        else
          match unanswered db d with
          | rq :: _ =>
              inl (Reply 400
                     (Error ("必填问题未回答: " ++ Question.question_text rq)))
          | [] =>
            if negb (all_known db d)
            then inl (Reply 400 (Error "回答包含无效的问题ID"))
            else
              match response_insert env with
              | Some rid =>
                  if fresh db rid
                  then inr (rid, Store (surveys db) (questions db)
                                   (responses db ++
                                      [Response.Row rid (as_uuid (survey_id d))
                                         (respondent_email d)
                                         (respondent_name d)])
                                   (answers db))
                  else inl (Reply 500 (Error "提交回答失败"))
              | None => inl (Reply 500 (Error "提交回答失败"))
              end
          end
      end.
Proof.
  unfold create_response, unanswered, all_known, fresh, survey_questions,
    insert_response.
  destruct (survey_select_error env); [reflexivity|].
  destruct (single _) as [s|]; [|reflexivity].
  destruct (negb (String.eqb (Survey.status s) "published")); [reflexivity|].
  destruct (questions_select_error env); [reflexivity|].
  rewrite find_filter_head, existsb_negb_forallb.
  destruct (List.filter _ (List.filter _ (questions db))) as [|rq rest];
    simpl; [|reflexivity].
  destruct (forallb _ (submitted d)); simpl; [|reflexivity].
  destruct (response_insert env) as [rid|]; [|reflexivity].
  simpl. destruct (existsb _ (responses db)); reflexivity.
Qed.

Lemma survey_open_published db d :
  survey_open db d = true ->
  exists s,
    single (List.filter
              (fun s => String.eqb (Survey.id s) (as_uuid (survey_id d)))
              (surveys db)) = Some s /\
    String.eqb (Survey.status s) "published" = true.
Proof.
  unfold survey_open. destruct (single _) as [s|]; [|discriminate].
  intros H. exists s. auto.
Qed.

Lemma accepted_created db env d rid :
  accepted db env d rid ->
  create_response db env d
  = inr (rid, Store (surveys db) (questions db)
                (responses db ++ [Response.Row rid (as_uuid (survey_id d))
                                    (respondent_email d)
                                    (respondent_name d)])
                (answers db)).
Proof.
  intros (Hs & Hopen & Hq & Hreq & Hknown & Hins & Hfresh & _).
  rewrite create_response_unfold, Hs.
  destruct (survey_open_published db d Hopen) as (s & -> & ->).
  simpl. rewrite Hq, Hreq, Hknown, Hins, Hfresh. reflexivity.
Qed.

Lemma created_accepted db env d rid db1 :
  create_response db env d = inr (rid, db1) ->
  answers_insert_error env = false ->
  accepted db env d rid.
Proof.
  rewrite create_response_unfold. unfold accepted, survey_open.
  destruct (survey_select_error env); [discriminate|].
  destruct (single _) as [s|]; [|discriminate].
  destruct (String.eqb (Survey.status s) "published"); [|discriminate].
  simpl.
  destruct (questions_select_error env); [discriminate|].
  destruct (unanswered db d); [|discriminate].
  destruct (all_known db d); [|discriminate]. simpl.
  destruct (response_insert env) as [rid'|]; [|discriminate].
  destruct (fresh db rid') eqn:Hf; [|discriminate].
  intros [= <- _] Ha. repeat split; auto.
Qed.

Lemma accepted_post db env d rid :
  accepted db env d rid ->
  post db env (Valid d)
  = (stored db d rid, Reply 201 (Created "问卷提交成功" rid)).
Proof.
  intros Hacc. simpl. rewrite (accepted_created db env d rid Hacc).
  destruct Hacc as (_ & _ & _ & _ & _ & _ & _ & ->). reflexivity.
Qed.

(** X1.  A submission is answered 201 exactly when the survey is found and
    published, the questions are read, every required question of the
    survey is named by an answer, every answer names a question of the
    survey, and both inserts go through; the store then gains the response
    row and one answer row per submitted answer, in order, and the reply
    carries the id of the new response. *)
Theorem submission_accepted_iff
    (db : store) (env : outcomes) (req : parsed) :
  (status (snd (post db env req)) = 201 <->
   exists d rid, req = Valid d /\ accepted db env d rid) /\
  (forall d rid,
      req = Valid d -> accepted db env d rid ->
      post db env req
      = (stored db d rid, Reply 201 (Created "问卷提交成功" rid))).
Proof.
  split; [split|].
  - destruct req as [m|d]; simpl; [discriminate|].
    destruct (create_response db env d) as [early|[rid db1]] eqn:Hc.
    + simpl. intros E.
      destruct (create_response_early db env d early Hc) as [Hs _].
      contradiction.
    + destruct (answers_insert_error env) eqn:Ha; simpl; [discriminate|].
      intros _. exists d, rid. split; [reflexivity|].
      exact (created_accepted db env d rid db1 Hc Ha).
  - intros (d & rid & -> & Hacc).
    rewrite (accepted_post db env d rid Hacc). reflexivity.
  - intros d rid -> Hacc. exact (accepted_post db env d rid Hacc).
Qed.

(** X2.  When the survey is open and its questions are read, a submission
    that leaves a required question unnamed is answered 400 with the text
    of the first such question in table order, whatever else is wrong with
    it, and the store is left as it was. *)
Theorem first_unanswered_required_reported
    (db : store) (env : outcomes) (d : submission)
    (rq : Question.row) (rest : list Question.row) :
  survey_select_error env = false ->
  survey_open db d = true ->
  questions_select_error env = false ->
  unanswered db d = rq :: rest ->
  post db env (Valid d)
  = (db, Reply 400 (Error ("必填问题未回答: " ++ Question.question_text rq))).
Proof.
  intros Hs Hopen Hq Hun. simpl.
  rewrite create_response_unfold, Hs.
  destruct (survey_open_published db d Hopen) as (s & -> & ->).
  simpl. rewrite Hq, Hun. reflexivity.
Qed.

Lemma forallb_map {A B : Type} (g : A -> B) (p : B -> bool) (l : list A) :
  forallb (fun x => p (g x)) l = forallb p (List.map g l).
Proof.
  induction l as [|x l IH]; simpl; [reflexivity|]. rewrite IH. reflexivity.
Qed.

(** X3.  The handler reads the submitted answers through their question
    ids only.  Take two submissions for the same survey that name the same
    questions in the same order, whatever texts and option values they
    carry, and two runs in which the two reads and the response insert have
    the same outcomes: both runs get as far, with the same early reply or
    the same new response id.  If the answers insert, the one call that is
    handed the texts and option values, has the same outcome in both runs
    as well, the two replies are equal. *)
Theorem reply_ignores_answer_contents
    (db : store) (env env' : outcomes) (d d' : submission) :
  as_uuid (survey_id d) = as_uuid (survey_id d') ->
  List.map question_id (submitted d) = List.map question_id (submitted d') ->
  survey_select_error env = survey_select_error env' ->
  questions_select_error env = questions_select_error env' ->
  response_insert env = response_insert env' ->
  checked db env d = checked db env' d' /\
  (answers_insert_error env = answers_insert_error env' ->
   snd (post db env (Valid d)) = snd (post db env' (Valid d'))).
Proof.
  intros Hsid Hids Hs Hq Hr.
  assert (unanswered db d = unanswered db d') as Hun
    by (unfold unanswered; rewrite Hsid, Hids; reflexivity).
  assert (all_known db d = all_known db d') as Hknown.
  { unfold all_known.
    rewrite (forallb_map question_id
               (includes
                  (List.map Question.id
                     (survey_questions db (as_uuid (survey_id d)))))),
            (forallb_map question_id
               (includes
                  (List.map Question.id
                     (survey_questions db (as_uuid (survey_id d')))))).
    rewrite Hsid, Hids. reflexivity. }
  unfold checked. simpl.
  rewrite !create_response_unfold, <- Hsid, <- Hun, <- Hknown, <- Hs, <- Hq,
    <- Hr.
  destruct (survey_select_error env); [split; reflexivity|].
  destruct (single _) as [s|]; [|split; reflexivity].
  destruct (negb _); [split; reflexivity|].
  destruct (questions_select_error env); [split; reflexivity|].
  destruct (unanswered db d); [|split; reflexivity].
  destruct (negb (all_known db d)); [split; reflexivity|].
  destruct (response_insert env) as [rid|]; [|split; reflexivity].
  destruct (fresh db rid); [|split; reflexivity].
  split; [reflexivity|].
  intros <-. destruct (answers_insert_error env); reflexivity.
Qed.

(** The survey is looked up by the value of its uuid: a request that
    spells the survey id in upper case reaches the survey, and the response
    row holds the id as the database prints it. *)
Lemma survey_id_is_read_in_either_case :
  Cases.hex_uuid Cases.survey_upper = true /\
  post Cases.db1 Samples.all_fine (Valid Cases.tasty_upper)
  = (Store (surveys Cases.db1) (questions Cases.db1)
       [Response.Row "r1" Cases.survey_uuid None None]
       [Answer.Row "r1" Cases.text_uuid (Some "tasty") None],
     Reply 201 (Created "问卷提交成功" "r1")).
Proof. split; reflexivity. Qed.

Lemma fresh_ids db rid :
  fresh db rid = true ->
  forall r, In r (responses db) -> Response.id r <> rid.
Proof.
  unfold fresh. intros H r Hr E.
  apply Bool.negb_true_iff in H.
  assert (existsb (fun r' => String.eqb (Response.id r') rid)
            (responses db) = true) as Hex.
  { apply existsb_exists. exists r. split; [exact Hr|].
    apply String.eqb_eq, E. }
  rewrite Hex in H. discriminate.
Qed.

Lemma created_fresh db env d rid db1 :
  create_response db env d = inr (rid, db1) ->
  fresh db rid = true /\
  db1 = Store (surveys db) (questions db)
          (responses db ++ [Response.Row rid (as_uuid (survey_id d))
                              (respondent_email d) (respondent_name d)])
          (answers db).
Proof.
  rewrite create_response_unfold.
  destruct (survey_select_error env); [discriminate|].
  destruct (single _) as [s|]; [|discriminate].
  destruct (negb _); [discriminate|].
  destruct (questions_select_error env); [discriminate|].
  destruct (unanswered db d); [|discriminate].
  destruct (negb (all_known db d)); [discriminate|].
  destruct (response_insert env) as [rid'|]; [|discriminate].
  destruct (fresh db rid') eqn:Hf; [|discriminate].
  intros [= <- <-]. auto.
Qed.

Lemma delete_keeps_responses db rid sid email name :
  fresh db rid = true ->
  List.filter (fun r => negb (String.eqb (Response.id r) rid))
    (responses db ++ [Response.Row rid sid email name])
  = responses db.
Proof.
  intros Hf. rewrite List.filter_app. simpl.
  rewrite String.eqb_refl. simpl. rewrite app_nil_r.
  apply filter_keeps_all. intros r Hr.
  apply Bool.negb_true_iff, String.eqb_neq, (fresh_ids db rid Hf), Hr.
Qed.

Lemma delete_keeps_answers db rid :
  fresh db rid = true -> referential db ->
  List.filter (fun a => negb (String.eqb (Answer.response_id a) rid))
    (answers db)
  = answers db.
Proof.
  intros Hf Href. apply filter_keeps_all. intros a Ha.
  destruct (Href a Ha) as (r & Hr & E).
  apply Bool.negb_true_iff, String.eqb_neq. rewrite <- E.
  apply (fresh_ids db rid Hf), Hr.
Qed.

(** X4.  A run never touches the surveys and the questions, and never
    removes or changes a stored response: it adds at most one response row
    at the end.  In a store whose answers all belong to stored responses it
    never removes or changes a stored answer either. *)
Theorem existing_rows_are_kept
    (db db' : store) (env : outcomes) (req : parsed) (r : reply) :
  post db env req = (db', r) ->
  surveys db' = surveys db /\
  questions db' = questions db /\
  (exists new, responses db' = (responses db ++ new)%list /\
               length new <= 1) /\
  (referential db -> exists new, answers db' = (answers db ++ new)%list).
Proof.
  assert (surveys db = surveys db /\ questions db = questions db /\
          (exists new, responses db = (responses db ++ new)%list /\
                       length new <= 1) /\
          (referential db ->
           exists new, answers db = (answers db ++ new)%list)) as Hsame.
  { repeat split; try (exists []); try (intros _; exists []);
      rewrite ?app_nil_r; auto. }
  destruct req as [m|d]; simpl; [intros [= <- <-]; exact Hsame|].
  destruct (create_response db env d) as [early|[rid db1]] eqn:Hc;
    [intros [= <- <-]; exact Hsame|].
  destruct (created_fresh db env d rid db1 Hc) as [Hf ->].
  destruct (answers_insert_error env).
  - destruct (response_delete_error env); intros [= <- <-]; simpl.
    + repeat split; [eexists; split; [reflexivity|simpl; lia]|].
      intros _. exists []. rewrite app_nil_r. reflexivity.
    + rewrite (delete_keeps_responses db rid _ _ _ Hf).
      repeat split.
      * exists []. rewrite app_nil_r. auto.
      * intros Href. exists [].
        rewrite (delete_keeps_answers db rid Hf Href), app_nil_r.
        reflexivity.
  - intros [= <- <-]; simpl.
    repeat split; [eexists; split; [reflexivity|simpl; lia]|].
    intros _. eexists. reflexivity.
Qed.

Lemma unique_after_insert db rid row :
  fresh db rid = true -> Response.id row = rid -> unique_ids db ->
  NoDup (List.map Response.id (responses db ++ [row])).
Proof.
  intros Hf Hrow Hu. rewrite List.map_app. simpl.
  apply NoDup_ListNoDup, List.NoDup_app; repeat split.
  - apply NoDup_ListNoDup, Hu.
  - repeat constructor. intros [].
  - intros x Hx [E|[]]. apply in_map_iff in Hx.
    destruct Hx as (r & <- & Hr).
    apply (fresh_ids db rid Hf r Hr). rewrite <- Hrow. symmetry. exact E.
Qed.

(** X5.  Every run keeps the two integrity rules of the store: each answer
    row belongs to a stored response, and response ids are unique. *)
Theorem integrity_is_preserved
    (db db' : store) (env : outcomes) (req : parsed) (r : reply) :
  post db env req = (db', r) ->
  referential db -> unique_ids db ->
  referential db' /\ unique_ids db'.
Proof.
  intros Hpost Href Hu.
  destruct req as [m|d]; simpl in Hpost;
    [injection Hpost as <- <-; auto|].
  destruct (create_response db env d) as [early|[rid db1]] eqn:Hc;
    [injection Hpost as <- <-; auto|].
  destruct (created_fresh db env d rid db1 Hc) as [Hf ->].
  assert (referential
            (Store (surveys db) (questions db)
               (responses db ++ [Response.Row rid (as_uuid (survey_id d))
                                   (respondent_email d) (respondent_name d)])
               (answers db))) as Href1.
  { intros a Ha. destruct (Href a Ha) as (r0 & Hr0 & E).
    exists r0. split; [apply in_or_app; left; exact Hr0|exact E]. }
  pose proof (unique_after_insert db rid
                (Response.Row rid (as_uuid (survey_id d)) (respondent_email d)
                   (respondent_name d)) Hf eq_refl Hu) as Hu1.
  destruct (answers_insert_error env).
  - destruct (response_delete_error env); injection Hpost as <- <-.
    + split; [exact Href1|exact Hu1].
    + rewrite (delete_after_insert db rid _ _ _ (fresh_ids db rid Hf) Href).
      auto.
  - injection Hpost as <- <-. split; [|exact Hu1].
    intros a Ha. simpl in Ha. apply in_app_or in Ha.
    destruct Ha as [Ha|Ha].
    + destruct (Href a Ha) as (r0 & Hr0 & E).
      exists r0. split; [simpl; apply in_or_app; left; exact Hr0|exact E].
    + unfold answersToInsert in Ha. apply in_map_iff in Ha.
      destruct Ha as (x & <- & _).
      eexists. split; [simpl; apply in_or_app; right; left; reflexivity|].
      reflexivity.
Qed.

(** X6.  A reply with status 400 or 404 comes with an untouched store: a
    rejected request writes nothing. *)
Theorem client_error_writes_nothing
    (db db' : store) (env : outcomes) (req : parsed) (r : reply) :
  post db env req = (db', r) ->
  status r = 400 \/ status r = 404 ->
  db' = db.
Proof.
  destruct req as [m|d]; simpl; [intros [= <- <-]; reflexivity|].
  destruct (create_response db env d) as [early|[rid db1]];
    [intros [= <- <-]; reflexivity|].
  destruct (answers_insert_error env); intros [= <- <-]; simpl;
    intros [E|E]; discriminate E.
Qed.

Lemma accepted_after db env d rid env' d' rid' :
  accepted db env d rid -> accepted db env' d' rid' -> rid <> rid' ->
  accepted (stored db d rid) env' d' rid'.
Proof.
  intros _ (Hs & Hopen & Hq & Hreq & Hknown & Hins & Hfresh & Ha) Hne.
  repeat split; auto.
  unfold fresh, stored in *. simpl.
  rewrite existsb_app. simpl. rewrite Bool.orb_false_r.
  apply Bool.negb_true_iff in Hfresh. rewrite Hfresh. simpl.
  apply Bool.negb_true_iff, String.eqb_neq. exact Hne.
Qed.

(** X7.  An accepted submission never stands in the way of another one:
    whatever would have been accepted before is accepted after it as well
    (under another response id) and is stored behind it.  In particular
    the same submission can be stored any number of times. *)
Theorem submissions_do_not_exclude_each_other
    (db : store) (env env' : outcomes) (d d' : submission)
    (rid rid' : string) :
  accepted db env d rid ->
  accepted db env' d' rid' ->
  rid <> rid' ->
  post (fst (post db env (Valid d))) env' (Valid d')
  = (stored (stored db d rid) d' rid',
     Reply 201 (Created "问卷提交成功" rid')).
Proof.
  intros H1 H2 Hne.
  rewrite (accepted_post db env d rid H1). simpl fst.
  apply accepted_post.
  exact (accepted_after db env d rid env' d' rid' H1 H2 Hne).
Qed.

(** X20.  Only a survey that is found, alone under its id, and published
    takes submissions: in every other case the reply is 404 (no such
    survey) or 400 (not published) and the store is left as it was. *)
Theorem only_open_surveys_accept
    (db db' : store) (env : outcomes) (d : submission) (r : reply) :
  post db env (Valid d) = (db', r) ->
  survey_open db d = false ->
  db' = db /\
  (r = Reply 404 (Error "问卷不存在") \/
   r = Reply 400 (Error "问卷未发布，无法提交回答")).
Proof.
  simpl. rewrite create_response_unfold. unfold survey_open.
  destruct (survey_select_error env); [intros [= <- <-]; auto|].
  destruct (single _) as [s|]; [|intros [= <- <-]; auto].
  destruct (String.eqb (Survey.status s) "published"); simpl;
    [intros _ H; discriminate H|].
  intros [= <- <-]. auto.
Qed.

End SubmitMore.

(** ** From a submission to the statistics *)

Section SubmitToStats.

Lemma embedded_after (db : Submit.store) (d : Submit.submission)
    (rid qid : string) :
  View.embedded_answers (View.stored db d rid) qid
  = (View.embedded_answers db qid ++ View.answers_for d qid)%list.
Proof.
  unfold View.embedded_answers, View.answers_for, View.stored,
    Submit.answersToInsert.
  simpl. rewrite List.filter_app, List.map_app. f_equal.
  induction (Submit.submitted d) as [|a l IH]; simpl; [reflexivity|].
  destruct (String.eqb (Submit.question_id a) qid); simpl;
    rewrite IH; reflexivity.
Qed.

Lemma answers_for_unnamed (d : Submit.submission) (qid : string) :
  Submit.includes (List.map Submit.question_id (Submit.submitted d)) qid
    = false ->
  View.answers_for d qid = [].
Proof.
  unfold View.answers_for, Submit.includes.
  induction (Submit.submitted d) as [|a l IH]; simpl; [reflexivity|].
  rewrite String.eqb_sym.
  destruct (String.eqb (Submit.question_id a) qid); simpl;
    [discriminate|exact IH].
Qed.

Lemma occurrences_app (v : string) (l1 l2 : list string) :
  occurrences v (l1 ++ l2) = occurrences v l1 + occurrences v l2.
Proof.
  unfold occurrences. rewrite List.filter_app, length_app. reflexivity.
Qed.

(** X8.  After an accepted submission the statistics query finds, under
    each question, the answers it had followed by the submitted answers
    that name the question; [total_answers] grows by their number, and the
    summary of a question the submission does not name is unchanged. *)
Theorem accepted_answers_reach_statistics
    (db : Submit.store) (env : Submit.outcomes) (d : Submit.submission)
    (rid : string) (q : Submit.Question.row) :
  View.accepted db env d rid ->
  let db' := fst (Submit.post db env (Submit.Valid d)) in
  let qid := Submit.Question.id q in
  View.embedded_answers db' qid
    = (View.embedded_answers db qid ++ View.answers_for d qid)%list /\
  questionStats (View.stats_row db' q) !! "total_answers"
    = Some (FCount (length (View.embedded_answers db qid)
                    + length (View.answers_for d qid))) /\
  (Submit.includes (List.map Submit.question_id (Submit.submitted d)) qid
     = false ->
   questionStats (View.stats_row db' q) = questionStats (View.stats_row db q)).
Proof.
  intros Hacc db' qid. subst db' qid.
  rewrite (SubmitMore.accepted_post db env d rid Hacc). simpl fst.
  split; [apply embedded_after|]. split.
  - rewrite stats_total. unfold View.stats_row. simpl.
    rewrite embedded_after, length_app. reflexivity.
  - intros Hno. unfold View.stats_row.
    rewrite embedded_after, (answers_for_unnamed d _ Hno), app_nil_r.
    reflexivity.
Qed.

(** X9.  After an accepted submission to a choice question, as long as no
    selected value is a name of [Object.prototype], the tally of every
    value is the number of times it was selected before plus the number of
    times the submission selects it. *)
Theorem accepted_selections_raise_tallies
    (db : Submit.store) (env : Submit.outcomes) (d : Submit.submission)
    (rid : string) (q : Submit.Question.row) :
  View.accepted db env d rid ->
  is_choice (Submit.Question.question_type q) = true ->
  let qid := Submit.Question.id q in
  let before := View.embedded_answers db qid in
  let added := View.answers_for d qid in
  Forall plain (selections before) ->
  Forall plain (selections added) ->
  exists tallies,
    questionStats
      (View.stats_row (fst (Submit.post db env (Submit.Valid d))) q)
      !! "option_stats" = Some (FDict tallies) /\
    forall v,
      tallies !! v
      = entry (occurrences v (selections before)
               + occurrences v (selections added)).
Proof.
  intros Hacc Hq qid before added Hb Ha.
  rewrite (SubmitMore.accepted_post db env d rid Hacc). simpl fst.
  eexists. split.
  - apply stats_option_stats. exact Hq.
  - intros v. unfold View.stats_row. simpl.
    rewrite embedded_after. fold qid before added.
    assert (Forall plain (selections (before ++ added))) as Hp
      by (rewrite selections_app; apply Forall_app; auto).
    destruct (option_stats_plain _ Hp) as [_ Hl].
    rewrite Hl, selections_app, occurrences_app. reflexivity.
Qed.

Lemma ratings_app (l1 l2 : list answer) :
  ratings (l1 ++ l2) = (ratings l1 ++ ratings l2)%list.
Proof. unfold ratings. rewrite List.map_app, List.filter_app. reflexivity. Qed.

(** X21.  After an accepted submission to a rating question, the entry of
    [rating_distribution] under every key is the number of ratings printing
    as that key that were kept before plus the number the submission adds;
    submitted texts that do not parse add nothing. *)
Theorem accepted_ratings_reach_distribution
    (db : Submit.store) (env : Submit.outcomes) (d : Submit.submission)
    (rid : string) (q : Submit.Question.row) :
  View.accepted db env d rid ->
  Submit.Question.question_type q = "rating" ->
  let qid := Submit.Question.id q in
  let before := ratings (View.embedded_answers db qid) in
  let added := ratings (View.answers_for d qid) in
  (before ++ added)%list <> [] ->
  exists dist,
    questionStats
      (View.stats_row (fst (Submit.post db env (Submit.Valid d))) q)
      !! "rating_distribution" = Some (FDict dist) /\
    forall key,
      dist !! key
      = entry (occurrences key (List.map JS.toString before)
               + occurrences key (List.map JS.toString added)).
Proof.
  intros Hacc Hq qid before added Hne.
  rewrite (SubmitMore.accepted_post db env d rid Hacc). simpl fst.
  rewrite (stats_distribution (View.stats_row (View.stored db d rid) q) Hq).
  unfold View.stats_row. simpl.
  rewrite embedded_after, ratings_app. fold qid before added.
  destruct (rating_dist_counts (before ++ added)) as (_ & _ & Hl).
  destruct (before ++ added)%list as [|x l] eqn:E; [contradiction|].
  eexists. split; [reflexivity|].
  intros key. rewrite Hl, <- E, List.map_app, occurrences_app. reflexivity.
Qed.

End SubmitToStats.

(** ** The read handlers *)

Section ReadHandlers.

Lemma stats_identity (q : question) :
  questionStats q !! "id" = Some (FString (id q)) /\
  questionStats q !! "question_text" = Some (FString (question_text q)) /\
  questionStats q !! "question_type" = Some (FString (question_type q)).
Proof.
  unfold questionStats.
  destruct (is_choice (question_type q)); [repeat split; find_key|].
  destruct (String.eqb (question_type q) "rating"); [|repeat split; find_key].
  destruct (ratings (answers q)); repeat split; find_key.
Qed.

(** X10.  Statistics and response listings are handed out to the creator
    of the survey only: a reply that carries them means that the survey was
    found and that the caller is its creator (a listing then holds the rows
    the database returned and their number as [total_responses]); any other
    caller of a found survey gets 403 before any further query result is
    looked at. *)
Theorem only_the_creator_reads
    (R : Type) (user : string)
    (sq : Read.stats_queries) (lq : Read.list_queries R) :
  (forall sid t n st,
      snd (Read.get_stats user sq) = Read.Stats sid t n st ->
      exists s, Read.stats_survey sq = Some s /\
                Read.creator_id s = user /\ Read.id s = sid) /\
  (forall sid t rows n,
      snd (Read.get_responses user lq) = Read.Listing sid t rows n ->
      exists s, Read.list_survey lq = Some s /\
                Read.creator_id s = user /\ Read.id s = sid /\
                Read.responses lq = Some rows /\ n = length rows) /\
  (forall s, Read.stats_survey sq = Some s -> Read.creator_id s <> user ->
             fst (Read.get_stats user sq) = 403) /\
  (forall s, Read.list_survey lq = Some s -> Read.creator_id s <> user ->
             fst (Read.get_responses user lq) = 403).
Proof.
  repeat split.
  - intros sid t n st. unfold Read.get_stats.
    destruct (Read.stats_survey sq) as [s|]; [|discriminate].
    destruct (String.eqb_spec (Read.creator_id s) user) as [E|E];
      simpl; [|discriminate].
    destruct (Read.count sq); [|discriminate].
    destruct (Read.questions sq); [|discriminate].
    intros [= <- _ _ _]. eauto.
  - intros sid t rows n. unfold Read.get_responses.
    destruct (Read.list_survey lq) as [s|]; [|discriminate].
    destruct (String.eqb_spec (Read.creator_id s) user) as [E|E];
      simpl; [|discriminate].
    destruct (Read.responses lq); [|discriminate].
    intros [= <- _ <- <-]. eauto 6.
  - intros s Hs Hne. unfold Read.get_stats. rewrite Hs.
    apply String.eqb_neq in Hne. rewrite Hne. reflexivity.
  - intros s Hs Hne. unfold Read.get_responses. rewrite Hs.
    apply String.eqb_neq in Hne. rewrite Hne. reflexivity.
Qed.

(** X11.  A statistics reply has one summary per question, in the order
    of the query: the summary at a position carries the id, text and type
    of the question at that position and the number of its answers as
    [total_answers]; [total_responses] is the count the database reports,
    0 when it reports none, whatever the questions are. *)
Theorem statistics_follow_the_questions
    (user : string) (sq : Read.stats_queries)
    (sid t : string) (n : nat) (st : list (gmap string field)) :
  Read.get_stats user sq = (200, Read.Stats sid t n st) ->
  exists c qs,
    Read.count sq = Some c /\ Read.questions sq = Some qs /\
    n = Read.or_none c /\
    length st = length qs /\
    forall i q,
      nth_error qs i = Some q ->
      exists s,
        nth_error st i = Some s /\
        s !! "id" = Some (FString (id q)) /\
        s !! "question_text" = Some (FString (question_text q)) /\
        s !! "question_type" = Some (FString (question_type q)) /\
        s !! "total_answers" = Some (FCount (length (answers q))).
Proof.
  unfold Read.get_stats.
  destruct (Read.stats_survey sq) as [s|]; [|discriminate].
  destruct (negb _); [discriminate|].
  destruct (Read.count sq) as [c|]; [|discriminate].
  destruct (Read.questions sq) as [qs|]; [|discriminate].
  intros [= _ _ <- <-]. exists c, qs.
  repeat split; [apply List.length_map|].
  intros i q Hq. exists (questionStats q).
  split; [apply List.map_nth_error, Hq|].
  destruct (stats_identity q) as (H1 & H2 & H3).
  repeat split; auto. apply stats_total.
Qed.

End ReadHandlers.

(** ** More on the aggregator *)

Section AggregatorMore.

Lemma selections_perm (ans ans' : list answer) :
  Permutation ans ans' -> Permutation (selections ans) (selections ans').
Proof.
  unfold selections. induction 1 as [|a l l' _ IH|a b l|l1 l2 l3 _ IH1 _ IH2];
    simpl.
  - constructor.
  - apply Permutation_app_head, IH.
  - rewrite !List.app_assoc. apply Permutation_app_tail, Permutation_app_comm.
  - etransitivity; eauto.
Qed.

Lemma occurrences_perm (v : string) (l l' : list string) :
  Permutation l l' -> occurrences v l = occurrences v l'.
Proof.
  intros H. unfold occurrences.
  apply Permutation_length.
  induction H as [|x l1 l2 _ IH|x y l1|l1 l2 l3 _ IH1 _ IH2]; simpl.
  - constructor.
  - destruct (String.eqb v x); [constructor|]; exact IH.
  - destruct (String.eqb v y), (String.eqb v x);
      try reflexivity; constructor.
  - etransitivity; eauto.
Qed.

Lemma bump_all_perm (ks ks' : list string) :
  Permutation ks ks' -> Forall plain ks ->
  fold_left Obj.bump ks ∅ = fold_left Obj.bump ks' ∅.
Proof.
  intros Hperm Hp.
  assert (Forall plain ks') as Hp'
    by (rewrite <- Hperm; exact Hp).
  apply map_eq. intros v.
  destruct (bump_all_empty ks Hp) as [_ ->].
  destruct (bump_all_empty ks' Hp') as [_ ->].
  rewrite (occurrences_perm v ks ks' Hperm). reflexivity.
Qed.

Lemma ratings_perm (ans ans' : list answer) :
  Permutation ans ans' -> Permutation (ratings ans) (ratings ans').
Proof.
  intros H. unfold ratings.
  induction H as [|a l l' _ IH|a b l|l1 l2 l3 _ IH1 _ IH2]; simpl.
  - constructor.
  - destruct (negb _); [constructor|]; exact IH.
  - destruct (negb (JS.isNaN (JS.parseFloat (or_zero (answer_text b))))),
             (negb (JS.isNaN (JS.parseFloat (or_zero (answer_text a)))));
      try reflexivity; constructor.
  - etransitivity; eauto.
Qed.

(** X12.  For a choice question whose selected values avoid the names of
    [Object.prototype], [option_stats] holds for every value the number of
    times it was selected (a value selected twice in one answer counts
    twice, a value never selected has no entry), every entry is a count,
    and the entries sum to the number of selections made, which for
    multiple selections can exceed [total_answers]. *)
Theorem tallies_count_selections (q : question) :
  is_choice (question_type q) = true ->
  Forall plain (selections (answers q)) ->
  exists tallies,
    questionStats q !! "option_stats" = Some (FDict tallies) /\
    numeric tallies /\
    Obj.total tallies = length (selections (answers q)) /\
    forall v,
      tallies !! v = entry (occurrences v (selections (answers q))).
Proof.
  intros Hq Hp. exists (optionCounts (answers q)).
  split; [apply stats_option_stats, Hq|].
  destruct (option_stats_plain (answers q) Hp) as [Ht Hl].
  split; [|split; [exact Ht|exact Hl]].
  rewrite optionCounts_selections.
  destruct (bump_all _ Hp ∅ numeric_empty) as [Hn _]. exact Hn.
Qed.

(** X13.  The order in which the answers of a question come back from the
    database does not change its tallies: for a choice question with
    selections that avoid the names of [Object.prototype], and for the
    [rating_distribution] of a rating question, permuting the answers gives
    the same dictionary. *)
Theorem tallies_ignore_answer_order (ans ans' : list answer) :
  Permutation ans ans' ->
  (Forall plain (selections ans) -> optionCounts ans = optionCounts ans') /\
  rating_dist (ratings ans) = rating_dist (ratings ans') /\
  length (ratings ans) = length (ratings ans').
Proof.
  intros Hperm. split; [|split].
  - intros Hp. rewrite !optionCounts_selections.
    apply bump_all_perm; [apply selections_perm, Hperm|exact Hp].
  - unfold rating_dist. rewrite !rating_dist_keys.
    apply bump_all_perm; [|apply toString_all_plain].
    apply Permutation_map, ratings_perm, Hperm.
  - apply Permutation_length, ratings_perm, Hperm.
Qed.

Lemma bump_skips_proto (ks : list string) :
  forall o,
    fold_left Obj.bump ks o
    = fold_left Obj.bump
        (List.filter (fun k => negb (String.eqb k "__proto__")) ks) o.
Proof.
  induction ks as [|k ks IH]; intros o; simpl; [reflexivity|].
  destruct (String.eqb_spec k "__proto__") as [->|Hne]; simpl.
  - rewrite bump_proto. apply IH.
  - apply IH.
Qed.

Lemma bump_never_proto (ks : list string) :
  forall o, o !! "__proto__" = None ->
            fold_left Obj.bump ks o !! "__proto__" = None.
Proof.
  induction ks as [|k ks IH]; intros o Ho; simpl; [exact Ho|].
  apply IH. unfold Obj.bump.
  destruct (String.eqb_spec k "__proto__") as [->|Hne]; [exact Ho|].
  rewrite lookup_insert_ne by exact Hne. exact Ho.
Qed.

(** X19.  Whatever the answers are, [option_stats] has no entry under
    [__proto__]: selections of that value are lost, and the tallies are
    those of the answers with these selections taken out. *)
Theorem proto_selections_are_lost (ans : list answer) :
  optionCounts ans !! "__proto__" = None /\
  optionCounts ans
  = fold_left Obj.bump
      (List.filter (fun k => negb (String.eqb k "__proto__"))
         (selections ans)) ∅.
Proof.
  rewrite optionCounts_selections. split.
  - apply bump_never_proto, lookup_empty.
  - apply bump_skips_proto.
Qed.

End AggregatorMore.

(** ** Request bodies *)

Module ZodFacts.
Import Submit Zod.

Section WithFormats.

Variables uuid email : string -> bool.

Lemma z_items_Forall {A : Type} (p : option json -> string + A)
    (P : A -> Prop) :
  (forall j a, p (Some j) = inr a -> P a) ->
  forall items l, z_items p items = inr l -> Forall P l.
Proof.
  intros Hp. induction items as [|j rest IH]; simpl; intros l.
  - intros [= <-]. constructor.
  - destruct (p (Some j)) as [m|a] eqn:Ej; simpl; [discriminate|].
    destruct (z_items p rest) as [m|l'] eqn:Er; simpl; [discriminate|].
    intros [= <-]. constructor; [exact (Hp j a Ej)|exact (IH l' eq_refl)].
Qed.

Lemma z_items_length {A : Type} (p : option json -> string + A) :
  forall items l, z_items p items = inr l -> length l = length items.
Proof.
  induction items as [|j rest IH]; simpl; intros l.
  - intros [= <-]. reflexivity.
  - destruct (p (Some j)) as [m|a]; simpl; [discriminate|].
    destruct (z_items p rest) as [m|l'] eqn:Er; simpl; [discriminate|].
    intros [= <-]. simpl. rewrite (IH l' eq_refl). reflexivity.
Qed.

Lemma z_items_fails {A : Type} (p : option json -> string + A) :
  forall items j m,
    In j items -> p (Some j) = inl m ->
    exists m', z_items p items = inl m'.
Proof.
  induction items as [|i rest IH]; simpl; intros j m Hin Hj; [contradiction|].
  destruct (p (Some i)) as [mi|a] eqn:Ei; simpl; [eauto|].
  destruct Hin as [->|Hin]; [congruence|].
  destruct (IH j m Hin Hj) as [m' ->]. simpl. eauto.
Qed.

Lemma answerSchema_uuid (j : json) (a : answer_input) :
  answerSchema uuid (Some j) = inr a -> uuid (question_id a) = true.
Proof.
  unfold answerSchema. destruct j as [| | | | |fields]; try discriminate.
  unfold z_string at 1.
  destruct (get fields "question_id") as [[| | |s| |]|]; try discriminate.
  destruct (uuid s) eqn:Hu; simpl; [|discriminate].
  destruct (z_optional _ (get fields "answer_text")); simpl; [discriminate|].
  destruct (z_optional _ (get fields "answer_options")); simpl;
    [discriminate|].
  intros [= <-]. exact Hu.
Qed.

Lemma responseSchema_valid (body : option json) (d : submission) :
  responseSchema uuid email body = inr d ->
  uuid (survey_id d) = true /\
  (forall e, respondent_email d = Some e -> email e = true) /\
  (forall n, respondent_name d = Some n -> n <> "") /\
  submitted d <> [] /\
  Forall (fun a => uuid (question_id a) = true) (submitted d).
Proof.
  unfold responseSchema.
  destruct body as [[| | | | |fields]|]; try discriminate.
  unfold z_string at 1.
  destruct (get fields "survey_id") as [[| | |sid| |]|]; try discriminate.
  destruct (uuid sid) eqn:Hsid; simpl; [|discriminate].
  destruct (z_optional _ (get fields "respondent_email")) as [m|mail] eqn:Em;
    simpl; [discriminate|].
  destruct (z_optional _ (get fields "respondent_name")) as [m|name] eqn:En;
    simpl; [discriminate|].
  destruct (z_array _ _ (get fields "answers")) as [m|l] eqn:El; simpl;
    [discriminate|].
  intros [= <-]. simpl. split; [exact Hsid|]. split; [|split; [|split]].
  - intros e ->. unfold z_optional, z_string in Em.
    destruct (get fields "respondent_email") as [[| | |s| |]|];
      try discriminate.
    destruct (email s) eqn:He; simpl in Em; [|discriminate].
    injection Em as <-. exact He.
  - intros n ->. unfold z_optional, z_string in En.
    destruct (get fields "respondent_name") as [[| | |s| |]|];
      try discriminate.
    destruct s; simpl in En; [discriminate|].
    injection En as <-. discriminate.
  - unfold z_array in El.
    destruct (get fields "answers") as [[| | | |items|]|]; try discriminate.
    destruct items as [|j rest]; [discriminate|].
    apply z_items_length in El. destruct l; [discriminate|discriminate].
  - unfold z_array in El.
    destruct (get fields "answers") as [[| | | |items|]|]; try discriminate.
    assert (z_items (answerSchema uuid) items = inr l) as Hl
      by (destruct items; [discriminate|exact El]).
    revert Hl. apply z_items_Forall. apply answerSchema_uuid.
Qed.

(** X14.  A request is answered 201 only when its body passes the schema:
    the survey id and every question id have the uuid format, an email,
    when given, has the email format, a name, when given, is not empty,
    and there is at least one answer; the store such a run leaves is the
    old one with the new response row and one answer row for each
    submitted answer, at least one.  (A run that ends with 500 can leave
    a response row without answers, when the compensating delete fails.) *)
Theorem stored_submission_passed_schema
    (db db' : store) (env : outcomes) (body : option json) (r : reply) :
  handle uuid email db env body = (db', r) ->
  status r = 201 ->
  exists d rid,
    parse uuid email body = Valid d /\
    uuid (survey_id d) = true /\
    (forall e, respondent_email d = Some e -> email e = true) /\
    (forall n, respondent_name d = Some n -> n <> "") /\
    Forall (fun a => uuid (question_id a) = true) (submitted d) /\
    submitted d <> [] /\
    db' = View.stored db d rid.
Proof.
  unfold handle, parse.
  destruct (responseSchema uuid email body) as [m|d] eqn:Ep;
    [simpl; intros [= <- <-]; discriminate|].
  destruct (responseSchema_valid body d Ep) as (H1 & H2 & H3 & H4 & H5).
  simpl. destruct (create_response db env d) as [early|[rid db1]] eqn:Hc.
  - intros [= <- <-] E.
    destruct (SubmitFacts.create_response_early db env d early Hc) as [Hs _].
    contradiction.
  - destruct (answers_insert_error env) eqn:Ha; intros [= <- <-];
      [discriminate|].
    intros _. exists d, rid.
    destruct (SubmitMore.created_fresh db env d rid db1 Hc) as [_ ->].
    repeat split; auto.
Qed.

Lemma answerSchema_null (fields : list (string * json)) :
  get fields "answer_text" = Some JNull \/
  get fields "answer_options" = Some JNull ->
  exists m, answerSchema uuid (Some (JObject fields)) = inl m.
Proof.
  intros H. unfold answerSchema.
  destruct (z_string _ (get fields "question_id")) as [m|q]; simpl; [eauto|].
  destruct (get fields "answer_text") as [t|] eqn:Et.
  - destruct H as [[= ->]|H]; [simpl; eauto|].
    destruct (z_optional (z_string no_check) (Some t)) as [m|t'];
      simpl; [eauto|].
    rewrite H. simpl. eauto.
  - destruct H as [H|H]; [discriminate|]. simpl. rewrite H. simpl. eauto.
Qed.

(** X15.  [null] does not pass for a missing member: a body in which some
    answer carries [answer_text: null] or [answer_options: null] is
    answered 400 and nothing is written. *)
Theorem null_member_is_rejected
    (db : store) (env : outcomes)
    (fields answer : list (string * json)) (items : list json) :
  get fields "answers" = Some (JArray items) ->
  In (JObject answer) items ->
  get answer "answer_text" = Some JNull \/
  get answer "answer_options" = Some JNull ->
  exists m,
    handle uuid email db env (Some (JObject fields))
    = (db, Reply 400 (Error m)).
Proof.
  intros Hitems Hin Hnull.
  destruct (answerSchema_null answer Hnull) as [m Hm].
  destruct (z_items_fails (answerSchema uuid) items _ m Hin Hm) as [m' Hm'].
  unfold handle, parse, responseSchema.
  destruct (z_string _ (get fields "survey_id")) as [e|sid]; simpl; [eauto|].
  destruct (z_optional _ (get fields "respondent_email")) as [e|mail];
    simpl; [eauto|].
  destruct (z_optional _ (get fields "respondent_name")) as [e|name];
    simpl; [eauto|].
  rewrite Hitems. unfold z_array.
  destruct items as [|j rest]; [contradiction|].
  rewrite Hm'. simpl. eauto.
Qed.

Lemma fill_items (answers : list Fill.form_answer) (l : list answer_input) :
  z_items (answerSchema uuid) (Fill.answersArray answers) = inr l ->
  Forall Fill.has_text answers /\
  l = List.map
        (fun a => AnswerInput (Fill.question_id a) (Fill.answer_text a) None)
        answers.
Proof.
  revert l. induction answers as [|a rest IH]; simpl; intros l.
  - intros [= <-]. split; [constructor|reflexivity].
  - unfold answerSchema at 1. simpl.
    destruct (uuid (Fill.question_id a)); simpl; [|discriminate].
    unfold Fill.text_or_null.
    destruct (Fill.answer_text a) as [t|] eqn:Et; [|discriminate].
    destruct t as [|c t]; [discriminate|]. simpl.
    fold (answerSchema uuid).
    destruct (z_items (answerSchema uuid) (Fill.answersArray rest))
      as [m|l'] eqn:Er; simpl; [discriminate|].
    intros [= <-]. destruct (IH l' eq_refl) as [Hall ->].
    split; [|reflexivity].
    constructor; [|exact Hall].
    exists (String c t). split; [exact Et|discriminate].
Qed.

Lemma fill_schema (id : string) (answers : list Fill.form_answer) :
  responseSchema uuid email (Some (Fill.request_body id answers))
  = if uuid id then
      match answers with
      | [] => inl "至少需要回答一个问题"
      | _ :: _ =>
          and_then (z_items (answerSchema uuid) (Fill.answersArray answers))
            (fun l => inr (Submission id None None l))
      end
    else inl "问卷ID格式不正确".
Proof.
  unfold responseSchema, Fill.request_body. simpl get. unfold z_string.
  destruct (uuid id); [|reflexivity].
  destruct answers; reflexivity.
Qed.

(** X16.  The body the fill page sends passes the schema only when every
    answer on the page has a text that is not empty, because the page
    sends [null] for what is missing; and since it sends the selected
    options and the rating under names the schema does not know, what is
    stored from it has texts only: every answer row it adds has a
    non-empty [answer_text] and no [answer_options]. *)
Theorem fill_page_stores_texts_only
    (db db' : store) (env : outcomes) (id : string)
    (answers : list Fill.form_answer) (r : reply) :
  handle uuid email db env (Some (Fill.request_body id answers)) = (db', r) ->
  (status r = 201 -> Forall Fill.has_text answers) /\
  (forall row,
      In row (Submit.answers db') -> ~ In row (Submit.answers db) ->
      Answer.answer_options row = None /\
      exists t, Answer.answer_text row = Some t /\ t <> "").
Proof.
  unfold handle, parse. rewrite fill_schema.
  destruct (uuid id).
  2:{ intros [= <- <-]. split; [discriminate|]. intros row H1 H2.
      contradiction. }
  destruct answers as [|a0 rest0] eqn:Eans.
  { intros [= <- <-]. split; [discriminate|]. intros row H1 H2.
    contradiction. }
  rewrite <- Eans. clear Eans a0 rest0.
  destruct (z_items (answerSchema uuid) (Fill.answersArray answers))
    as [m|l] eqn:El; simpl and_then.
  { intros [= <- <-]. split; [discriminate|]. intros row H1 H2.
    contradiction. }
  destruct (fill_items answers l El) as [Hall ->]. simpl post.
  destruct (create_response db env _) as [early|[rid db1]] eqn:Hc.
  { intros [= <- <-]. split; [auto|]. intros row H1 H2. contradiction. }
  destruct (SubmitMore.created_fresh db env _ rid db1 Hc) as [Hf ->].
  destruct (answers_insert_error env).
  - intros [= <- <-]. split; [auto|]. intros row H1 H2. exfalso. apply H2.
    destruct (response_delete_error env); simpl in H1; [exact H1|].
    apply filter_In in H1. tauto.
  - intros [= <- <-]. split; [auto|]. simpl. intros row H1 H2.
    apply in_app_or in H1. destruct H1 as [H1|H1]; [contradiction|].
    unfold answersToInsert in H1. rewrite List.map_map in H1.
    apply in_map_iff in H1. destruct H1 as (a & <- & Ha). simpl.
    split; [reflexivity|].
    rewrite Forall_forall in Hall. apply list_elem_of_In in Ha.
    exact (Hall a Ha).
Qed.

End WithFormats.

End ZodFacts.

(** ** Texts of rating answers *)

Section RatingTexts.

Lemma parseFloat_word (c : ascii) (r : string) :
  is_word_start c = true -> JS.parseFloat (String c r) = JS.NaN.
Proof.
  destruct c as [[] [] [] [] [] [] [] []]; intros H; try discriminate H;
    destruct r as [|c1 [|c2 r2]]; reflexivity.
Qed.

Lemma omap_app_cons (a : answer) (before after : list answer) :
  omap contributes (before ++ a :: after)%list
  = (omap contributes before
       ++ match contributes a with Some x => [x] | None => [] end
       ++ omap contributes after)%list.
Proof.
  rewrite omap_app. f_equal. simpl.
  destruct (contributes a); reflexivity.
Qed.

(** X17.  A rating written in words is left out: an answer whose text
    starts with a Latin letter other than [I] adds nothing to the ratings
    of its question, so the average and the distribution are those of the
    other answers; it still counts in [total_answers]. *)
Theorem worded_rating_is_left_out
    (a : answer) (c : ascii) (r : string) (before after : list answer) :
  answer_text a = Some (String c r) ->
  is_word_start c = true ->
  contributes a = None /\
  ratings (before ++ a :: after)%list = ratings (before ++ after)%list /\
  length (before ++ a :: after)%list = S (length (before ++ after)%list).
Proof.
  intros Ha Hc.
  assert (contributes a = None) as Hnone.
  { unfold contributes. rewrite Ha. simpl.
    rewrite (parseFloat_word c r Hc). reflexivity. }
  split; [exact Hnone|]. split.
  - rewrite !ratings_contributes, omap_app_cons, Hnone, omap_app.
    reflexivity.
  - rewrite !length_app. simpl. lia.
Qed.

(** After a digit string: where [parseFloat] goes on from the unsigned
    literal. *)
Lemma parseFloat_digit_head (d : ascii) (r : string) :
  JS.is_digit d = true ->
  JS.parseFloat (String d r)
  = let '(ip, s2) := JS.span_digits (String d r) in
    let '(fp, s3) :=
      match s2 with
      | String "." r' => JS.span_digits r'
      | _ => (EmptyString, s2)
      end in
    if JS.is_empty ip && JS.is_empty fp then JS.NaN
    else JS.of_decimal false (JS.digits_value (ip ++ fp))
           (JS.exponent_part s3 - Z.of_nat (String.length fp)).
Proof.
  intros H. unfold JS.parseFloat. rewrite (trim_start_digit d r H).
  destruct d as [[] [] [] [] [] [] [] []]; try discriminate H; reflexivity.
Qed.

(** X18.  A rating text is read by its leading number: digits followed by
    anything that is not a digit, a point or an exponent mark (as in
    ["5 stars"] or ["4/5"]) count as the number the digits spell, exactly
    as if the rest were not there. *)
Theorem rating_read_by_leading_digits
    (d c : ascii) (ds rest : string) (o o' : option (list string)) :
  all_digits (String d ds) = true ->
  ends_number c = true ->
  JS.parseFloat (String d ds ++ String c rest)
    = JS.of_decimal false (JS.digits_value (String d ds)) 0 /\
  JS.parseFloat (String d ds) = JS.parseFloat (String d ds ++ String c rest) /\
  contributes (Answer (Some (String d ds ++ String c rest)) o)
    = contributes (Answer (Some (String d ds)) o').
Proof.
  intros Hds Hc.
  assert (JS.is_digit d = true) as Hd
    by (simpl in Hds; apply andb_prop in Hds; tauto).
  unfold ends_number in Hc.
  apply andb_prop in Hc. destruct Hc as [Hc HE].
  apply andb_prop in Hc. destruct Hc as [Hc He].
  apply andb_prop in Hc. destruct Hc as [Hc Hdot].
  apply Bool.negb_true_iff in Hc, Hdot, He, HE.
  assert (JS.parseFloat (String d ds ++ String c rest)
          = JS.of_decimal false (JS.digits_value (String d ds)) 0) as H1.
  { change (String d ds ++ String c rest)%string
      with (String d (ds ++ String c rest)).
    rewrite (parseFloat_digit_head d _ Hd).
    change (String d (ds ++ String c rest))
      with (String d ds ++ String c rest)%string.
    rewrite (span_digits_app (String d ds) c rest Hds Hc).
    rewrite (not_dot_branch c rest Hdot).
    unfold JS.exponent_part. rewrite He, HE.
    rewrite append_empty. reflexivity. }
  assert (JS.parseFloat (String d ds)
          = JS.of_decimal false (JS.digits_value (String d ds)) 0) as H2.
  { rewrite (parseFloat_digit_head d _ Hd).
    rewrite (span_digits_all (String d ds) Hds).
    rewrite append_empty. reflexivity. }
  split; [exact H1|]. split; [congruence|].
  unfold contributes. simpl. rewrite H1, H2. reflexivity.
Qed.

End RatingTexts.

(** ** Worked instances *)

Module Instances.
Import Submit.

Lemma sample_accepted :
  View.accepted Samples.db0 Samples.all_fine Samples.picks_z "r1".
Proof. repeat split. Qed.

Lemma sample_accepted_again :
  View.accepted Samples.db0 Cases.second_run Cases.picks_a_with_text "r2".
Proof. repeat split. Qed.

Lemma sample_referential : SubmitProps.referential Samples.db0.
Proof. intros a []. Qed.

Lemma sample_unique : View.unique_ids Samples.db0.
Proof. constructor. Qed.

Lemma first_unanswered_required_reported_witness :
  survey_select_error Samples.all_fine = false /\
  View.survey_open Samples.db0 Cases.skips_required = true /\
  questions_select_error Samples.all_fine = false /\
  View.unanswered Samples.db0 Cases.skips_required = [Cases.q1_row] /\
  post Samples.db0 Samples.all_fine (Valid Cases.skips_required)
  = (Samples.db0, Reply 400 (Error "必填问题未回答: Pick")).
Proof.
  split; [reflexivity|]. split; [reflexivity|]. split; [reflexivity|].
  split; [reflexivity|].
  apply (SubmitMore.first_unanswered_required_reported Samples.db0
           Samples.all_fine Cases.skips_required Cases.q1_row []);
    reflexivity.
Defined.

Lemma reply_ignores_answer_contents_witness :
  as_uuid (survey_id Samples.picks_z)
    = as_uuid (survey_id Cases.picks_a_with_text) /\
  List.map question_id (submitted Samples.picks_z)
    = List.map question_id (submitted Cases.picks_a_with_text) /\
  survey_select_error Samples.all_fine
    = survey_select_error (Outcomes false false (Some "r1") false true) /\
  questions_select_error Samples.all_fine
    = questions_select_error (Outcomes false false (Some "r1") false true) /\
  response_insert Samples.all_fine
    = response_insert (Outcomes false false (Some "r1") false true) /\
  answers_insert_error Samples.all_fine
    = answers_insert_error (Outcomes false false (Some "r1") false true) /\
  View.checked Samples.db0 Samples.all_fine Samples.picks_z
    = View.checked Samples.db0 (Outcomes false false (Some "r1") false true)
        Cases.picks_a_with_text /\
  snd (post Samples.db0 Samples.all_fine (Valid Samples.picks_z))
    = snd (post Samples.db0 (Outcomes false false (Some "r1") false true)
             (Valid Cases.picks_a_with_text)).
Proof.
  split; [reflexivity|]. split; [reflexivity|]. split; [reflexivity|].
  split; [reflexivity|]. split; [reflexivity|]. split; [reflexivity|].
  destruct (SubmitMore.reply_ignores_answer_contents Samples.db0
              Samples.all_fine (Outcomes false false (Some "r1") false true)
              Samples.picks_z Cases.picks_a_with_text
              eq_refl eq_refl eq_refl eq_refl eq_refl) as [Hc Hr].
  split; [exact Hc|exact (Hr eq_refl)].
Defined.

Lemma existing_rows_are_kept_witness :
  post Samples.db0 Samples.both_fail (Valid Samples.picks_z)
  = (Store (surveys Samples.db0) (questions Samples.db0)
       [Response.Row "r1" "s1" None None] [],
     Reply 500 (Error "保存答案失败")) /\
  surveys (Store (surveys Samples.db0) (questions Samples.db0)
             [Response.Row "r1" "s1" None None] [])
    = surveys Samples.db0 /\
  questions (Store (surveys Samples.db0) (questions Samples.db0)
               [Response.Row "r1" "s1" None None] [])
    = questions Samples.db0 /\
  (exists new,
      responses (Store (surveys Samples.db0) (questions Samples.db0)
                   [Response.Row "r1" "s1" None None] [])
      = (responses Samples.db0 ++ new)%list /\ length new <= 1) /\
  (SubmitProps.referential Samples.db0 ->
   exists new,
     answers (Store (surveys Samples.db0) (questions Samples.db0)
                [Response.Row "r1" "s1" None None] [])
     = (answers Samples.db0 ++ new)%list).
Proof.
  split; [reflexivity|].
  apply (SubmitMore.existing_rows_are_kept Samples.db0 _ Samples.both_fail
           (Valid Samples.picks_z) (Reply 500 (Error "保存答案失败"))).
  reflexivity.
Defined.

Lemma integrity_is_preserved_witness :
  post Samples.db0 Samples.all_fine (Valid Samples.picks_z)
  = (View.stored Samples.db0 Samples.picks_z "r1",
     Reply 201 (Created "问卷提交成功" "r1")) /\
  SubmitProps.referential Samples.db0 /\
  View.unique_ids Samples.db0 /\
  SubmitProps.referential (View.stored Samples.db0 Samples.picks_z "r1") /\
  View.unique_ids (View.stored Samples.db0 Samples.picks_z "r1").
Proof.
  split; [reflexivity|].
  split; [exact sample_referential|]. split; [exact sample_unique|].
  apply (SubmitMore.integrity_is_preserved Samples.db0 _ Samples.all_fine
           (Valid Samples.picks_z) (Reply 201 (Created "问卷提交成功" "r1")));
    [reflexivity | exact sample_referential | exact sample_unique].
Defined.

Lemma client_error_writes_nothing_witness :
  post Samples.db0 Samples.all_fine (Valid Samples.picks_foreign)
  = (Samples.db0, Reply 400 (Error "回答包含无效的问题ID")) /\
  (status (Reply 400 (Error "回答包含无效的问题ID")) = 400 \/
   status (Reply 400 (Error "回答包含无效的问题ID")) = 404) /\
  Samples.db0 = Samples.db0.
Proof.
  split; [reflexivity|]. split; [left; reflexivity|].
  apply (SubmitMore.client_error_writes_nothing Samples.db0 Samples.db0
           Samples.all_fine (Valid Samples.picks_foreign)
           (Reply 400 (Error "回答包含无效的问题ID")));
    [reflexivity | left; reflexivity].
Defined.

Lemma submissions_do_not_exclude_each_other_witness :
  View.accepted Samples.db0 Samples.all_fine Samples.picks_z "r1" /\
  View.accepted Samples.db0 Cases.second_run Cases.picks_a_with_text "r2" /\
  "r1" <> "r2" /\
  post (fst (post Samples.db0 Samples.all_fine (Valid Samples.picks_z)))
    Cases.second_run (Valid Cases.picks_a_with_text)
  = (View.stored (View.stored Samples.db0 Samples.picks_z "r1")
       Cases.picks_a_with_text "r2",
     Reply 201 (Created "问卷提交成功" "r2")).
Proof.
  split; [exact sample_accepted|]. split; [exact sample_accepted_again|].
  split; [discriminate|].
  apply (SubmitMore.submissions_do_not_exclude_each_other Samples.db0
           Samples.all_fine Cases.second_run Samples.picks_z
           Cases.picks_a_with_text "r1" "r2");
    [exact sample_accepted | exact sample_accepted_again | discriminate].
Defined.

Lemma only_open_surveys_accept_witness :
  post Samples.db0 Samples.all_fine
    (Valid (Submission "s2" None None [AnswerInput "q9" (Some "x") None]))
  = (Samples.db0, Reply 404 (Error "问卷不存在")) /\
  View.survey_open Samples.db0
    (Submission "s2" None None [AnswerInput "q9" (Some "x") None]) = false /\
  Samples.db0 = Samples.db0 /\
  (Reply 404 (Error "问卷不存在") = Reply 404 (Error "问卷不存在") \/
   Reply 404 (Error "问卷不存在")
   = Reply 400 (Error "问卷未发布，无法提交回答")).
Proof.
  split; [reflexivity|]. split; [reflexivity|].
  apply (SubmitMore.only_open_surveys_accept Samples.db0 Samples.db0
           Samples.all_fine
           (Submission "s2" None None [AnswerInput "q9" (Some "x") None])
           (Reply 404 (Error "问卷不存在"))); reflexivity.
Defined.

End Instances.

Lemma accepted_answers_reach_statistics_witness :
  View.accepted Samples.db0 Samples.all_fine Samples.picks_z "r1" /\
  let db' :=
    fst (Submit.post Samples.db0 Samples.all_fine
           (Submit.Valid Samples.picks_z)) in
  let qid := Submit.Question.id Cases.q1_row in
  View.embedded_answers db' qid
    = (View.embedded_answers Samples.db0 qid
         ++ View.answers_for Samples.picks_z qid)%list /\
  questionStats (View.stats_row db' Cases.q1_row) !! "total_answers"
    = Some (FCount (length (View.embedded_answers Samples.db0 qid)
                    + length (View.answers_for Samples.picks_z qid))) /\
  (Submit.includes
     (List.map Submit.question_id (Submit.submitted Samples.picks_z)) qid
     = false ->
   questionStats (View.stats_row db' Cases.q1_row)
   = questionStats (View.stats_row Samples.db0 Cases.q1_row)).
Proof.
  split; [exact Instances.sample_accepted|].
  apply (accepted_answers_reach_statistics Samples.db0 Samples.all_fine
           Samples.picks_z "r1" Cases.q1_row).
  exact Instances.sample_accepted.
Defined.

Lemma accepted_selections_raise_tallies_witness :
  View.accepted Samples.db0 Samples.all_fine Samples.picks_z "r1" /\
  is_choice (Submit.Question.question_type Cases.q1_row) = true /\
  Forall plain
    (selections (View.embedded_answers Samples.db0 "q1")) /\
  Forall plain (selections (View.answers_for Samples.picks_z "q1")) /\
  exists tallies,
    questionStats
      (View.stats_row
         (fst (Submit.post Samples.db0 Samples.all_fine
                 (Submit.Valid Samples.picks_z)))
         Cases.q1_row)
      !! "option_stats" = Some (FDict tallies) /\
    forall v,
      tallies !! v
      = entry (occurrences v
                 (selections (View.embedded_answers Samples.db0 "q1"))
               + occurrences v
                   (selections (View.answers_for Samples.picks_z "q1"))).
Proof.
  assert (Forall plain (selections (View.answers_for Samples.picks_z "q1")))
    as Hz by (repeat constructor).
  split; [exact Instances.sample_accepted|]. split; [reflexivity|].
  split; [constructor|]. split; [exact Hz|].
  apply (accepted_selections_raise_tallies Samples.db0 Samples.all_fine
           Samples.picks_z "r1" Cases.q1_row);
    [exact Instances.sample_accepted | reflexivity | constructor | exact Hz].
Defined.

Lemma accepted_ratings_reach_distribution_witness :
  View.accepted Cases.db2 Samples.all_fine Cases.rates "r1" /\
  Submit.Question.question_type Cases.q5_row = "rating" /\
  (ratings (View.embedded_answers Cases.db2 "q5")
     ++ ratings (View.answers_for Cases.rates "q5"))%list <> [] /\
  questionStats
    (View.stats_row
       (fst (Submit.post Cases.db2 Samples.all_fine
               (Submit.Valid Cases.rates)))
       Cases.q5_row)
    !! "rating_distribution" = Some (FDict {["4" := TNum 2]}) /\
  exists dist,
    questionStats
      (View.stats_row
         (fst (Submit.post Cases.db2 Samples.all_fine
                 (Submit.Valid Cases.rates)))
         Cases.q5_row)
      !! "rating_distribution" = Some (FDict dist) /\
    forall key,
      dist !! key
      = entry (occurrences key
                 (List.map JS.toString
                    (ratings (View.embedded_answers Cases.db2 "q5")))
               + occurrences key
                   (List.map JS.toString
                      (ratings (View.answers_for Cases.rates "q5")))).
Proof.
  assert (View.accepted Cases.db2 Samples.all_fine Cases.rates "r1") as Hacc
    by (repeat split).
  split; [exact Hacc|]. split; [reflexivity|].
  split; [vm_compute; discriminate|].
  split; [vm_compute; reflexivity|].
  apply (accepted_ratings_reach_distribution Cases.db2 Samples.all_fine
           Cases.rates "r1" Cases.q5_row);
    [exact Hacc | reflexivity | vm_compute; discriminate].
Defined.

Lemma statistics_follow_the_questions_witness :
  Read.get_stats "u1" Cases.owner_queries
  = (200, Read.Stats "s1" "Lunch" 0
            [questionStats Samples.q_z; questionStats Samples.q_four]) /\
  exists c qs,
    Read.count Cases.owner_queries = Some c /\
    Read.questions Cases.owner_queries = Some qs /\
    0 = Read.or_none c /\
    length [questionStats Samples.q_z; questionStats Samples.q_four]
      = length qs /\
    forall i q,
      nth_error qs i = Some q ->
      exists s,
        nth_error [questionStats Samples.q_z; questionStats Samples.q_four] i
          = Some s /\
        s !! "id" = Some (FString (id q)) /\
        s !! "question_text" = Some (FString (question_text q)) /\
        s !! "question_type" = Some (FString (question_type q)) /\
        s !! "total_answers" = Some (FCount (length (answers q))).
Proof.
  split; [reflexivity|].
  apply (statistics_follow_the_questions "u1" Cases.owner_queries
           "s1" "Lunch" 0).
  reflexivity.
Defined.

Lemma tallies_count_selections_witness :
  is_choice (question_type Samples.q_gap) = true /\
  Forall plain (selections (answers Samples.q_gap)) /\
  exists tallies,
    questionStats Samples.q_gap !! "option_stats" = Some (FDict tallies) /\
    numeric tallies /\
    Obj.total tallies = length (selections (answers Samples.q_gap)) /\
    forall v,
      tallies !! v
      = entry (occurrences v (selections (answers Samples.q_gap))).
Proof.
  assert (Forall plain (selections (answers Samples.q_gap))) as Hp
    by (repeat constructor).
  split; [reflexivity|]. split; [exact Hp|].
  apply (tallies_count_selections Samples.q_gap); [reflexivity|exact Hp].
Defined.

Lemma tallies_ignore_answer_order_witness :
  Permutation (Samples.picks [["a"]; ["b"; "a"]])
    (Samples.picks [["b"; "a"]; ["a"]]) /\
  (Forall plain (selections (Samples.picks [["a"]; ["b"; "a"]])) ->
   optionCounts (Samples.picks [["a"]; ["b"; "a"]])
   = optionCounts (Samples.picks [["b"; "a"]; ["a"]])) /\
  rating_dist (ratings (Samples.picks [["a"]; ["b"; "a"]]))
    = rating_dist (ratings (Samples.picks [["b"; "a"]; ["a"]])) /\
  length (ratings (Samples.picks [["a"]; ["b"; "a"]]))
    = length (ratings (Samples.picks [["b"; "a"]; ["a"]])).
Proof.
  assert (Permutation (Samples.picks [["a"]; ["b"; "a"]])
            (Samples.picks [["b"; "a"]; ["a"]])) as Hperm
    by apply perm_swap.
  split; [exact Hperm|].
  apply (tallies_ignore_answer_order _ _ Hperm).
Defined.

Lemma stored_submission_passed_schema_witness :
  Zod.handle Cases.hex_uuid Cases.has_at Cases.db1 Samples.all_fine
    (Some (Fill.request_body Cases.survey_uuid Cases.page_text_only))
  = (View.stored Cases.db1
       (Submit.Submission Cases.survey_uuid None None
          [Submit.AnswerInput Cases.text_uuid (Some "tasty") None]) "r1",
     Submit.Reply 201 (Submit.Created "问卷提交成功" "r1")) /\
  exists d rid,
    Zod.parse Cases.hex_uuid Cases.has_at
      (Some (Fill.request_body Cases.survey_uuid Cases.page_text_only))
    = Submit.Valid d /\
    Cases.hex_uuid (Submit.survey_id d) = true /\
    (forall e, Submit.respondent_email d = Some e -> Cases.has_at e = true) /\
    (forall n, Submit.respondent_name d = Some n -> n <> "") /\
    Forall (fun a => Cases.hex_uuid (Submit.question_id a) = true)
      (Submit.submitted d) /\
    Submit.submitted d <> [] /\
    View.stored Cases.db1
      (Submit.Submission Cases.survey_uuid None None
         [Submit.AnswerInput Cases.text_uuid (Some "tasty") None]) "r1"
    = View.stored Cases.db1 d rid.
Proof.
  split; [reflexivity|].
  apply (ZodFacts.stored_submission_passed_schema Cases.hex_uuid Cases.has_at
           Cases.db1 _ Samples.all_fine
           (Some (Fill.request_body Cases.survey_uuid Cases.page_text_only))
           (Submit.Reply 201 (Submit.Created "问卷提交成功" "r1")));
    reflexivity.
Defined.

Lemma null_member_is_rejected_witness :
  Zod.get Cases.body_with_null "answers"
  = Some (Zod.JArray
            [Zod.JObject [("question_id", Zod.JString Cases.choice_uuid);
                          ("answer_text", Zod.JNull);
                          ("answer_options",
                           Zod.JArray [Zod.JString "a"])]]) /\
  exists m,
    Zod.handle Cases.hex_uuid Cases.has_at Cases.db1 Samples.all_fine
      (Some (Zod.JObject Cases.body_with_null))
    = (Cases.db1, Submit.Reply 400 (Submit.Error m)).
Proof.
  split; [reflexivity|].
  apply (ZodFacts.null_member_is_rejected Cases.hex_uuid Cases.has_at
           Cases.db1 Samples.all_fine Cases.body_with_null
           [("question_id", Zod.JString Cases.choice_uuid);
            ("answer_text", Zod.JNull);
            ("answer_options", Zod.JArray [Zod.JString "a"])]
           [Zod.JObject [("question_id", Zod.JString Cases.choice_uuid);
                         ("answer_text", Zod.JNull);
                         ("answer_options", Zod.JArray [Zod.JString "a"])]]);
    [reflexivity | left; reflexivity | left; reflexivity].
Defined.

Lemma fill_page_stores_texts_only_witness :
  Zod.handle Cases.hex_uuid Cases.has_at Cases.db1 Samples.all_fine
    (Some (Fill.request_body Cases.survey_uuid Cases.page_both))
  = (Cases.db1,
     Submit.Reply 400 (Submit.Error "Expected string, received null")) /\
  (Submit.status
     (Submit.Reply 400 (Submit.Error "Expected string, received null")) = 201 ->
   Forall Fill.has_text Cases.page_both) /\
  (forall row,
      In row (Submit.answers Cases.db1) ->
      ~ In row (Submit.answers Cases.db1) ->
      Submit.Answer.answer_options row = None /\
      exists t, Submit.Answer.answer_text row = Some t /\ t <> "").
Proof.
  split; [reflexivity|].
  apply (ZodFacts.fill_page_stores_texts_only Cases.hex_uuid Cases.has_at
           Cases.db1 Cases.db1 Samples.all_fine Cases.survey_uuid
           Cases.page_both
           (Submit.Reply 400 (Submit.Error "Expected string, received null"))).
  reflexivity.
Defined.

Lemma worded_rating_is_left_out_witness :
  answer_text (Answer (Some "five") None) = Some "five" /\
  is_word_start "f" = true /\
  contributes (Answer (Some "five") None) = None /\
  ratings (Samples.texts ["4"] ++ Answer (Some "five") None
             :: Samples.texts ["2"])%list
    = ratings (Samples.texts ["4"] ++ Samples.texts ["2"])%list /\
  length (Samples.texts ["4"] ++ Answer (Some "five") None
            :: Samples.texts ["2"])%list
    = S (length (Samples.texts ["4"] ++ Samples.texts ["2"])%list).
Proof.
  split; [reflexivity|]. split; [reflexivity|].
  apply (worded_rating_is_left_out (Answer (Some "five") None) "f" "ive"
           (Samples.texts ["4"]) (Samples.texts ["2"])); reflexivity.
Defined.

Lemma rating_read_by_leading_digits_witness :
  all_digits "5" = true /\
  ends_number " " = true /\
  JS.parseFloat "5 stars" = JS.of_decimal false (JS.digits_value "5") 0 /\
  JS.parseFloat "5" = JS.parseFloat "5 stars" /\
  contributes (Answer (Some "5 stars") None)
    = contributes (Answer (Some "5") None).
Proof.
  split; [reflexivity|]. split; [reflexivity|].
  apply (rating_read_by_leading_digits "5" " " "" "stars" None None);
    reflexivity.
Defined.
